(** * Tindiana quotation system: price allocation and supplier scoring

    A shallow embedding of the business core of [app.py]: the currency
    parser [parse_moeda], the price alert [get_alerta_preco], the supplier
    ranking [ranking], the batch allocation [mapa_cotacao] and the two
    deletion routes [deletar_fornecedor] and [deletar_cotacao_final].

    Python's [float] is IEEE 754 binary64, which is the kernel's primitive
    [float]: arithmetic and comparisons below are bit-exact.  A Python [str]
    is a [string] whose characters are the code points below 256; an [int]
    is a [Z].  Routes that talk to the database take the database as a value
    and return the committed one. *)

From Stdlib Require Import ZArith List String Ascii Bool Lia Floats.
From Stdlib Require Import DecimalString Sorting.Permutation Sorting.Sorted.
Import ListNotations.

Set Warnings "-inexact-float".

(* ================================================================== *)
(** * Python runtime *)
(* ================================================================== *)

Module Py.

Local Open Scope char_scope.

(** ** [str] *)

(** [str.isspace] on the code points below 256. *)
Definition isspace (c : ascii) : bool :=
  let n := N_of_ascii c in
  ((9 <=? n) && (n <=? 13) || (28 <=? n) && (n <=? 32)
   || (n =? 133) || (n =? 160))%N.

Fixpoint lstrip_chars (l : list ascii) : list ascii :=
  match l with
  | c :: l' => if isspace c then lstrip_chars l' else l
  | [] => []
  end.

Definition strip_chars (l : list ascii) : list ascii :=
  rev (lstrip_chars (rev (lstrip_chars l))).

(** [s.strip()] *)
Definition strip (s : string) : string :=
  string_of_list_ascii (strip_chars (list_ascii_of_string s)).

(** [s.replace(old, new)] for a non-empty [old], as at every call site of
    the program: the occurrences of [old] are found from the left and do
    not overlap.  [skip] counts the characters of a match still to drop. *)
Fixpoint replace_from (old new : string) (skip : nat) (s : string) : string :=
  match s with
  | EmptyString => EmptyString
  | String c s' =>
      match skip with
      | S k => replace_from old new k s'
      | O =>
          if String.prefix old s
          then (new ++ replace_from old new (String.length old - 1) s')%string
          else String c (replace_from old new 0 s')
      end
  end.

Definition replace (old new s : string) : string := replace_from old new 0 s.

(** ** [float] *)

Local Open Scope float_scope.

(** [float(n)] for an [int] that fits a database column: the nearest
    binary64, ties to even. *)
Definition of_int (z : Z) : float := SF2Prim (binary_normalize prec emax z 0 false).

(** The value [(-1)^neg * m * 10^e], correctly rounded. *)
Definition of_decimal (neg : bool) (m : Z) (e : Z) : float :=
  SF2Prim
    match m with
    | Zpos p =>
        if (0 <=? e)%Z
        then binary_normalize prec emax ((if neg then Zneg p else Zpos p) * 10 ^ e) 0 false
        else SFdiv prec emax (S754_finite neg p 0)
                   (S754_finite false (Z.to_pos (10 ^ (- e))) 0)
    | _ => S754_zero neg
    end.

Definition isdigit (c : ascii) : bool :=
  let n := N_of_ascii c in ((48 <=? n) && (n <=? 57))%N.

Definition digit_value (c : ascii) : Z := Z.of_N (N_of_ascii c) - 48.

Fixpoint span_digits (l : list ascii) : list ascii * list ascii :=
  match l with
  | c :: l' =>
      if isdigit c then let (d, r) := span_digits l' in (c :: d, r) else ([], l)
  | [] => ([], [])
  end.

Definition digits_value (d : list ascii) : Z :=
  fold_left (fun acc c => 10 * acc + digit_value c)%Z d 0%Z.

Definition parse_sign (l : list ascii) : bool * list ascii :=
  match l with
  | "-" :: r => (true, r)
  | "+" :: r => (false, r)
  | _ => (false, l)
  end.

Definition lower (c : ascii) : ascii :=
  let n := N_of_ascii c in
  if ((65 <=? n) && (n <=? 90))%N then ascii_of_N (n + 32) else c.

(** Underscores are allowed only between two digits. *)
Fixpoint underscores_ok (prev : ascii) (l : list ascii) : bool :=
  match l with
  | [] => negb (Ascii.eqb prev "_")
  | c :: l' =>
      (if Ascii.eqb c "_" then isdigit prev
       else if Ascii.eqb prev "_" then isdigit c else true)
      && underscores_ok c l'
  end.

(** What [float] strips itself: ASCII blanks, and the two other spaces
    below 256 (which it first turns into blanks). *)
Definition float_space (c : ascii) : bool :=
  let n := N_of_ascii c in
  ((9 <=? n) && (n <=? 13) || (n =? 32) || (n =? 133) || (n =? 160))%N.

Fixpoint lstrip_float (l : list ascii) : list ascii :=
  match l with
  | c :: l' => if float_space c then lstrip_float l' else l
  | [] => []
  end.

(** Optional exponent: [e] or [E], an optional sign and at least one digit;
    without a digit the letter is not part of the number. *)
Definition parse_exponent (l : list ascii) : Z * list ascii :=
  match l with
  | c :: r =>
      if Ascii.eqb (lower c) "e" then
        let (neg, r1) := parse_sign r in
        let (d, r2) := span_digits r1 in
        match d with
        | [] => (0%Z, l)
        | _ => ((if neg then - digits_value d else digits_value d)%Z, r2)
        end
      else (0%Z, l)
  | [] => (0%Z, l)
  end.

(** [float(s)] for a [str]; [None] stands for [ValueError]. *)
Definition float_of_str (s : string) : option float :=
  let l := list_ascii_of_string s in
  if underscores_ok Ascii.zero l then
    let l := filter (fun c => negb (Ascii.eqb c "_")) l in
    let l := rev (lstrip_float (rev (lstrip_float l))) in
    let (neg, r) := parse_sign l in
    let word := string_of_list_ascii (map lower r) in
    if (String.eqb word "inf" || String.eqb word "infinity")%bool
    then Some (if neg then neg_infinity else infinity)
    else if String.eqb word "nan" then Some nan
    else
      let (ip, r1) := span_digits r in
      let (fp, r2) := match r1 with
                      | "." :: r1' => span_digits r1'
                      | _ => ([], r1)
                      end in
      match ip ++ fp with
      | [] => None
      | ds =>
          let (ex, r3) := parse_exponent r2 in
          match r3 with
          | [] => Some (of_decimal neg (digits_value ds) (ex - Z.of_nat (List.length fp)))
          | _ => None
          end
      end
  else None.

(** [a / b]: [None] stands for [ZeroDivisionError]. *)
Definition div (a b : float) : option float :=
  if b =? 0 then None else Some (a / b).

(** [max(a, b)] and [min(a, b)] keep their first argument unless the second
    is strictly beyond it. *)
Definition max (a b : float) : float := if a <? b then b else a.
Definition min (a b : float) : float := if b <? a then b else a.

(** [sum(xs)], added from the left starting at [0]. *)
Definition sum (xs : list float) : float := fold_left PrimFloat.add xs 0.

(** [round(x, 1)]: the exact value of [x] rounded to one decimal, halves to
    the even digit, then to the nearest binary64. *)
Definition round_half_even (num den : Z) : Z :=
  let q := (num / den)%Z in
  let r := (num mod den)%Z in
  match (2 * r ?= den)%Z with
  | Lt => q
  | Gt => (q + 1)%Z
  | Eq => if Z.even q then q else (q + 1)%Z
  end.

Definition round1 (x : float) : float :=
  match Prim2SF x with
  | S754_finite s m e =>
      let n := if (0 <=? e)%Z
               then (Zpos m * 2 ^ e * 10)%Z
               else round_half_even (Zpos m * 10) (2 ^ (- e)) in
      SF2Prim match n with
              | Zpos p => SFdiv prec emax (S754_finite s p 0) (S754_finite false 10 0)
              | _ => S754_zero s
              end
  | _ => x
  end.

(** [l.sort(key=key, reverse=True)]: stable, largest key first.  Written
    as an insertion sort; on keys that [<] orders totally (no NaN) every
    stable sort returns this list. *)
Fixpoint insert_reverse {A} (key : A -> float) (x : A) (l : list A) : list A :=
  match l with
  | [] => [x]
  | y :: l' => if key x <? key y then y :: insert_reverse key x l' else x :: l
  end.

Definition sort_reverse {A} (key : A -> float) (l : list A) : list A :=
  fold_right (insert_reverse key) [] l.

(** [min(xs)] and [max(xs)] of a non-empty sequence. *)
Definition min_list (x : float) (xs : list float) : float :=
  fold_left (fun m y => if y <? m then y else m) xs x.
Definition max_list (x : float) (xs : list float) : float :=
  fold_left (fun m y => if m <? y then y else m) xs x.

(** [str(n)] *)
Definition str_of_int (z : Z) : string := NilZero.string_of_int (Z.to_int z).

End Py.

(* ================================================================== *)
(** * Data model *)
(* ================================================================== *)

(** [Requisicao.status] *)
Inductive Status := Pendente | Cotado | Processado.

Definition Status_eqb (a b : Status) : bool :=
  match a, b with
  | Pendente, Pendente | Cotado, Cotado | Processado, Processado => true
  | _, _ => false
  end.

Module Produto.
Record t := { id : Z; nome : string; ativo : bool }.
End Produto.

Module Fornecedor.
Record t := { id : Z; nome : string; ativo : bool }.
End Fornecedor.

Module Requisicao.
Record t := { id : Z; produto_id : Z; quantidade : Z; status : Status }.
Definition set_status (s : Status) (r : t) : t :=
  {| id := id r; produto_id := produto_id r; quantidade := quantidade r; status := s |}.
End Requisicao.

(** [data_cotacao] and [status] take their defaults and are never read by
    the functions below. *)
Module Cotacao.
Record t := {
  id : Z;
  preco : float;
  produto_id : Z;
  fornecedor_id : Z;
  requisicao_origem_id : option Z
}.
End Cotacao.

(** The tables; [requisicao_fornecedores] holds the rows
    [(requisicao_id, fornecedor_id)] of the association table. *)
Record DB := {
  produtos : list Produto.t;
  fornecedores : list Fornecedor.t;
  requisicoes : list Requisicao.t;
  cotacoes : list Cotacao.t;
  requisicao_fornecedores : list (Z * Z)
}.

(** ** Queries *)

(** [Produto.query.get(id)], [Fornecedor.query.get(id)], ... *)
Definition get_produto (db : DB) (id : Z) : option Produto.t :=
  find (fun p => Produto.id p =? id)%Z (produtos db).
Definition get_fornecedor (db : DB) (id : Z) : option Fornecedor.t :=
  find (fun f => Fornecedor.id f =? id)%Z (fornecedores db).
Definition get_requisicao (db : DB) (id : Z) : option Requisicao.t :=
  find (fun r => Requisicao.id r =? id)%Z (requisicoes db).
Definition get_cotacao (db : DB) (id : Z) : option Cotacao.t :=
  find (fun c => Cotacao.id c =? id)%Z (cotacoes db).

(** [Requisicao.query.filter_by(status='Pendente').all()] *)
Definition requisicoes_pendentes (db : DB) : list Requisicao.t :=
  filter (fun r => Status_eqb (Requisicao.status r) Pendente) (requisicoes db).

(** [Fornecedor.query.filter_by(ativo=True).all()] *)
Definition fornecedores_ativos (db : DB) : list Fornecedor.t :=
  filter Fornecedor.ativo (fornecedores db).

(** [... .order_by(Fornecedor.nome).all()] *)
Fixpoint inserir_por_nome (f : Fornecedor.t) (l : list Fornecedor.t) : list Fornecedor.t :=
  match l with
  | [] => [f]
  | g :: l' =>
      if String.ltb (Fornecedor.nome g) (Fornecedor.nome f) || String.eqb (Fornecedor.nome g) (Fornecedor.nome f)
      then g :: inserir_por_nome f l'
      else f :: l
  end.

Definition order_by_nome (l : list Fornecedor.t) : list Fornecedor.t :=
  fold_left (fun acc f => inserir_por_nome f acc) l [].

(** [req.fornecedores_selecionados]: the suppliers joined to the request
    through the association table. *)
Definition fornecedores_selecionados (db : DB) (req : Requisicao.t) : list Fornecedor.t :=
  flat_map (fun row : Z * Z =>
              if (fst row =? Requisicao.id req)%Z
              then match get_fornecedor db (snd row) with
                   | Some f => [f]
                   | None => []
                   end
              else [])
           (requisicao_fornecedores db).

(** [forn.cotacoes] and [Cotacao.query.filter_by(fornecedor_id=...).all()] *)
Definition cotacoes_do_fornecedor (db : DB) (fid : Z) : list Cotacao.t :=
  filter (fun c => Cotacao.fornecedor_id c =? fid)%Z (cotacoes db).

(** [db.func.avg(col)]: NULL on no row, else the sum over the count. *)
Definition sql_avg (xs : list float) : option float :=
  match xs with
  | [] => None
  | _ => Some (Py.sum xs / Py.of_int (Z.of_nat (List.length xs)))%float
  end.

(** [x or 0] for an optional float: [None] and zero are falsy. *)
Definition or_zero (o : option float) : float :=
  match o with
  | Some x => if (x =? 0)%float then 0%float else x
  | None => 0%float
  end.

(** The next key of a table: one more than the largest, 1 when empty. *)
Definition proximo_id (ids : list Z) : Z :=
  match ids with
  | [] => 1
  | i :: ids' => 1 + fold_left Z.max ids' i
  end.

(* ================================================================== *)
(** * Helper functions of [app.py] *)
(* ================================================================== *)

Local Open Scope string_scope.

(** The three rewrites and the strip that [parse_moeda] applies before
    [float]. *)
Definition normalizar_moeda (valor_str : string) : string :=
  Py.strip (Py.replace "," "." (Py.replace "." "" (Py.replace "R$" "" valor_str))).

(** [parse_moeda]: [None] on an empty string and on [ValueError]. *)
Definition parse_moeda (valor_str : string) : option float :=
  match valor_str with
  | EmptyString => None
  | _ => Py.float_of_str (normalizar_moeda valor_str)
  end.

(** ** Price alert *)

Inductive Emoji := Grafico | Visto | Aviso.

Record Alerta := { tipo : string; emoji : Emoji; label : string }.

(** [c cedilla] is code point 231. *)
Definition preco_str : string := "Pre" ++ String "231"%char "o".

Definition alerta_novo : Alerta := {| tipo := "normal"; emoji := Grafico; label := "Novo" |}.
Definition alerta_bom : Alerta := {| tipo := "bom"; emoji := Visto; label := preco_str ++ " Bom" |}.
Definition alerta_alto : Alerta := {| tipo := "alto"; emoji := Aviso; label := preco_str ++ " Alto" |}.
Definition alerta_normal : Alerta := {| tipo := "normal"; emoji := Grafico; label := "Normal" |}.

(** The historical mean the two alert functions query:
    [avg(Cotacao.preco)] over the product's quotations, [or 0]. *)
Definition media_produto (db : DB) (produto_id : Z) : float :=
  or_zero (sql_avg (map Cotacao.preco
                        (filter (fun c => Cotacao.produto_id c =? produto_id)%Z (cotacoes db)))).

Definition percentual_diff (preco media : float) : float :=
  ((preco - media) / media * 100)%float.

(** The part of the alert after the query.  [media] is not zero where it
    divides. *)
Definition classificar_alerta (media preco : float) : Alerta :=
  if (media =? 0)%float then alerta_novo
  else
    let diff := percentual_diff preco media in
    if (diff <? -10)%float then alerta_bom
    else if (15 <? diff)%float then alerta_alto
    else alerta_normal.

(** [Cotacao.get_alerta_preco] *)
Definition get_alerta_preco (db : DB) (self : Cotacao.t) : Alerta :=
  classificar_alerta (media_produto db (Cotacao.produto_id self)) (Cotacao.preco self).

(** [analisar_alerta_preco], the same body as a free function. *)
Definition analisar_alerta_preco (db : DB) (cotacao_atual : Cotacao.t) : Alerta :=
  classificar_alerta (media_produto db (Cotacao.produto_id cotacao_atual))
                     (Cotacao.preco cotacao_atual).

(* ================================================================== *)
(** * Supplier ranking *)
(* ================================================================== *)

Inductive Medalha := Ouro | Prata | Bronze.

Record Score := {
  sc_fornecedor_id : Z;
  sc_fornecedor_nome : string;
  qtd_cotacoes : Z;
  preco_medio : float;
  score_total : float;
  score_preco : float;
  score_confiabilidade : float;
  score_consistencia : float;
  variacao_preco : float;
  medalha : option Medalha
}.

Definition set_medalha (m : Medalha) (s : Score) : Score :=
  {| sc_fornecedor_id := sc_fornecedor_id s; sc_fornecedor_nome := sc_fornecedor_nome s;
     qtd_cotacoes := qtd_cotacoes s; preco_medio := preco_medio s;
     score_total := score_total s; score_preco := score_preco s;
     score_confiabilidade := score_confiabilidade s;
     score_consistencia := score_consistencia s;
     variacao_preco := variacao_preco s; medalha := Some m |}.

Section Pontuacao.
Local Open Scope float_scope.

(** [todos_precos]: the mean of every quotation's price, [or 0].
    [total]: [Cotacao.query.count()]. *)
Variables (todos_precos : float) (total : Z).
(** The supplier's own prices, first of them [p]. *)
Variables (p : float) (ps : list float).

Definition n_cotacoes : Z := Z.of_nat (List.length (p :: ps)).

(** A count is not zero, so this division cannot raise. *)
Definition calc_preco_medio : float := Py.sum (p :: ps) / Py.of_int n_cotacoes.

Definition calc_score_preco : float :=
  if 0 <? todos_precos
  then Py.max 0 (10 - ((calc_preco_medio - todos_precos) / todos_precos * 10))
  else 5.

Definition vitoria_rate : float :=
  Py.of_int n_cotacoes / Py.of_int (Z.max 1 total) * 100.

Definition calc_score_confiabilidade : float :=
  Py.min 10 ((vitoria_rate / 100) * 10 + 3).

Definition calc_variacao : float := Py.max_list p ps - Py.min_list p ps.

(** [None] is the [ZeroDivisionError] of [variacao / preco_medio]. *)
Definition calc_score_consistencia : option float :=
  if (1 <? n_cotacoes)%Z
  then match Py.div calc_variacao calc_preco_medio with
       | Some q => Some (Py.max 1 (10 - q * 5))
       | None => None
       end
  else Some 8.

Definition calc_score_total (s_preco s_conf s_cons : float) : float :=
  s_preco * 0.4 + s_conf * 0.35 + s_cons * 0.25.
End Pontuacao.

(** The body of the loop of [ranking] for one supplier: [Some None] is
    [continue], [None] an uncaught exception. *)
Definition pontuar (db : DB) (fornecedor : Fornecedor.t) : option (option Score) :=
  match map Cotacao.preco (cotacoes_do_fornecedor db (Fornecedor.id fornecedor)) with
  | [] => Some None
  | p :: ps =>
      let todos_precos := or_zero (sql_avg (map Cotacao.preco (cotacoes db))) in
      let total := Z.of_nat (List.length (cotacoes db)) in
      let s_preco := calc_score_preco todos_precos p ps in
      let s_conf := calc_score_confiabilidade total p ps in
      match calc_score_consistencia p ps with
      | None => None
      | Some s_cons =>
          Some (Some {|
            sc_fornecedor_id := Fornecedor.id fornecedor;
            sc_fornecedor_nome := Fornecedor.nome fornecedor;
            qtd_cotacoes := n_cotacoes p ps;
            preco_medio := calc_preco_medio p ps;
            score_total := Py.round1 (calc_score_total s_preco s_conf s_cons);
            score_preco := Py.round1 s_preco;
            score_confiabilidade := Py.round1 s_conf;
            score_consistencia := Py.round1 s_cons;
            variacao_preco := if (1 <? n_cotacoes p ps)%Z then calc_variacao p ps else 0%float;
            medalha := None |})
      end
  end.

(** The loop: [ranking_data] in the order of the suppliers. *)
Fixpoint pontuar_todos (db : DB) (l : list Fornecedor.t) : option (list Score) :=
  match l with
  | [] => Some []
  | f :: l' =>
      match pontuar db f with
      | None => None
      | Some o =>
          match pontuar_todos db l' with
          | None => None
          | Some rest => Some (match o with Some s => s :: rest | None => rest end)
          end
      end
  end.

Definition medalhas : list Medalha := [Ouro; Prata; Bronze].

(** [for i, item in enumerate(ranking_data[:3]): item['medalha'] = medalhas[i]] *)
Fixpoint premiar (ms : list Medalha) (l : list Score) : list Score :=
  match ms, l with
  | m :: ms', s :: l' => set_medalha m s :: premiar ms' l'
  | _, _ => l
  end.

(** [ranking]: the list handed to the template, [None] on an exception. *)
Definition ranking (db : DB) : option (list Score) :=
  match pontuar_todos db (fornecedores_ativos db) with
  | None => None
  | Some ranking_data => Some (premiar medalhas (Py.sort_reverse score_total ranking_data))
  end.

(* ================================================================== *)
(** * Batch allocation: [mapa_cotacao] *)
(* ================================================================== *)

(** [request.form]: the submitted fields, first value of a name first. *)
Definition Form := list (string * string).

(** [request.form.get(name, default)] *)
Fixpoint form_get (form : Form) (name default : string) : string :=
  match form with
  | [] => default
  | (k, v) :: form' => if String.eqb k name then v else form_get form' name default
  end.

(** [f"preco_{req.id}_{forn.id}"] *)
Definition input_name (req : Requisicao.t) (forn : Fornecedor.t) : string :=
  "preco_" ++ Py.str_of_int (Requisicao.id req) ++ "_" ++ Py.str_of_int (Fornecedor.id forn).

(** The three variables of the inner loop; [vencedor] is the pair
    [(vencedor_id, vencedor_nome)], assigned together. *)
Record Escolha := { menor_preco : float; vencedor : option (Z * string) }.

Definition escolha_inicial : Escolha := {| menor_preco := infinity; vencedor := None |}.

(** The bid a supplier submitted for a request, as the loop reads it: the
    stripped field, parsed when it is not empty. *)
Definition lance (form : Form) (req : Requisicao.t) (forn : Fornecedor.t) : option float :=
  let valor_str := Py.strip (form_get form (input_name req forn) "") in
  match valor_str with
  | EmptyString => None
  | _ => parse_moeda valor_str
  end.

(** One turn of [for forn in fornecedores_para_cotar]. *)
Definition cotar (form : Form) (req : Requisicao.t) (e : Escolha) (forn : Fornecedor.t) : Escolha :=
  match lance form req forn with
  | Some preco =>
      if (0 <? preco)%float then
        if (preco <? menor_preco e)%float
        then {| menor_preco := preco;
                vencedor := Some (Fornecedor.id forn, Fornecedor.nome forn) |}
        else e
      else e
  | None => e
  end.

Definition escolher (form : Form) (req : Requisicao.t) (candidatos : list Fornecedor.t) : Escolha :=
  fold_left (cotar form req) candidatos escolha_inicial.

(** [req.fornecedores_selecionados or fornecedores] *)
Definition fornecedores_para_cotar (db : DB) (req : Requisicao.t) : list Fornecedor.t :=
  match fornecedores_selecionados db req with
  | [] => order_by_nome (fornecedores_ativos db)
  | l => l
  end.

(** ** The report under construction *)

Record Item := {
  it_produto : string;
  it_produto_id : Z;
  it_preco : float;
  it_quantidade : Z;
  it_subtotal : float
}.

(** A value of the dict [resultados]. *)
Record Bucket := { bk_nome : string; bk_itens : list Item; bk_total : float }.

(** [resultados], keyed by supplier id, in insertion order. *)
Definition Resultados := list (Z * Bucket).

Definition dict_contains (k : Z) (d : Resultados) : bool :=
  existsb (fun kv => fst kv =? k)%Z d.

Definition dict_get (k : Z) (d : Resultados) : option Bucket :=
  option_map snd (find (fun kv => fst kv =? k)%Z d).

(** [d[k] = v] on a key that is absent appends it. *)
Definition dict_add (k : Z) (v : Bucket) (d : Resultados) : Resultados := (d ++ [(k, v)])%list.

(** In-place update of the value stored under [k]. *)
Fixpoint dict_update (k : Z) (f : Bucket -> Bucket) (d : Resultados) : Resultados :=
  match d with
  | [] => []
  | (k', v) :: d' => if (k' =? k)%Z then (k', f v) :: d' else (k', v) :: dict_update k f d'
  end.

Definition registrar (vencedor_id : Z) (vencedor_nome : string) (it : Item)
           (resultados : Resultados) : Resultados :=
  let resultados :=
    if dict_contains vencedor_id resultados then resultados
    else dict_add vencedor_id {| bk_nome := vencedor_nome; bk_itens := []; bk_total := 0 |}
                  resultados in
  let resultados :=
    dict_update vencedor_id
      (fun b => {| bk_nome := bk_nome b; bk_itens := (bk_itens b ++ [it])%list; bk_total := bk_total b |})
      resultados in
  dict_update vencedor_id
    (fun b => {| bk_nome := bk_nome b; bk_itens := bk_itens b;
                 bk_total := (bk_total b + it_subtotal it)%float |})
    resultados.

(** ** The loop over the pending requests *)

(** A quotation added to the session; its id comes at the commit. *)
Definition nova_cotacao (req : Requisicao.t) (vencedor_id : Z) (menor_preco : float) : Cotacao.t :=
  {| Cotacao.id := 0;
     Cotacao.preco := menor_preco;
     Cotacao.produto_id := Requisicao.produto_id req;
     Cotacao.fornecedor_id := vencedor_id;
     Cotacao.requisicao_origem_id := Some (Requisicao.id req) |}.

(** State of the outer loop: the dict, and the session's new quotations in
    the order they were added. *)
Record Lote := { resultados : Resultados; novas : list Cotacao.t }.

Definition lote_inicial : Lote := {| resultados := []; novas := [] |}.

(** One turn of [for req in pendentes]; [None] is an exception
    ([req.produto] missing), which rolls the whole batch back.  The turn
    sets [req.status] to 'Cotado' when there is a winner and then, in every
    case, to 'Processado': the rows are written at the commit, by
    [marcar_processadas]. *)
Definition processar (db : DB) (form : Form) (st : Lote) (req : Requisicao.t) : option Lote :=
  let e := escolher form req (fornecedores_para_cotar db req) in
  match vencedor e with
  | Some (vencedor_id, vencedor_nome) =>
      if (vencedor_id =? 0)%Z then Some st
      else
        match get_produto db (Requisicao.produto_id req) with
        | None => None
        | Some produto =>
            let it := {| it_produto := Produto.nome produto;
                         it_produto_id := Requisicao.produto_id req;
                         it_preco := menor_preco e;
                         it_quantidade := Requisicao.quantidade req;
                         it_subtotal := (menor_preco e * Py.of_int (Requisicao.quantidade req))%float |} in
            Some {| resultados := registrar vencedor_id vencedor_nome it (resultados st);
                    novas := (novas st ++ [nova_cotacao req vencedor_id (menor_preco e)])%list |}
        end
  | None => Some st
  end.

Fixpoint processar_lote (db : DB) (form : Form) (st : Lote) (pendentes : list Requisicao.t)
  : option Lote :=
  match pendentes with
  | [] => Some st
  | req :: rest =>
      match processar db form st req with
      | None => None
      | Some st' => processar_lote db form st' rest
      end
  end.

(** ** Commit and report *)

(** A group of the report handed to the template. *)
Record Grupo := { gr_fornecedor : string; gr_itens : list Item; gr_total : float }.

Definition montar_relatorio (r : Resultados) : list Grupo :=
  Py.sort_reverse gr_total
    (map (fun kv => {| gr_fornecedor := bk_nome (snd kv);
                       gr_itens := bk_itens (snd kv);
                       gr_total := bk_total (snd kv) |}) r).

(** The new rows take the next keys in the order they were added. *)
Fixpoint inserir_cotacoes (tabela novas : list Cotacao.t) : list Cotacao.t :=
  match novas with
  | [] => tabela
  | c :: novas' =>
      inserir_cotacoes
        (tabela ++ [{| Cotacao.id := proximo_id (map Cotacao.id tabela);
                       Cotacao.preco := Cotacao.preco c;
                       Cotacao.produto_id := Cotacao.produto_id c;
                       Cotacao.fornecedor_id := Cotacao.fornecedor_id c;
                       Cotacao.requisicao_origem_id := Cotacao.requisicao_origem_id c |}])%list
        novas'
  end.

(** The status the loop leaves on the rows it went through, which are all
    the pending ones: 'Processado'. *)
Definition marcar_processadas (reqs : list Requisicao.t) : list Requisicao.t :=
  map (fun r => if Status_eqb (Requisicao.status r) Pendente
                then Requisicao.set_status Processado r else r) reqs.

Definition commit_lote (db : DB) (st : Lote) : DB :=
  {| produtos := produtos db;
     fornecedores := fornecedores db;
     requisicoes := marcar_processadas (requisicoes db);
     cotacoes := inserir_cotacoes (cotacoes db) (novas st);
     requisicao_fornecedores := requisicao_fornecedores db |}.

Inductive Method := GET | POST.

Inductive Resposta :=
| RedirectRequisicoes                       (* nothing pending *)
| RelatorioVencedores (relatorio : list Grupo)
| PaginaMapa (erro : bool).                 (* the form, after an error or on GET *)

(** [mapa_cotacao]: the committed database and what is rendered. *)
Definition mapa_cotacao (db : DB) (method : Method) (form : Form) : DB * Resposta :=
  match requisicoes_pendentes db with
  | [] => (db, RedirectRequisicoes)
  | pendentes =>
      match method with
      | GET => (db, PaginaMapa false)
      | POST =>
          match processar_lote db form lote_inicial pendentes with
          | Some st => (commit_lote db st, RelatorioVencedores (montar_relatorio (resultados st)))
          | None => (db, PaginaMapa true)
          end
      end
  end.

(* ================================================================== *)
(** * Deletions *)
(* ================================================================== *)

Inductive Flash :=
| Sucesso
| ErroHistorico      (* supplier with quotation history *)
| ErroExcecao.       (* an exception, among them the 404 of [get_or_404] *)

(** [deletar_fornecedor] *)
Definition deletar_fornecedor (db : DB) (id : Z) : DB * Flash :=
  match get_fornecedor db id with
  | None => (db, ErroExcecao)
  | Some forn =>
      match cotacoes_do_fornecedor db (Fornecedor.id forn) with
      | _ :: _ => (db, ErroHistorico)
      | [] =>
          ({| produtos := produtos db;
              fornecedores := filter (fun f => negb (Fornecedor.id f =? Fornecedor.id forn)%Z)
                                     (fornecedores db);
              requisicoes := requisicoes db;
              cotacoes := cotacoes db;
              requisicao_fornecedores :=
                filter (fun row : Z * Z => negb (snd row =? Fornecedor.id forn)%Z)
                       (requisicao_fornecedores db) |},
           Sucesso)
      end
  end.

(** [deletar_cotacao_final] *)
Definition deletar_cotacao_final (db : DB) (id : Z) : DB * Flash :=
  match get_cotacao db id with
  | None => (db, ErroExcecao)
  | Some cotacao =>
      let requisicoes' :=
        match Cotacao.requisicao_origem_id cotacao with
        | Some rid =>
            if (rid =? 0)%Z then requisicoes db
            else match get_requisicao db rid with
                 | Some req =>
                     map (fun r => if (Requisicao.id r =? Requisicao.id req)%Z
                                   then Requisicao.set_status Pendente r else r)
                         (requisicoes db)
                 | None => requisicoes db
                 end
        | None => requisicoes db
        end in
      ({| produtos := produtos db;
          fornecedores := fornecedores db;
          requisicoes := requisicoes';
          cotacoes := filter (fun c => negb (Cotacao.id c =? Cotacao.id cotacao)%Z) (cotacoes db);
          requisicao_fornecedores := requisicao_fornecedores db |},
       Sucesso)
  end.

(* ================================================================== *)
(** * Products, suppliers and requests: the maintenance routes *)
(* ================================================================== *)

(** ** [int] of a string *)

Module PyInt.

Local Open Scope char_scope.

(** The digits CPython accepts in one [int(str)] by default. *)
Definition max_str_digits : nat := 4300.

(** [int(s)] for a [str], in base 10: blanks around the number, an
    optional sign, then digits, with single underscores allowed between
    two digits.  [None] stands for [ValueError]. *)
Definition int_of_str (s : string) : option Z :=
  let l := rev (Py.lstrip_float (rev (Py.lstrip_float (list_ascii_of_string s)))) in
  let (neg, r) := Py.parse_sign l in
  let ds := filter Py.isdigit r in
  if forallb (fun c => Py.isdigit c || Ascii.eqb c "_") r
     && Py.underscores_ok Ascii.zero r
     && negb (Nat.eqb (List.length ds) 0)
     && Nat.leb (List.length ds) max_str_digits
  then Some (if neg then - Py.digits_value ds else Py.digits_value ds)%Z
  else None.

(** The largest key SQLite stores; binding a larger [int] raises
    [OverflowError]. *)
Definition sqlite_max : Z := 9223372036854775807.

End PyInt.

(** ** Form fields *)

(** [request.form.get(name)]: [None] when the field is absent. *)
Fixpoint form_get_none (form : Form) (name : string) : option string :=
  match form with
  | [] => None
  | (k, v) :: form' => if String.eqb k name then Some v else form_get_none form' name
  end.

(** ** Products *)

(** [o acute] is code point 243, [u acute] 250. *)
Definition codigo_str : string := "C" ++ String "243"%char "digo".
Definition numero_str : string := "n" ++ String "250"%char "mero".

(** [validar_codigo_produto] *)
Definition validar_codigo_produto (codigo : string) : bool * string :=
  match PyInt.int_of_str codigo with
  | Some codigo_int =>
      if (codigo_int <=? 0)%Z then (false, codigo_str ++ " deve ser maior que zero")
      else (true, "")
  | None => (false, codigo_str ++ " deve ser um " ++ numero_str)
  end.

(** [Produto(id=id_prod, nome=nome)]: [ativo] takes its default. *)
Definition novo_produto (id_prod : Z) (nome : string) : Produto.t :=
  {| Produto.id := id_prod; Produto.nome := nome; Produto.ativo := true |}.

(** What the POST branch of [produtos] flashes. *)
Inductive FlashProduto :=
| CodigoDescricaoObrigatorios
| DescricaoMuitoCurta
| CodigoInvalido (mensagem : string)
| CodigoJaExiste
| ItemCadastrado (id_prod : Z)
| ErroCadastrarItem.                  (* an exception *)

(** The POST branch of [produtos]: the committed database and the flash.
    A code above [sqlite_max] passes the validation and then fails in the
    query, which the route catches. *)
Definition produtos_post (db : DB) (form : Form) : DB * FlashProduto :=
  let nome := Py.strip (form_get form "nome" "") in
  match form_get_none form "id", nome with
  | None, _ | Some EmptyString, _ | _, EmptyString => (db, CodigoDescricaoObrigatorios)
  | Some id_prod, _ =>
      if (String.length nome <? 3)%nat then (db, DescricaoMuitoCurta)
      else
        match validar_codigo_produto id_prod with
        | (false, mensagem) => (db, CodigoInvalido mensagem)
        | (true, _) =>
            match PyInt.int_of_str id_prod with
            | None => (db, ErroCadastrarItem)
            | Some id_prod =>
                if (PyInt.sqlite_max <? id_prod)%Z then (db, ErroCadastrarItem)
                else
                  match get_produto db id_prod with
                  | Some _ => (db, CodigoJaExiste)
                  | None =>
                      ({| produtos := (produtos db ++ [novo_produto id_prod nome])%list;
                          fornecedores := fornecedores db;
                          requisicoes := requisicoes db;
                          cotacoes := cotacoes db;
                          requisicao_fornecedores := requisicao_fornecedores db |},
                       ItemCadastrado id_prod)
                  end
            end
        end
  end.

(** What the POST branches of [editar_produto] and [editar_fornecedor]
    answer. *)
Inductive FlashEdicao :=
| NaoEncontrado                       (* the 404 of [get_or_404] *)
| NomeVazio
| NomeDeOutro                         (* another supplier has the name *)
| Atualizado.

Definition renomear_produto (id : Z) (novo_nome : string) (p : Produto.t) : Produto.t :=
  if (Produto.id p =? id)%Z
  then {| Produto.id := Produto.id p; Produto.nome := novo_nome; Produto.ativo := Produto.ativo p |}
  else p.

(** The POST branch of [editar_produto]. *)
Definition editar_produto_post (db : DB) (id : Z) (form : Form) : DB * FlashEdicao :=
  match get_produto db id with
  | None => (db, NaoEncontrado)
  | Some prod =>
      match Py.strip (form_get form "nome" "") with
      | EmptyString => (db, NomeVazio)
      | novo_nome =>
          ({| produtos := map (renomear_produto (Produto.id prod) novo_nome) (produtos db);
              fornecedores := fornecedores db;
              requisicoes := requisicoes db;
              cotacoes := cotacoes db;
              requisicao_fornecedores := requisicao_fornecedores db |},
           Atualizado)
      end
  end.

(** [prod.cotacoes] and [prod.requisicoes] *)
Definition cotacoes_do_produto (db : DB) (pid : Z) : list Cotacao.t :=
  filter (fun c => Cotacao.produto_id c =? pid)%Z (cotacoes db).
Definition requisicoes_do_produto (db : DB) (pid : Z) : list Requisicao.t :=
  filter (fun r => Requisicao.produto_id r =? pid)%Z (requisicoes db).

(** [deletar_produto].  The delete cascades to the product's quotations
    and requests, and on this branch the product has none. *)
Definition deletar_produto (db : DB) (id : Z) : DB * Flash :=
  match get_produto db id with
  | None => (db, ErroExcecao)
  | Some prod =>
      match cotacoes_do_produto db (Produto.id prod), requisicoes_do_produto db (Produto.id prod) with
      | [], [] =>
          ({| produtos := filter (fun p => negb (Produto.id p =? Produto.id prod)%Z) (produtos db);
              fornecedores := fornecedores db;
              requisicoes := requisicoes db;
              cotacoes := cotacoes db;
              requisicao_fornecedores := requisicao_fornecedores db |},
           Sucesso)
      | _, _ => (db, ErroHistorico)
      end
  end.

(** ** Suppliers *)

(** [Fornecedor.query.filter_by(nome=nome).first()] *)
Definition fornecedor_por_nome (db : DB) (nome : string) : option Fornecedor.t :=
  find (fun f => String.eqb (Fornecedor.nome f) nome) (fornecedores db).

(** [Fornecedor(nome=nome)] once committed: the next key, [ativo] by
    default. *)
Definition novo_fornecedor (db : DB) (nome : string) : Fornecedor.t :=
  {| Fornecedor.id := proximo_id (map Fornecedor.id (fornecedores db));
     Fornecedor.nome := nome;
     Fornecedor.ativo := true |}.

Inductive FlashFornecedor :=
| NomeObrigatorio
| FornecedorJaExiste (nome : string)
| FornecedorCadastrado.

(** The POST branch of [fornecedores], up to the listing it then renders. *)
Definition fornecedores_post (db : DB) (form : Form) : DB * FlashFornecedor :=
  match Py.strip (form_get form "nome" "") with
  | EmptyString => (db, NomeObrigatorio)
  | nome =>
      match fornecedor_por_nome db nome with
      | Some _ => (db, FornecedorJaExiste nome)
      | None =>
          ({| produtos := produtos db;
              fornecedores := (fornecedores db ++ [novo_fornecedor db nome])%list;
              requisicoes := requisicoes db;
              cotacoes := cotacoes db;
              requisicao_fornecedores := requisicao_fornecedores db |},
           FornecedorCadastrado)
      end
  end.

Definition renomear_fornecedor (id : Z) (novo_nome : string) (f : Fornecedor.t) : Fornecedor.t :=
  if (Fornecedor.id f =? id)%Z
  then {| Fornecedor.id := Fornecedor.id f; Fornecedor.nome := novo_nome;
          Fornecedor.ativo := Fornecedor.ativo f |}
  else f.

(** The POST branch of [editar_fornecedor]. *)
Definition editar_fornecedor_post (db : DB) (id : Z) (form : Form) : DB * FlashEdicao :=
  match get_fornecedor db id with
  | None => (db, NaoEncontrado)
  | Some forn =>
      match Py.strip (form_get form "nome" "") with
      | EmptyString => (db, NomeVazio)
      | novo_nome =>
          match find (fun f => String.eqb (Fornecedor.nome f) novo_nome
                               && negb (Fornecedor.id f =? id)%Z)
                     (fornecedores db) with
          | Some _ => (db, NomeDeOutro)
          | None =>
              ({| produtos := produtos db;
                  fornecedores := map (renomear_fornecedor (Fornecedor.id forn) novo_nome)
                                      (fornecedores db);
                  requisicoes := requisicoes db;
                  cotacoes := cotacoes db;
                  requisicao_fornecedores := requisicao_fornecedores db |},
               Atualizado)
          end
      end
  end.

(** ** Requests *)

(** [remover_requisicao]: the request goes with its rows of the association
    table, whatever its status. *)
Definition remover_requisicao (db : DB) (id : Z) : DB * Flash :=
  match get_requisicao db id with
  | None => (db, ErroExcecao)
  | Some req =>
      ({| produtos := produtos db;
          fornecedores := fornecedores db;
          requisicoes := filter (fun r => negb (Requisicao.id r =? Requisicao.id req)%Z)
                                (requisicoes db);
          cotacoes := cotacoes db;
          requisicao_fornecedores :=
            filter (fun row : Z * Z => negb (fst row =? Requisicao.id req)%Z)
                   (requisicao_fornecedores db) |},
       Sucesso)
  end.

(* ================================================================== *)
(** * Displaying money: [formatar_moeda] *)
(* ================================================================== *)

Module PyFmt.

Local Open Scope char_scope.

(** ** Decimal digits *)

Definition digit_char (d : Z) : ascii := ascii_of_N (Z.to_N (48 + d)).

(** The digits of [n >= 0], most significant first; [fuel] bounds their
    number. *)
Fixpoint digits_of (fuel : nat) (n : Z) : list ascii :=
  match fuel with
  | O => []
  | S fuel' =>
      if (n <? 10)%Z then [digit_char n]
      else (digits_of fuel' (n / 10) ++ [digit_char (n mod 10)])%list
  end.

(** [str(n)] for [n >= 0]: a number has at most as many decimal digits as
    binary ones. *)
Definition decimal (n : Z) : list ascii := digits_of (S (Z.to_nat (Z.log2 n))) n.

(** The thousands separator of the format [','], on the digits taken from
    the right: [k] digits have been written since the last separator. *)
Fixpoint milhares (k : nat) (l : list ascii) : list ascii :=
  match l with
  | [] => []
  | c :: l' =>
      if Nat.eqb k 3 then "," :: c :: milhares 1 l' else c :: milhares (S k) l'
  end.

Definition agrupar (ds : list ascii) : list ascii := rev (milhares 0 (rev ds)).

Definition sinal (s : bool) : list ascii := if s then ["-"] else [].

(** ** [format(x, ',.2f')] *)

(** The exact value [m * 2^e] in hundredths, halves to the even one. *)
Definition centesimos (m : positive) (e : Z) : Z :=
  if (0 <=? e)%Z then (Zpos m * 2 ^ e * 100)%Z
  else Py.round_half_even (Zpos m * 100) (2 ^ (- e)).

Definition fixo_2 (s : bool) (c : Z) : list ascii :=
  (sinal s ++ agrupar (decimal (c / 100))
   ++ "." :: [digit_char (c mod 100 / 10); digit_char (c mod 10)])%list.

Definition format_2f (x : float) : string :=
  string_of_list_ascii
    match Prim2SF x with
    | S754_nan => ["n"; "a"; "n"]
    | S754_infinity s => (sinal s ++ ["i"; "n"; "f"])%list
    | S754_zero s => fixo_2 s 0
    | S754_finite s m e => fixo_2 s (centesimos m e)
    end.

(** [round(x, 2)]: the same hundredths, as the nearest binary64. *)
Definition round2 (x : float) : float :=
  match Prim2SF x with
  | S754_finite s m e => Py.of_decimal s (centesimos m e) (-2)
  | _ => x
  end.

End PyFmt.

(** The values the templates hand to [formatar_moeda]. *)
Inductive Valor :=
| VNone
| VStr (s : string)
| VInt (n : Z)
| VFloat (x : float).

(** [float(valor)]: [None] stands for the [TypeError] of [None], the
    [ValueError] of a string that is no number and the [OverflowError] of
    an [int] beyond the largest float. *)
Definition float_de_valor (valor : Valor) : option float :=
  match valor with
  | VNone => None
  | VStr s => Py.float_of_str s
  | VInt n => let x := Py.of_int n in if is_infinity x then None else Some x
  | VFloat x => Some x
  end.

(** [formatar_moeda] *)
Definition formatar_moeda (valor : Valor) : string :=
  match float_de_valor valor with
  | Some x =>
      Py.replace "X" "." (Py.replace "." "," (Py.replace "," "X" ("R$ " ++ PyFmt.format_2f x)))
  | None => "R$ 0,00"
  end.

(** [s.replace(a, b)] for two characters, on one character of [s]. *)
Definition trocar (a b c : ascii) : ascii := if Ascii.eqb c a then b else c.

(** The three replacements of [formatar_moeda] on one character. *)
Definition pontuar_br (c : ascii) : ascii :=
  trocar "X" "." (trocar "." "," (trocar "," "X" c)).

Definition so_digitos (l : list ascii) : Prop := forall c, In c l -> Py.isdigit c = true.

(* ================================================================== *)
(** * Notions used by the statements *)
(* ================================================================== *)

Local Open Scope list_scope.

(** A valid bid: the field parses to a price strictly above 0. *)
Definition lance_valido (form : Form) (req : Requisicao.t) (forn : Fornecedor.t) (p : float) : Prop :=
  lance form req forn = Some p /\ (0 <? p)%float = true.

(** What the inner loop has established after the candidates [vistos]:
    without a winner no valid bid was below infinity; with one, the winner
    [w] bid [menor_preco], every valid bid before it is strictly higher and
    no valid bid after it is lower. *)
Definition escolha_ok (form : Form) (req : Requisicao.t)
           (vistos : list Fornecedor.t) (e : Escolha) : Prop :=
  match vencedor e with
  | None =>
      menor_preco e = infinity
      /\ forall g p, In g vistos -> lance_valido form req g p -> (p <? infinity)%float = false
  | Some (vid, vnome) =>
      exists antes w depois,
        vistos = antes ++ w :: depois
        /\ Fornecedor.id w = vid /\ Fornecedor.nome w = vnome
        /\ lance_valido form req w (menor_preco e)
        /\ (menor_preco e <? infinity)%float = true
        /\ (forall g p, In g antes -> lance_valido form req g p ->
                        (menor_preco e <? p)%float = true)
        /\ (forall g p, In g depois -> lance_valido form req g p ->
                        (p <? menor_preco e)%float = false)
  end.

(** Whether a quotation names the request [rid] as its origin. *)
Definition origem_eqb (rid : Z) (c : Cotacao.t) : bool :=
  match Cotacao.requisicao_origem_id c with
  | Some r => (r =? rid)%Z
  | None => false
  end.

(** The quotation the batch adds to the session for one request: none
    without a winner. *)
Definition cotacao_do_lote (db : DB) (form : Form) (req : Requisicao.t) : list Cotacao.t :=
  let e := escolher form req (fornecedores_para_cotar db req) in
  match vencedor e with
  | Some (vid, _) => if (vid =? 0)%Z then [] else [nova_cotacao req vid (menor_preco e)]
  | None => []
  end.

(** The line of the report for a request won at [preco]. *)
Definition item_do_lote (produto : Produto.t) (req : Requisicao.t) (preco : float) : Item :=
  {| it_produto := Produto.nome produto;
     it_produto_id := Requisicao.produto_id req;
     it_preco := preco;
     it_quantidade := Requisicao.quantidade req;
     it_subtotal := (preco * Py.of_int (Requisicao.quantidade req))%float |}.

(** A committed row is the session's quotation under a key. *)
Definition mesma_cotacao (q c : Cotacao.t) : Prop :=
  Cotacao.preco q = Cotacao.preco c
  /\ Cotacao.produto_id q = Cotacao.produto_id c
  /\ Cotacao.fornecedor_id q = Cotacao.fornecedor_id c
  /\ Cotacao.requisicao_origem_id q = Cotacao.requisicao_origem_id c.

(** The group of the report made from a bucket. *)
Definition grupo_do_bucket (b : Bucket) : Grupo :=
  {| gr_fornecedor := bk_nome b; gr_itens := bk_itens b; gr_total := bk_total b |}.

(** Every bucket's total is the sum of its lines. *)
Definition totais_ok (r : Resultados) : Prop :=
  forall k b, In (k, b) r -> bk_total b = Py.sum (map it_subtotal (bk_itens b)).

(** Largest key first: a later element never has a strictly larger key. *)
Definition decrescente {A} (key : A -> float) (a b : A) : Prop :=
  (key a <? key b)%float = false.


(** The record of a supplier in [ranking_data]: none for a supplier that is
    skipped. *)
Definition score_de (db : DB) (f : Fornecedor.t) : list Score :=
  match pontuar db f with
  | Some (Some s) => [s]
  | _ => []
  end.

(** A record without its badge. *)
Definition sem_medalha (s : Score) : Score :=
  {| sc_fornecedor_id := sc_fornecedor_id s; sc_fornecedor_nome := sc_fornecedor_nome s;
     qtd_cotacoes := qtd_cotacoes s; preco_medio := preco_medio s;
     score_total := score_total s; score_preco := score_preco s;
     score_confiabilidade := score_confiabilidade s;
     score_consistencia := score_consistencia s;
     variacao_preco := variacao_preco s; medalha := None |}.

(* ================================================================== *)
(** * The constraints of the schema *)
(* ================================================================== *)

(** No value of the list occurs twice. *)
Fixpoint sem_repeticao {A} (eqb : A -> A -> bool) (l : list A) : bool :=
  match l with
  | [] => true
  | x :: l' => negb (existsb (eqb x) l') && sem_repeticao eqb l'
  end.

Definition contem (id : Z) (ids : list Z) : bool := existsb (Z.eqb id) ids.

Definition linha_eqb (a b : Z * Z) : bool :=
  ((fst a =? fst b) && (snd a =? snd b))%Z.

(** The primary keys of the five tables and the unique supplier name. *)
Definition chaves_ok (db : DB) : bool :=
  sem_repeticao Z.eqb (map Produto.id (produtos db))
  && sem_repeticao Z.eqb (map Fornecedor.id (fornecedores db))
  && sem_repeticao String.eqb (map Fornecedor.nome (fornecedores db))
  && sem_repeticao Z.eqb (map Requisicao.id (requisicoes db))
  && sem_repeticao Z.eqb (map Cotacao.id (cotacoes db))
  && sem_repeticao linha_eqb (requisicao_fornecedores db).

(** The foreign keys: the product of a request, the product and the
    supplier of a quotation, both ends of a row of the association table.
    The schema declares them and the SQLite connection of the program does
    not enforce them. *)
Definition referencias_ok (db : DB) : bool :=
  forallb (fun r => contem (Requisicao.produto_id r) (map Produto.id (produtos db)))
          (requisicoes db)
  && forallb (fun c => contem (Cotacao.produto_id c) (map Produto.id (produtos db))
                       && contem (Cotacao.fornecedor_id c) (map Fornecedor.id (fornecedores db)))
             (cotacoes db)
  && forallb (fun row : Z * Z =>
                contem (fst row) (map Requisicao.id (requisicoes db))
                && contem (snd row) (map Fornecedor.id (fornecedores db)))
             (requisicao_fornecedores db).

Definition integro (db : DB) : bool := chaves_ok db && referencias_ok db.

(** The same as propositions. *)
Record Integro (db : DB) : Prop := {
  pk_produtos : NoDup (map Produto.id (produtos db));
  pk_fornecedores : NoDup (map Fornecedor.id (fornecedores db));
  un_fornecedores : NoDup (map Fornecedor.nome (fornecedores db));
  pk_requisicoes : NoDup (map Requisicao.id (requisicoes db));
  pk_cotacoes : NoDup (map Cotacao.id (cotacoes db));
  pk_linhas : NoDup (requisicao_fornecedores db);
  fk_requisicao : forall r, In r (requisicoes db) ->
                            In (Requisicao.produto_id r) (map Produto.id (produtos db));
  fk_cotacao : forall c, In c (cotacoes db) ->
                         In (Cotacao.produto_id c) (map Produto.id (produtos db))
                         /\ In (Cotacao.fornecedor_id c) (map Fornecedor.id (fornecedores db));
  fk_linha : forall row, In row (requisicao_fornecedores db) ->
                         In (fst row) (map Requisicao.id (requisicoes db))
                         /\ In (snd row) (map Fornecedor.id (fornecedores db))
}.

(* ================================================================== *)
(** * Sample data *)
(* ================================================================== *)

(** A quotation of a product without history. *)
Definition cotacao_sem_historico : Cotacao.t :=
  {| Cotacao.id := 1; Cotacao.preco := 50; Cotacao.produto_id := 2289;
     Cotacao.fornecedor_id := 1; Cotacao.requisicao_origem_id := None |}.

Definition db_vazio : DB :=
  {| produtos := []; fornecedores := []; requisicoes := []; cotacoes := [];
     requisicao_fornecedores := [] |}.

(** The two boundaries, on a product whose history averages 100. *)
Definition db_media_100 : DB :=
  {| produtos := []; fornecedores := []; requisicoes := [];
     cotacoes := [{| Cotacao.id := 1; Cotacao.preco := 100; Cotacao.produto_id := 8;
                     Cotacao.fornecedor_id := 1; Cotacao.requisicao_origem_id := None |}];
     requisicao_fornecedores := [] |}.

Definition cotacao_de (preco : float) : Cotacao.t :=
  {| Cotacao.id := 0; Cotacao.preco := preco; Cotacao.produto_id := 8;
     Cotacao.fornecedor_id := 1; Cotacao.requisicao_origem_id := None |}.


(** The rewrites of [parse_moeda] as the specification words them: every
    ['.'] is deleted, then every [','] becomes a ['.']. *)
Definition sem_pontos (s : string) : string :=
  string_of_list_ascii
    (filter (fun c => negb (Ascii.eqb c ".")) (list_ascii_of_string s)).

Definition virgulas_em_pontos (s : string) : string :=
  string_of_list_ascii
    (map (fun c => if Ascii.eqb c "," then "."%char else c) (list_ascii_of_string s)).

(** Two suppliers, the first with one quotation. *)
Definition db_fornecedor_cotado : DB :=
  {| produtos := [{| Produto.id := 8; Produto.nome := "FILTRO RACOR"; Produto.ativo := true |}];
     fornecedores := [{| Fornecedor.id := 1; Fornecedor.nome := "RANDON"; Fornecedor.ativo := true |};
                      {| Fornecedor.id := 2; Fornecedor.nome := "VOLVO PARTS"; Fornecedor.ativo := true |}];
     requisicoes := [];
     cotacoes := [{| Cotacao.id := 1; Cotacao.preco := 100; Cotacao.produto_id := 8;
                     Cotacao.fornecedor_id := 1; Cotacao.requisicao_origem_id := None |}];
     requisicao_fornecedores := [] |}.

(** ** A batch

    Three suppliers and three pending requests: request 7 asks A, B and C,
    request 8 asks A and B, request 9 selected nobody. *)
Definition forn_A : Fornecedor.t := {| Fornecedor.id := 1; Fornecedor.nome := "A"; Fornecedor.ativo := true |}.
Definition forn_B : Fornecedor.t := {| Fornecedor.id := 2; Fornecedor.nome := "B"; Fornecedor.ativo := true |}.
Definition forn_C : Fornecedor.t := {| Fornecedor.id := 3; Fornecedor.nome := "C"; Fornecedor.ativo := true |}.

Definition req_7 : Requisicao.t :=
  {| Requisicao.id := 7; Requisicao.produto_id := 2289; Requisicao.quantidade := 3;
     Requisicao.status := Pendente |}.
Definition req_8 : Requisicao.t :=
  {| Requisicao.id := 8; Requisicao.produto_id := 8; Requisicao.quantidade := 2;
     Requisicao.status := Pendente |}.
Definition req_9 : Requisicao.t :=
  {| Requisicao.id := 9; Requisicao.produto_id := 8; Requisicao.quantidade := 1;
     Requisicao.status := Pendente |}.

Definition prod_2289 : Produto.t :=
  {| Produto.id := 2289; Produto.nome := "BORRACHA SUPORTE PARALAMA SCANIA"; Produto.ativo := true |}.
Definition prod_8 : Produto.t :=
  {| Produto.id := 8; Produto.nome := "FILTRO RACOR"; Produto.ativo := true |}.

Definition db_lote : DB :=
  {| produtos := [prod_2289; prod_8];
     fornecedores := [forn_A; forn_B; forn_C];
     requisicoes := [req_7; req_8; req_9];
     cotacoes := [{| Cotacao.id := 1; Cotacao.preco := 12; Cotacao.produto_id := 8;
                     Cotacao.fornecedor_id := 3; Cotacao.requisicao_origem_id := None |}];
     requisicao_fornecedores := [(7, 1); (7, 2); (7, 3); (8, 1); (8, 2)]%Z |}.

(** Bids 10,00 / 8,50 / 9,00 on request 7, a tie at 5,00 on request 8,
    nothing usable on request 9. *)
Definition form_lote : Form :=
  [("preco_7_1", "10,00"); ("preco_7_2", "8,50"); ("preco_7_3", "9,00");
   ("preco_8_1", "5,00"); ("preco_8_2", "5,00");
   ("preco_9_1", ""); ("preco_9_2", "0"); ("preco_9_3", "abc")].

(** The database and the report after that batch. *)
Definition db_lote_depois : DB :=
  {| produtos := [prod_2289; prod_8];
     fornecedores := [forn_A; forn_B; forn_C];
     requisicoes := [Requisicao.set_status Processado req_7;
                     Requisicao.set_status Processado req_8;
                     Requisicao.set_status Processado req_9];
     cotacoes :=
       [{| Cotacao.id := 1; Cotacao.preco := 12; Cotacao.produto_id := 8;
           Cotacao.fornecedor_id := 3; Cotacao.requisicao_origem_id := None |};
        {| Cotacao.id := 2; Cotacao.preco := 8.5; Cotacao.produto_id := 2289;
           Cotacao.fornecedor_id := 2; Cotacao.requisicao_origem_id := Some 7%Z |};
        {| Cotacao.id := 3; Cotacao.preco := 5; Cotacao.produto_id := 8;
           Cotacao.fornecedor_id := 1; Cotacao.requisicao_origem_id := Some 8%Z |}];
     requisicao_fornecedores := [(7, 1); (7, 2); (7, 3); (8, 1); (8, 2)]%Z |}.

Definition relatorio_lote : list Grupo :=
  [{| gr_fornecedor := "B";
      gr_itens := [{| it_produto := "BORRACHA SUPORTE PARALAMA SCANIA";
                      it_produto_id := 2289; it_preco := 8.5; it_quantidade := 3;
                      it_subtotal := 25.5 |}];
      gr_total := 25.5 |};
   {| gr_fornecedor := "A";
      gr_itens := [{| it_produto := "FILTRO RACOR";
                      it_produto_id := 8; it_preco := 5; it_quantidade := 2;
                      it_subtotal := 10 |}];
      gr_total := 10 |}].

(** One request, one candidate, and the bid "inf". *)
Definition db_inf : DB :=
  {| produtos := [prod_2289];
     fornecedores := [forn_A];
     requisicoes := [req_7];
     cotacoes := [];
     requisicao_fornecedores := [(7, 1)]%Z |}.

Definition form_inf : Form := [("preco_7_1", "inf")].

(** ** A ranking

    Four active suppliers: A quoted 10 once, B quoted 20 once, C quoted 15
    twice, and D never quoted; E is inactive. *)
Definition cot (id : Z) (preco : float) (fornecedor_id : Z) : Cotacao.t :=
  {| Cotacao.id := id; Cotacao.preco := preco; Cotacao.produto_id := 8;
     Cotacao.fornecedor_id := fornecedor_id; Cotacao.requisicao_origem_id := None |}.

Definition forn_D : Fornecedor.t := {| Fornecedor.id := 4; Fornecedor.nome := "D"; Fornecedor.ativo := true |}.
Definition forn_E : Fornecedor.t := {| Fornecedor.id := 5; Fornecedor.nome := "E"; Fornecedor.ativo := false |}.

Definition db_ranking : DB :=
  {| produtos := [prod_8];
     fornecedores := [forn_A; forn_B; forn_C; forn_D; forn_E];
     requisicoes := [];
     cotacoes := [cot 1 10 1; cot 2 20 2; cot 3 15 3; cot 4 15 3; cot 5 15 5];
     requisicao_fornecedores := [] |}.

(** The same data with the suppliers in another order. *)
Definition db_ranking_permutado : DB :=
  {| produtos := [prod_8];
     fornecedores := [forn_E; forn_C; forn_B; forn_D; forn_A];
     requisicoes := [];
     cotacoes := [cot 1 10 1; cot 2 20 2; cot 3 15 3; cot 4 15 3; cot 5 15 5];
     requisicao_fornecedores := [] |}.

(** What [ranking] hands to the template on that data. *)
Definition score_A : Score :=
  {| sc_fornecedor_id := 1; sc_fornecedor_nome := "A"; qtd_cotacoes := 1; preco_medio := 10;
     score_total := 9.1; score_preco := 13.3; score_confiabilidade := 5;
     score_consistencia := 8; variacao_preco := 0; medalha := Some Ouro |}.
Definition score_C : Score :=
  {| sc_fornecedor_id := 3; sc_fornecedor_nome := "C"; qtd_cotacoes := 2; preco_medio := 15;
     score_total := 8.9; score_preco := 10; score_confiabilidade := 7;
     score_consistencia := 10; variacao_preco := 0; medalha := Some Prata |}.
Definition score_B : Score :=
  {| sc_fornecedor_id := 2; sc_fornecedor_nome := "B"; qtd_cotacoes := 1; preco_medio := 20;
     score_total := 6.4; score_preco := 6.7; score_confiabilidade := 5;
     score_consistencia := 8; variacao_preco := 0; medalha := Some Bronze |}.

(** ** Maintenance forms *)

(** A new product under the code 15, and the database afterwards. *)
Definition form_produto : Form := [("id", " 15 "); ("nome", "  PNEU 295  ")].

Definition prod_15 : Produto.t :=
  {| Produto.id := 15; Produto.nome := "PNEU 295"; Produto.ativo := true |}.

Definition db_lote_com_produto : DB :=
  {| produtos := [prod_2289; prod_8; prod_15];
     fornecedores := [forn_A; forn_B; forn_C];
     requisicoes := [req_7; req_8; req_9];
     cotacoes := cotacoes db_lote;
     requisicao_fornecedores := requisicao_fornecedores db_lote |}.

(** A new supplier, and the rename of supplier 2. *)
Definition form_fornecedor : Form := [("nome", " RANDON ")].
Definition form_renomear : Form := [("nome", "VOLVO")].

Definition forn_RANDON : Fornecedor.t :=
  {| Fornecedor.id := 4; Fornecedor.nome := "RANDON"; Fornecedor.ativo := true |}.

Definition db_lote_com_fornecedor : DB :=
  {| produtos := [prod_2289; prod_8];
     fornecedores := [forn_A; forn_B; forn_C; forn_RANDON];
     requisicoes := [req_7; req_8; req_9];
     cotacoes := cotacoes db_lote;
     requisicao_fornecedores := requisicao_fornecedores db_lote |}.

(** The batch once request 8, already processed, has been removed. *)
Definition db_lote_sem_req_8 : DB :=
  {| produtos := [prod_2289; prod_8];
     fornecedores := [forn_A; forn_B; forn_C];
     requisicoes := [Requisicao.set_status Processado req_7;
                     Requisicao.set_status Processado req_9];
     cotacoes := cotacoes db_lote_depois;
     requisicao_fornecedores := [(7, 1); (7, 2); (7, 3)]%Z |}.

(* ================================================================== *)
(** * Users, login and the default data *)
(* ================================================================== *)

(** [data_cadastro] and [ultimo_acesso] are written and never read. *)
Module Usuario.
Record t := {
  id : Z;
  username : string;
  email : string;
  senha_hash : string;
  nome_completo : option string;
  ativo : bool
}.
End Usuario.

(** The whole database: the five tables of the quotations and the users. *)
Record Sistema := { dados : DB; usuarios : list Usuario.t }.

(** [Usuario.query.filter_by(username=...).first()] and the same by
    e-mail. *)
Definition usuario_por_username (us : list Usuario.t) (username : string) : option Usuario.t :=
  find (fun u => String.eqb (Usuario.username u) username) us.
Definition usuario_por_email (us : list Usuario.t) (email : string) : option Usuario.t :=
  find (fun u => String.eqb (Usuario.email u) email) us.

(** [x or y] on an optional string: [None] and the empty string are
    falsy. *)
Definition ou (x : option string) (y : string) : string :=
  match x with
  | Some (String c s) => String c s
  | _ => y
  end.

(** The keys [login] stores in the cookie session; no session is the
    absence of ['usuario_id']. *)
Record Sessao := { usuario_id : Z; sessao_username : string; sessao_nome : string }.

Inductive RespostaLogin :=
| IrParaDashboard                 (* already logged in *)
| FormularioLogin                 (* GET *)
| LoginObrigatorios               (* user name or password missing *)
| BemVindo                        (* session opened *)
| LoginInvalido.                  (* unknown user, wrong password or inactive *)

Inductive RespostaUsuario :=
| FormularioUsuario               (* GET *)
| UsuarioObrigatorios
| SenhaCurta
| UsuarioJaExiste (username : string)
| EmailJaCadastrado (email : string)
| UsuarioCriado.

(** The default products of [inicializar_dados]; the letters beyond ASCII
    are written by their code points. *)
Definition itens_padrao : list (Z * string) :=
  [(2289, "BORRACHA SUPORTE PARALAMA SCANIA");
   (1687, "KIT COXIM 5 RODA");
   (1070, "BORRACHA SUPORTE PARALAMA VOLVO");
   (2350, "LIXA ROQUITE 80");
   (975, "OLEO 5W20");
   (515, "ANEL BUCHA DO TIRANTE");
   (2200, "ABRACADEIRA NYLON 7,2/40CM");
   (3, "DISCO FLAP 7''");
   (8, "FILTRO RACOR");
   (2567, "ARCO DE LONA 2,48");
   (1280, ("MOLA SUSPENS" ++ String "195"%char "O DIANTEIRA")%string);
   (890, "PASTILHA FREIO DIANTEIRO");
   (345, ("FILTRO DE " ++ String "211"%char "LEO")%string);
   (1678, ("VELA DE IGNI" ++ String "199"%char (String "195"%char "O"))%string);
   (2450, "CORREIA DENTADA");
   (1123, "BATERIA 12V 60AH");
   (789, ("L" ++ String "194"%char "MPADA FAROL DIANTEIRO")%string);
   (456, "SENSOR ABS");
   (2345, "EMBREAGEM COMPLETA");
   (678, ("RADIADOR " ++ String "193"%char "GUA")%string)]%Z.

Definition fornecedores_padrao : list string :=
  [("RANDON PE" ++ String "199"%char "AS")%string;
   "MERCADO AUTOMOTIVO LTDA";
   "AUTO CENTER SCANIA";
   "VOLVO PARTS BRASIL";
   ("PE" ++ String "199"%char "AS PESADAS S.A.")%string;
   ("DISTRIBUIDORA CAMINH" ++ String "213"%char "ES")%string;
   ("MEC" ++ String "194"%char "NICA INDUSTRIAL")%string;
   "FORNECEDOR OFICIAL MERCEDES";
   "SUPRIMENTOS TRUCK";
   ("IMPORTADORA DE AUTOPE" ++ String "199"%char "AS")%string].

(** One turn of the loop over [itens_padrao], on the products of the
    session and [count_prod]. *)
Definition semear_produto (st : list Produto.t * Z) (item : Z * string) : list Produto.t * Z :=
  match find (fun p => Produto.id p =? fst item)%Z (fst st) with
  | Some _ => st
  | None => ((fst st ++ [novo_produto (fst item) (Py.strip (snd item))])%list, (snd st + 1)%Z)
  end.

(** One turn of the loop over [fornecedores_padrao]; a new supplier takes
    the next key. *)
Definition semear_fornecedor (st : list Fornecedor.t * Z) (nome_forn : string)
  : list Fornecedor.t * Z :=
  match find (fun f => String.eqb (Fornecedor.nome f) nome_forn) (fst st) with
  | Some _ => st
  | None =>
      ((fst st ++ [{| Fornecedor.id := proximo_id (map Fornecedor.id (fst st));
                      Fornecedor.nome := nome_forn;
                      Fornecedor.ativo := true |}])%list,
       (snd st + 1)%Z)
  end.

Section Senhas.

(** [werkzeug.security]: the hash stored for a password, and whether a
    password matches a stored hash. *)
Variable generate_password_hash : string -> string.
Variable check_password_hash : string -> string -> bool.

(** [Usuario(username=..., email=..., nome_completo=...)] after
    [set_senha] and the commit. *)
Definition novo_usuario (us : list Usuario.t) (username email nome_completo senha : string)
  : Usuario.t :=
  {| Usuario.id := proximo_id (map Usuario.id us);
     Usuario.username := username;
     Usuario.email := email;
     Usuario.senha_hash := generate_password_hash senha;
     Usuario.nome_completo := Some nome_completo;
     Usuario.ativo := true |}.

(** [Usuario.verifica_senha] *)
Definition verifica_senha (u : Usuario.t) (senha : string) : bool :=
  check_password_hash (Usuario.senha_hash u) senha.

(** [login]: the session afterwards and what is answered. *)
Definition login (us : list Usuario.t) (session : option Sessao) (method : Method) (form : Form)
  : option Sessao * RespostaLogin :=
  match session with
  | Some _ => (session, IrParaDashboard)
  | None =>
      match method with
      | GET => (None, FormularioLogin)
      | POST =>
          let username := Py.strip (form_get form "username" "") in
          let senha := form_get form "senha" "" in
          match username, senha with
          | EmptyString, _ | _, EmptyString => (None, LoginObrigatorios)
          | _, _ =>
              match usuario_por_username us username with
              | Some usuario =>
                  if verifica_senha usuario senha && Usuario.ativo usuario
                  then (Some {| usuario_id := Usuario.id usuario;
                                sessao_username := Usuario.username usuario;
                                sessao_nome := ou (Usuario.nome_completo usuario)
                                                  (Usuario.username usuario) |},
                        BemVindo)
                  else (None, LoginInvalido)
              | None => (None, LoginInvalido)
              end
          end
      end
  end.

(** [admin_criar_usuario]: the committed users and what is answered. *)
Definition admin_criar_usuario (us : list Usuario.t) (method : Method) (form : Form)
  : list Usuario.t * RespostaUsuario :=
  match method with
  | GET => (us, FormularioUsuario)
  | POST =>
      let username := Py.strip (form_get form "username" "") in
      let email := Py.strip (form_get form "email" "") in
      let senha := form_get form "senha" "" in
      let nome_completo := Py.strip (form_get form "nome_completo" "") in
      match username, email, senha with
      | EmptyString, _, _ | _, EmptyString, _ | _, _, EmptyString => (us, UsuarioObrigatorios)
      | _, _, _ =>
          if (String.length senha <? 6)%nat then (us, SenhaCurta)
          else
            match usuario_por_username us username with
            | Some _ => (us, UsuarioJaExiste username)
            | None =>
                match usuario_por_email us email with
                | Some _ => (us, EmailJaCadastrado email)
                | None =>
                    ((us ++ [novo_usuario us username email
                                          (ou (Some nome_completo) username) senha])%list,
                     UsuarioCriado)
                end
            end
      end
  end.

(** The default user of [inicializar_dados]. *)
Definition admin_padrao (us : list Usuario.t) : Usuario.t :=
  novo_usuario us "admin" "admin@tindiana.com" "Administrador" "admin123".

(** [inicializar_dados]: the committed database.  The session is flushed
    before the first product is looked up, so that an e-mail of the default
    user that is already taken raises there: [None].  The commit happens
    only when a product or a supplier was added. *)
Definition inicializar_dados (s : Sistema) : option Sistema :=
  let sem_admin := match usuario_por_username (usuarios s) "admin" with
                   | Some _ => false
                   | None => true
                   end in
  let email_ocupado := match usuario_por_email (usuarios s) "admin@tindiana.com" with
                       | Some _ => true
                       | None => false
                       end in
  if sem_admin && email_ocupado then None
  else
    let prods := fold_left semear_produto itens_padrao (produtos (dados s), 0%Z) in
    let forns := fold_left semear_fornecedor fornecedores_padrao (fornecedores (dados s), 0%Z) in
    if ((0 <? snd prods) || (0 <? snd forns))%Z
    then Some {| dados := {| produtos := fst prods;
                             fornecedores := fst forns;
                             requisicoes := requisicoes (dados s);
                             cotacoes := cotacoes (dados s);
                             requisicao_fornecedores := requisicao_fornecedores (dados s) |};
                 usuarios := if sem_admin then (usuarios s ++ [admin_padrao (usuarios s)])%list
                             else usuarios s |}
    else Some s.

End Senhas.

(** The keys of the users: the primary key, the unique user name and the
    unique e-mail. *)
Definition usuarios_ok (us : list Usuario.t) : bool :=
  sem_repeticao Z.eqb (map Usuario.id us)
  && sem_repeticao String.eqb (map Usuario.username us)
  && sem_repeticao String.eqb (map Usuario.email us).

(** ** Sample users *)

(** A hash function for the examples: the password behind a tag. *)
Definition hash_exemplo (senha : string) : string := ("hash$" ++ senha)%string.
Definition check_exemplo (pwhash senha : string) : bool := String.eqb pwhash (hash_exemplo senha).

Definition form_usuario : Form :=
  [("username", " maria "); ("email", "maria@tindiana.com"); ("senha", "segredo1");
   ("nome_completo", "")].

Definition form_login_maria : Form := [("username", "maria"); ("senha", "segredo1")].

Definition usuario_maria : Usuario.t :=
  {| Usuario.id := 1; Usuario.username := "maria"; Usuario.email := "maria@tindiana.com";
     Usuario.senha_hash := "hash$segredo1"; Usuario.nome_completo := Some "maria";
     Usuario.ativo := true |}.

Definition sistema_vazio : Sistema := {| dados := db_vazio; usuarios := [] |}.

(** The empty database after [inicializar_dados], and the same without
    its user. *)
Definition sistema_padrao : Sistema :=
  match inicializar_dados hash_exemplo sistema_vazio with
  | Some s => s
  | None => sistema_vazio
  end.

Definition sistema_sem_admin : Sistema :=
  {| dados := dados sistema_padrao; usuarios := [] |}.

(* ================================================================== *)
(** * The order of binary64 *)
(* ================================================================== *)

Module FloatOrder.

Local Open Scope float_scope.

(** Case analysis on the comparisons of exponents and mantissas left by
    [SFcompare]. *)
Ltac sf_cases :=
  repeat match goal with
         | |- context [Z.compare ?a ?b] => destruct (Z.compare_spec a b); subst
         | H : context [Z.compare ?a ?b] |- _ => destruct (Z.compare_spec a b); subst
         | |- context [Pos.compare_cont Eq ?a ?b] =>
             change (Pos.compare_cont Eq a b) with (Pos.compare a b);
             destruct (Pos.compare_spec a b); subst
         | H : context [Pos.compare_cont Eq ?a ?b] |- _ =>
             change (Pos.compare_cont Eq a b) with (Pos.compare a b) in H;
             destruct (Pos.compare_spec a b); subst
         end;
  simpl in *; try congruence; try lia.

Ltac sf_destruct x := destruct x as [[]|[]| |[] ? ?].

Lemma SFltb_trans x y z : SFltb x y = true -> SFltb y z = true -> SFltb x z = true.
Proof.
  unfold SFltb, SFcompare. sf_destruct x; sf_destruct y; sf_destruct z;
    simpl; try congruence; intros; sf_cases.
Qed.

Lemma SFltb_irrefl x : SFltb x x = false.
Proof. unfold SFltb, SFcompare. sf_destruct x; simpl; auto; sf_cases. Qed.

Lemma SFltb_ntrans x y z :
  SFeqb y y = true -> SFltb x y = false -> SFltb y z = false -> SFltb x z = false.
Proof.
  unfold SFltb, SFeqb, SFcompare. sf_destruct x; sf_destruct y; sf_destruct z;
    simpl; try congruence; intros; sf_cases.
Qed.


Lemma SFltb_refl_eqb x y : SFltb x y = true -> SFeqb x x = true /\ SFeqb y y = true.
Proof.
  unfold SFltb, SFeqb, SFcompare. sf_destruct x; sf_destruct y;
    simpl; try congruence; intros; split; sf_cases.
Qed.

Lemma ltb_trans x y z : (x <? y) = true -> (y <? z) = true -> (x <? z) = true.
Proof. rewrite !ltb_spec. apply SFltb_trans. Qed.

Lemma ltb_irrefl x : (x <? x) = false.
Proof. rewrite ltb_spec. apply SFltb_irrefl. Qed.

Lemma ltb_asym x y : (x <? y) = true -> (y <? x) = false.
Proof.
  intros H. destruct (y <? x) eqn:E; [|reflexivity].
  pose proof (ltb_trans _ _ _ H E) as C. rewrite ltb_irrefl in C. discriminate.
Qed.

(** Without a NaN in the middle, "not below" is transitive. *)
Lemma ltb_ntrans x y z :
  is_nan y = false -> (x <? y) = false -> (y <? z) = false -> (x <? z) = false.
Proof.
  unfold is_nan. rewrite !ltb_spec, eqb_spec, negb_false_iff. apply SFltb_ntrans.
Qed.


(** Both sides of a true comparison are numbers. *)
Lemma ltb_is_nan x y : (x <? y) = true -> is_nan x = false /\ is_nan y = false.
Proof.
  unfold is_nan. rewrite ltb_spec, !eqb_spec, !negb_false_iff. apply SFltb_refl_eqb.
Qed.

End FloatOrder.

(* ================================================================== *)
(** * [list.sort(key=..., reverse=True)] *)
(* ================================================================== *)

Section SortReverse.
Local Open Scope float_scope.

Context {A : Type}.
Variable key : A -> float.

Lemma insert_reverse_perm x l : Permutation (Py.insert_reverse key x l) (x :: l).
Proof.
  induction l as [|y l IH]; cbn; [auto|].
  destruct (key x <? key y); [|auto].
  rewrite IH. apply perm_swap.
Qed.

Lemma sort_reverse_perm l : Permutation (Py.sort_reverse key l) l.
Proof.
  induction l as [|x l IH]; cbn; [auto|].
  rewrite insert_reverse_perm. now constructor.
Qed.

Lemma insert_reverse_In x y l : In y (Py.insert_reverse key x l) <-> y = x \/ In y l.
Proof.
  split; intros H.
  - apply (Permutation_in _ (insert_reverse_perm x l)) in H. destruct H; auto.
  - apply (Permutation_in _ (Permutation_sym (insert_reverse_perm x l))).
    destruct H; [left; auto | now right].
Qed.

Lemma insert_reverse_sorted x l :
  is_nan (key x) = false ->
  Forall (fun y => is_nan (key y) = false) l ->
  StronglySorted (decrescente key) l ->
  StronglySorted (decrescente key) (Py.insert_reverse key x l).
Proof.
  intros Hx Hl Hs. induction Hs as [|y l Hs IH Hy]; cbn.
  - repeat constructor.
  - inversion Hl as [|? ? Hny Hl']; subst.
    destruct (key x <? key y) eqn:E.
    + constructor; [now apply IH|].
      apply Forall_forall. intros z Hz. apply insert_reverse_In in Hz.
      destruct Hz as [->|Hz].
      * now apply FloatOrder.ltb_asym.
      * rewrite Forall_forall in Hy. now apply Hy.
    + constructor; [now constructor|].
      constructor; [exact E|].
      apply Forall_forall. intros z Hz. rewrite Forall_forall in Hy.
      unfold decrescente. eapply FloatOrder.ltb_ntrans; [exact Hny | exact E | now apply Hy].
Qed.

Lemma sort_reverse_sorted l :
  Forall (fun y => is_nan (key y) = false) l ->
  StronglySorted (decrescente key) (Py.sort_reverse key l).
Proof.
  induction l as [|x l IH]; intros H; cbn; [constructor|].
  inversion H; subst. apply insert_reverse_sorted; auto.
  apply Forall_forall. intros y Hy.
  apply (Permutation_in _ (sort_reverse_perm l)) in Hy.
  rewrite Forall_forall in H3. auto.
Qed.



End SortReverse.

(* ================================================================== *)
(** * Price alert *)
(* ================================================================== *)

Section AlertaPreco.
Local Open Scope float_scope.

Lemma alertas_distintos :
  alerta_bom <> alerta_alto /\ alerta_bom <> alerta_normal /\ alerta_bom <> alerta_novo
  /\ alerta_alto <> alerta_normal /\ alerta_alto <> alerta_novo
  /\ alerta_normal <> alerta_novo.
Proof. repeat split; discriminate. Qed.

(** A difference cannot be below -10 and above 15 at once. *)
Lemma diff_faixas_exclusivas d : (d <? -10) = true -> (15 <? d) = false.
Proof.
  intros H. destruct (15 <? d) eqn:E; [|reflexivity].
  pose proof (FloatOrder.ltb_trans _ _ _ E H) as C.
  vm_compute in C. discriminate.
Qed.

(** C6 (amended). The alert of a quotation is decided by the mean price of
    all quotations of its product: the sum of the prices over their number,
    taken as 0 when there is none.  With no mean (0) the alert is tipo
    "normal" with label "Novo"; otherwise it is "bom" exactly when the
    percentage difference is strictly below -10, "alto" exactly when it is
    strictly above 15 and "normal" (label "Normal") otherwise, so that a
    difference of exactly -10 or exactly 15 is "normal".  The free function
    [analisar_alerta_preco] gives the same alert. *)
Theorem alerta_preco_classificacao (db : DB) (c : Cotacao.t) :
  let historico :=
    map Cotacao.preco
        (filter (fun q => Cotacao.produto_id q =? Cotacao.produto_id c)%Z (cotacoes db)) in
  let media := media_produto db (Cotacao.produto_id c) in
  let diff := percentual_diff (Cotacao.preco c) media in
  let a := get_alerta_preco db c in
  analisar_alerta_preco db c = a
  /\ media = match historico with
             | [] => 0
             | _ => let m := Py.sum historico / Py.of_int (Z.of_nat (List.length historico)) in
                    if m =? 0 then 0 else m
             end
  /\ ((media =? 0) = true -> a = alerta_novo /\ tipo a = "normal"%string /\ label a = "Novo"%string)
  /\ ((media =? 0) = false ->
      (a = alerta_bom <-> (diff <? -10) = true)
      /\ (a = alerta_alto <-> (15 <? diff) = true)
      /\ (a = alerta_normal <-> (diff <? -10) = false /\ (15 <? diff) = false)
      /\ (diff = -10 -> a = alerta_normal)
      /\ (diff = 15 -> a = alerta_normal)).
Proof.
  intros historico media diff a.
  assert (Ha : a = classificar_alerta media (Cotacao.preco c)) by reflexivity.
  split; [reflexivity|]. split.
  { unfold media, media_produto. fold historico. destruct historico; reflexivity. }
  pose proof alertas_distintos as (D1 & D2 & D3 & D4 & D5 & D6).
  split.
  - intros Hm. rewrite Ha. unfold classificar_alerta. rewrite Hm. auto.
  - intros Hm. rewrite Ha. unfold classificar_alerta. rewrite Hm.
    fold diff. clearbody diff. clear Ha.
    destruct (diff <? -10) eqn:Eb.
    + pose proof (diff_faixas_exclusivas _ Eb) as Ea. rewrite Ea.
      repeat split; intros; try congruence;
        try (exfalso; intuition congruence);
        subst diff; vm_compute in Eb; discriminate.
    + destruct (15 <? diff) eqn:Ea.
      * repeat split; intros; try congruence;
          try (exfalso; intuition congruence);
          subst diff; vm_compute in Ea; discriminate.
      * repeat split; intros; try congruence; try (exfalso; intuition congruence).
Qed.

(** C6 (as stated) fails: without history the alert does not carry a kind
    of its own; its tipo is "normal", the tipo of an in-band price, and only
    the label tells it apart. *)
Lemma alerta_sem_historico_tipo_normal :
  media_produto db_vazio (Cotacao.produto_id cotacao_sem_historico) = 0
  /\ tipo (get_alerta_preco db_vazio cotacao_sem_historico) = "normal"%string
  /\ tipo (get_alerta_preco db_vazio cotacao_sem_historico) = tipo alerta_normal
  /\ String.eqb (tipo (get_alerta_preco db_vazio cotacao_sem_historico)) "novo" = false
  /\ String.eqb (tipo (get_alerta_preco db_vazio cotacao_sem_historico)) "new" = false
  /\ label (get_alerta_preco db_vazio cotacao_sem_historico) = "Novo"%string.
Proof. repeat split. Qed.

(** On a product whose history averages 100: 90 is exactly -10 percent and
    115 exactly +15 percent, both "normal"; 89 is "bom" and 116 "alto". *)
Example alerta_nos_limites :
  percentual_diff 90 (media_produto db_media_100 8) = -10
  /\ get_alerta_preco db_media_100 (cotacao_de 90) = alerta_normal
  /\ percentual_diff 115 (media_produto db_media_100 8) = 15
  /\ get_alerta_preco db_media_100 (cotacao_de 115) = alerta_normal
  /\ get_alerta_preco db_media_100 (cotacao_de 89) = alerta_bom
  /\ get_alerta_preco db_media_100 (cotacao_de 116) = alerta_alto.
Proof. vm_compute. repeat split. Qed.

Lemma alerta_preco_classificacao_witness :
  get_alerta_preco db_media_100 (cotacao_de 90) = alerta_normal
  /\ get_alerta_preco db_media_100 (cotacao_de 89) = alerta_bom
  /\ get_alerta_preco db_vazio cotacao_sem_historico = alerta_novo.
Proof.
  pose proof (alerta_preco_classificacao db_media_100 (cotacao_de 90)) as T90.
  pose proof (alerta_preco_classificacao db_media_100 (cotacao_de 89)) as T89.
  pose proof (alerta_preco_classificacao db_vazio cotacao_sem_historico) as T0.
  cbv zeta in T90, T89, T0.
  destruct T90 as (_ & _ & _ & T90). destruct T89 as (_ & _ & _ & T89).
  destruct T0 as (_ & _ & T0 & _).
  split; [|split].
  - apply (proj1 (proj2 (proj2 (proj2 (T90 eq_refl))))). vm_compute. reflexivity.
  - apply (proj1 (T89 eq_refl)). vm_compute. reflexivity.
  - apply (T0 eq_refl).
Defined.

End AlertaPreco.

(* ================================================================== *)
(** * Currency parsing *)
(* ================================================================== *)

Section ParseMoeda.
Local Open Scope string_scope.

Lemma prefix_vazio s : String.prefix "" s = true.
Proof. now destruct s. Qed.

Lemma replace_ponto s : Py.replace "." "" s = sem_pontos s.
Proof.
  unfold Py.replace, sem_pontos.
  induction s as [|c s IH]; [reflexivity|].
  cbn [Py.replace_from String.prefix String.length Nat.sub list_ascii_of_string filter].
  destruct (ascii_dec "." c) as [<-|Hc].
  - rewrite prefix_vazio. cbn. exact IH.
  - assert (E : Ascii.eqb c "." = false)
      by (apply Ascii.eqb_neq; congruence).
    rewrite E. cbn. now rewrite IH.
Qed.

Lemma replace_virgula s : Py.replace "," "." s = virgulas_em_pontos s.
Proof.
  unfold Py.replace, virgulas_em_pontos.
  induction s as [|c s IH]; [reflexivity|].
  cbn [Py.replace_from String.prefix String.length Nat.sub list_ascii_of_string map].
  destruct (ascii_dec "," c) as [<-|Hc].
  - rewrite prefix_vazio. cbn. now rewrite IH.
  - assert (E : Ascii.eqb c "," = false)
      by (apply Ascii.eqb_neq; congruence).
    rewrite E. cbn. now rewrite IH.
Qed.

(** Deleting a pattern adds no character. *)
Lemma replace_from_vazio_In old c s :
  forall k, In c (list_ascii_of_string (Py.replace_from old "" k s)) ->
            In c (list_ascii_of_string s).
Proof.
  induction s as [|a s IH]; intros k H; [exact H|].
  cbn [Py.replace_from] in H. destruct k.
  - destruct (String.prefix old (String a s)).
    + right. cbn in H. eauto.
    + cbn in H. destruct H; [now left | right; eauto].
  - right. eauto.
Qed.

Lemma lstrip_chars_In c l : In c (Py.lstrip_chars l) -> In c l.
Proof.
  induction l as [|a l IH]; cbn; [tauto|].
  destruct (Py.isspace a); cbn; tauto.
Qed.

Lemma strip_chars_In c l : In c (Py.strip_chars l) -> In c l.
Proof.
  unfold Py.strip_chars. intros H.
  apply in_rev, lstrip_chars_In, in_rev in H. now apply lstrip_chars_In.
Qed.

(** Every ['.'] that reaches [float] was a [','] of the input: no dot of the
    input is read as a decimal point. *)
Lemma normalizar_moeda_ponto s :
  In "."%char (list_ascii_of_string (normalizar_moeda s)) ->
  In ","%char (list_ascii_of_string s).
Proof.
  unfold normalizar_moeda, Py.strip.
  rewrite list_ascii_of_string_of_list_ascii. intros H.
  apply strip_chars_In in H.
  rewrite replace_virgula, replace_ponto in H.
  unfold virgulas_em_pontos, sem_pontos in H.
  rewrite !list_ascii_of_string_of_list_ascii in H.
  apply in_map_iff in H. destruct H as (c & Hc & Hin).
  apply filter_In in Hin. destruct Hin as [Hin Hnd].
  destruct (Ascii.eqb c ",") eqn:E.
  - apply Ascii.eqb_eq in E. subst c.
    eapply replace_from_vazio_In. exact Hin.
  - subst c. discriminate.
Qed.

(** A bid that does not parse leaves the choice as it was. *)
Lemma cotar_sem_lance form req e forn :
  lance form req forn = None -> cotar form req e forn = e.
Proof. intros H. unfold cotar. now rewrite H. Qed.

(** C4. [parse_moeda] removes "R$", deletes every '.', turns every ','
    into '.', strips and converts: "1.234,56" gives 1234.56 and "8.50"
    gives 850, no dot of the input ever reaching the conversion as a decimal
    point.  The empty string and a string the conversion refuses give
    nothing, and a field that gives nothing is no bid. *)
Theorem parse_moeda_formato_brasileiro :
  (forall s, parse_moeda s =
             match s with
             | "" => None
             | _ => Py.float_of_str
                      (Py.strip (virgulas_em_pontos (sem_pontos (Py.replace "R$" "" s))))
             end)
  /\ parse_moeda "1.234,56" = Some 1234.56%float
  /\ parse_moeda "R$ 1.234,56" = Some 1234.56%float
  /\ parse_moeda "8.50" = Some 850%float
  /\ (forall s, In "."%char (list_ascii_of_string (normalizar_moeda s)) ->
                In ","%char (list_ascii_of_string s))
  /\ parse_moeda "" = None
  /\ (forall s, Py.float_of_str (normalizar_moeda s) = None -> parse_moeda s = None)
  /\ parse_moeda "abc" = None
  /\ (forall form req forn e, lance form req forn = None -> cotar form req e forn = e).
Proof.
  split.
  { intros s. unfold parse_moeda, normalizar_moeda.
    now rewrite replace_virgula, replace_ponto. }
  split; [vm_compute; reflexivity|].
  split; [vm_compute; reflexivity|].
  split; [vm_compute; reflexivity|].
  split; [exact normalizar_moeda_ponto|].
  split; [reflexivity|].
  split; [intros s H; unfold parse_moeda; destruct s; [reflexivity|exact H]|].
  split; [vm_compute; reflexivity|].
  intros; now apply cotar_sem_lance.
Qed.

End ParseMoeda.

(* ================================================================== *)
(** * Deleting a supplier *)
(* ================================================================== *)

Section Delecoes.
Local Open Scope Z_scope.

Lemma get_fornecedor_id db id forn :
  get_fornecedor db id = Some forn -> Fornecedor.id forn = id /\ In forn (fornecedores db).
Proof.
  unfold get_fornecedor. intros H. apply find_some in H.
  destruct H as [Hin Hid]. apply Z.eqb_eq in Hid. auto.
Qed.

Lemma get_cotacao_id db id c :
  get_cotacao db id = Some c -> Cotacao.id c = id /\ In c (cotacoes db).
Proof.
  unfold get_cotacao. intros H. apply find_some in H.
  destruct H as [Hin Hid]. apply Z.eqb_eq in Hid. auto.
Qed.

Lemma cotacoes_do_fornecedor_vazio db fid :
  cotacoes_do_fornecedor db fid = [] <->
  forall c, In c (cotacoes db) -> Cotacao.fornecedor_id c <> fid.
Proof.
  unfold cotacoes_do_fornecedor. split.
  - intros H c Hc E.
    assert (Hin : In c (filter (fun c => Cotacao.fornecedor_id c =? fid) (cotacoes db)))
      by (apply filter_In; split; [exact Hc | now apply Z.eqb_eq]).
    rewrite H in Hin. exact Hin.
  - intros H. induction (cotacoes db) as [|c l IH]; [reflexivity|].
    cbn. destruct (Cotacao.fornecedor_id c =? fid) eqn:E.
    + apply Z.eqb_eq in E. exfalso. apply (H c); [now left | exact E].
    + apply IH. intros c' Hc'. apply H. now right.
Qed.

(** C9. Deleting a supplier that a quotation references is refused with
    the history error and returns the database as it was; the route reports
    success exactly for an existing supplier that no quotation references,
    every other outcome leaves the database unchanged, and on success the
    supplier is gone while the quotations are untouched. *)
Theorem deletar_fornecedor_com_historico (db : DB) (id : Z) :
  (forall forn c,
      get_fornecedor db id = Some forn ->
      In c (cotacoes db) -> Cotacao.fornecedor_id c = id ->
      deletar_fornecedor db id = (db, ErroHistorico))
  /\ (snd (deletar_fornecedor db id) = Sucesso <->
      (exists forn, get_fornecedor db id = Some forn)
      /\ forall c, In c (cotacoes db) -> Cotacao.fornecedor_id c <> id)
  /\ (snd (deletar_fornecedor db id) <> Sucesso -> fst (deletar_fornecedor db id) = db)
  /\ (snd (deletar_fornecedor db id) = Sucesso ->
      get_fornecedor (fst (deletar_fornecedor db id)) id = None
      /\ cotacoes (fst (deletar_fornecedor db id)) = cotacoes db
      /\ forall f, Fornecedor.id f <> id ->
                   (In f (fornecedores (fst (deletar_fornecedor db id))) <-> In f (fornecedores db))).
Proof.
  unfold deletar_fornecedor.
  destruct (get_fornecedor db id) as [forn|] eqn:Hg.
  - apply get_fornecedor_id in Hg as [Hid Hin]. rewrite Hid.
    destruct (cotacoes_do_fornecedor db id) as [|q qs] eqn:Hc.
    + pose proof (proj1 (cotacoes_do_fornecedor_vazio db id) Hc) as Hno.
      cbn [fst snd].
      split; [intros forn' c _ Hcin Hcid; exfalso; now apply (Hno c)|].
      split; [split; [intros _; split; [eauto | exact Hno] | reflexivity]|].
      split; [intros H; now contradiction H|].
      intros _. split; [|split; [reflexivity|]].
      * unfold get_fornecedor. cbn [fornecedores].
        destruct (find _ _) as [g|] eqn:Hf; [|reflexivity].
        apply find_some in Hf as [Hf1 Hf2]. apply filter_In in Hf1 as [_ Hf1].
        rewrite Hf2 in Hf1. discriminate.
      * cbn [fornecedores]. intros f Hf. split; intros H.
        -- apply filter_In in H. tauto.
        -- apply filter_In. split; [exact H|].
           apply negb_true_iff, Z.eqb_neq. assumption.
    + cbn [fst snd].
      split; [reflexivity|].
      split; [split; [discriminate|]|].
      * intros [_ Hno]. exfalso.
        apply (proj2 (cotacoes_do_fornecedor_vazio db id)) in Hno. congruence.
      * split; [reflexivity | discriminate].
  - cbn [fst snd].
    split; [discriminate|].
    split; [split; [discriminate | intros [[forn Hf] _]; discriminate]|].
    split; [reflexivity | discriminate].
Qed.

(** A supplier with one quotation, and the database after the attempt. *)
Lemma deletar_fornecedor_com_historico_witness :
  deletar_fornecedor db_fornecedor_cotado 1 = (db_fornecedor_cotado, ErroHistorico)
  /\ snd (deletar_fornecedor db_fornecedor_cotado 2) = Sucesso.
Proof.
  pose proof (deletar_fornecedor_com_historico db_fornecedor_cotado 1) as (H & _).
  pose proof (deletar_fornecedor_com_historico db_fornecedor_cotado 2) as (_ & H2 & _).
  split.
  - eapply H; [reflexivity | left; reflexivity | reflexivity].
  - apply H2. split; [eexists; reflexivity|].
    intros c [<-|[]]. cbn. discriminate.
Defined.

End Delecoes.

(* ================================================================== *)
(** * Choosing the winner of a request *)
(* ================================================================== *)

Section Escolher.
Local Open Scope float_scope.

Variables (form : Form) (req : Requisicao.t).

Lemma lance_valido_num g p : lance_valido form req g p -> is_nan p = false.
Proof. intros [_ H]. now apply FloatOrder.ltb_is_nan in H. Qed.

(** One turn either keeps the choice, the bid not being a valid one below
    the minimum, or replaces it by a valid bid strictly below. *)
Lemma cotar_casos e g :
  (cotar form req e g = e
   /\ forall p, lance_valido form req g p -> (p <? menor_preco e) = false)
  \/ (exists p, lance_valido form req g p /\ (p <? menor_preco e) = true
                /\ cotar form req e g =
                   {| menor_preco := p;
                      vencedor := Some (Fornecedor.id g, Fornecedor.nome g) |}).
Proof.
  unfold cotar, lance_valido.
  destruct (lance form req g) as [p|] eqn:L.
  - destruct (0 <? p) eqn:Hp.
    + destruct (p <? menor_preco e) eqn:Hm.
      * right. exists p. auto.
      * left. split; [reflexivity|]. intros q [Hq _]. now inversion Hq; subst.
    + left. split; [reflexivity|]. intros q [Hq Hq0]. inversion Hq; subst. congruence.
  - left. split; [reflexivity|]. intros q [Hq _]. discriminate.
Qed.

(** A valid bid that is not below [m] is strictly above whatever is
    strictly below [m]. *)
Lemma acima_do_novo_minimo p q m :
  is_nan p = false -> (p <? m) = false -> (q <? m) = true -> (q <? p) = true.
Proof.
  intros Hn Hpm Hqm. destruct (q <? p) eqn:E; [reflexivity|].
  rewrite (FloatOrder.ltb_ntrans _ _ _ Hn E Hpm) in Hqm. discriminate.
Qed.

Lemma escolher_snoc l g :
  escolher form req (l ++ [g]) = cotar form req (escolher form req l) g.
Proof. unfold escolher. now rewrite fold_left_app. Qed.

Lemma escolher_ok candidatos :
  escolha_ok form req candidatos (escolher form req candidatos).
Proof.
  induction candidatos as [|g l IH] using rev_ind.
  - cbn. split; [reflexivity|]. intros g p [].
  - rewrite escolher_snoc.
    set (e := escolher form req l) in *.
    destruct (cotar_casos e g) as [[Hk Hno]|(p & Hv & Hlt & Hk)]; rewrite Hk.
    + (* unchanged *)
      unfold escolha_ok in *. destruct (vencedor e) as [[vid vnome]|].
      * destruct IH as (antes & w & depois & -> & Hid & Hnome & Hw & Hinf & Ha & Hd).
        exists antes, w, (depois ++ [g]).
        rewrite <- app_assoc. cbn.
        repeat split; auto; try apply Hw.
        intros g' q Hin Hq. apply in_app_or in Hin. destruct Hin as [Hin|[<-|[]]].
        -- eauto.
        -- auto.
      * destruct IH as [Hm IH]. split; [exact Hm|].
        intros g' q Hin Hq. apply in_app_or in Hin. destruct Hin as [Hin|[<-|[]]].
        -- eauto.
        -- rewrite <- Hm. auto.
    + (* a new minimum *)
      unfold escolha_ok in *. cbn [vencedor menor_preco].
      exists l, g, []. repeat split; auto; try apply Hv.
      * destruct (vencedor e) as [[vid vnome]|].
        -- destruct IH as (_ & _ & _ & _ & _ & _ & _ & Hinf & _).
           eapply FloatOrder.ltb_trans; eauto.
        -- destruct IH as [Hm _]. now rewrite <- Hm.
      * intros g' q Hin Hq.
        pose proof (lance_valido_num g' q Hq) as Hn.
        destruct (vencedor e) as [[vid vnome]|].
        -- destruct IH as (antes & w & depois & -> & Hid & Hnome & Hw & Hinf & Ha & Hd).
           apply in_app_or in Hin. destruct Hin as [Hin|[<-|Hin]].
           ++ eapply FloatOrder.ltb_trans; [exact Hlt | eauto].
           ++ destruct Hw as [Hw _], Hq as [Hq _]. rewrite Hw in Hq.
              inversion Hq; subst. exact Hlt.
           ++ eapply acima_do_novo_minimo; eauto.
        -- destruct IH as [Hm IH]. rewrite Hm in Hlt.
           eapply acima_do_novo_minimo; eauto.
      * intros g' q [].
Qed.

(** A winner is chosen exactly when some candidate made a valid bid below
    infinity. *)
Lemma escolher_tem_vencedor candidatos :
  vencedor (escolher form req candidatos) <> None <->
  exists g p, In g candidatos /\ lance_valido form req g p /\ (p <? infinity) = true.
Proof.
  pose proof (escolher_ok candidatos) as H. unfold escolha_ok in H.
  destruct (vencedor (escolher form req candidatos)) as [[vid vnome]|].
  - destruct H as (antes & w & depois & E & _ & _ & Hw & Hinf & _).
    split; [intros _|discriminate].
    exists w, (menor_preco (escolher form req candidatos)).
    split; [rewrite E; apply in_elt | auto].
  - destruct H as [_ H]. split; [congruence|].
    intros (g & p & Hin & Hv & Hlt). rewrite (H g p Hin Hv) in Hlt. discriminate.
Qed.

End Escolher.

Lemma inserir_por_nome_perm f l : Permutation (inserir_por_nome f l) (f :: l).
Proof.
  induction l as [|g l IH]; cbn; [auto|].
  destruct (_ || _); [|auto].
  rewrite IH. apply perm_swap.
Qed.

Lemma order_by_nome_perm l : Permutation (order_by_nome l) l.
Proof.
  unfold order_by_nome.
  assert (G : forall acc, Permutation (fold_left (fun acc f => inserir_por_nome f acc) l acc)
                                      (acc ++ l)).
  { induction l as [|f l IH]; intros acc; cbn.
    - now rewrite app_nil_r.
    - rewrite IH, inserir_por_nome_perm. apply Permutation_middle. }
  apply (G []).
Qed.

(** C2. For a request of the batch, the candidates are its selected
    suppliers, or every active supplier when it selected none.  A winner is
    chosen exactly when some candidate made a valid bid (parsed, strictly
    above 0) that is below infinity; the winner is then a candidate whose
    valid bid is the smallest valid bid of all candidates: no candidate bid
    lower, and every candidate evaluated before the winner bid strictly
    higher, so that of two equal lowest bids the first evaluated wins.
    Without a winner no valid bid is below infinity. *)
Theorem escolher_menor_lance (db : DB) (form : Form) (req : Requisicao.t) :
  let candidatos := fornecedores_para_cotar db req in
  let e := escolher form req candidatos in
  (fornecedores_selecionados db req <> [] -> candidatos = fornecedores_selecionados db req)
  /\ (fornecedores_selecionados db req = [] ->
      candidatos = order_by_nome (fornecedores_ativos db)
      /\ Permutation candidatos (fornecedores_ativos db))
  /\ ((exists g p, In g candidatos /\ lance_valido form req g p
                   /\ (p <? infinity)%float = true)
      <-> exists vid vnome, vencedor e = Some (vid, vnome))
  /\ (forall vid vnome, vencedor e = Some (vid, vnome) ->
      exists antes w depois,
        candidatos = antes ++ w :: depois
        /\ Fornecedor.id w = vid /\ Fornecedor.nome w = vnome
        /\ lance_valido form req w (menor_preco e)
        /\ (menor_preco e <? infinity)%float = true
        /\ (forall g p, In g candidatos -> lance_valido form req g p ->
                        (p <? menor_preco e)%float = false)
        /\ (forall g p, In g antes -> lance_valido form req g p ->
                        (menor_preco e <? p)%float = true))
  /\ (vencedor e = None ->
      menor_preco e = infinity
      /\ forall g p, In g candidatos -> lance_valido form req g p ->
                     (p <? infinity)%float = false).
Proof.
  intros candidatos e.
  split; [|split; [|split; [|split]]].
  - unfold candidatos, fornecedores_para_cotar.
    destruct (fornecedores_selecionados db req); congruence.
  - intros H. unfold candidatos, fornecedores_para_cotar. rewrite H.
    split; [reflexivity | apply order_by_nome_perm].
  - rewrite <- (escolher_tem_vencedor form req candidatos). fold e.
    destruct (vencedor e) as [[vid vnome]|]; split.
    + intros _. eauto.
    + intros _. discriminate.
    + intros H. now contradiction H.
    + intros (vid & vnome & H). discriminate.
  - intros vid vnome Hv.
    pose proof (escolher_ok form req candidatos) as H. unfold escolha_ok in H.
    fold e in H. rewrite Hv in H.
    destruct H as (antes & w & depois & E & Hid & Hnome & Hw & Hinf & Ha & Hd).
    exists antes, w, depois. repeat split; auto; try apply Hw.
    intros g p Hin Hp. rewrite E in Hin. apply in_app_or in Hin.
    destruct Hin as [Hin|[<-|Hin]].
    + apply FloatOrder.ltb_asym. eauto.
    + destruct Hw as [Hw _], Hp as [Hp _]. rewrite Hw in Hp. inversion Hp; subst.
      apply FloatOrder.ltb_irrefl.
    + eauto.
  - intros Hv.
    pose proof (escolher_ok form req candidatos) as H. unfold escolha_ok in H.
    fold e in H. rewrite Hv in H. exact H.
Qed.

(* ================================================================== *)
(** * The dict [resultados] *)
(* ================================================================== *)

Section Dict.
Local Open Scope Z_scope.

Lemma dict_contains_get k d : dict_contains k d = false <-> dict_get k d = None.
Proof.
  unfold dict_contains, dict_get. induction d as [|[k' v] d IH]; cbn; [tauto|].
  destruct (k' =? k); cbn; [split; discriminate | exact IH].
Qed.

Lemma dict_get_In k b d : dict_get k d = Some b -> In (k, b) d.
Proof.
  unfold dict_get. destruct (find _ d) as [[k' v]|] eqn:F; [|discriminate].
  cbn. intros H. inversion H; subst. apply find_some in F as [F E].
  cbn in E. apply Z.eqb_eq in E. now subst.
Qed.

Lemma dict_In_get k b d : NoDup (map fst d) -> In (k, b) d -> dict_get k d = Some b.
Proof.
  unfold dict_get. induction d as [|[k' v] d IH]; cbn; [tauto|].
  intros Hn [H|H].
  - inversion H; subst. now rewrite Z.eqb_refl.
  - inversion Hn as [|? ? Hnotin Hn']; subst.
    destruct (k' =? k) eqn:E; [|auto].
    apply Z.eqb_eq in E. subst. exfalso. apply Hnotin.
    change k with (fst (k, b)). now apply in_map.
Qed.

Lemma dict_update_keys k f d : map fst (dict_update k f d) = map fst d.
Proof.
  induction d as [|[k' v] d IH]; cbn; [reflexivity|].
  destruct (k' =? k); cbn; now rewrite ?IH.
Qed.

Lemma dict_update_get k f d : dict_get k (dict_update k f d) = option_map f (dict_get k d).
Proof.
  unfold dict_get. induction d as [|[k' v] d IH]; cbn; [reflexivity|].
  destruct (k' =? k) eqn:E; cbn; rewrite E; [reflexivity | exact IH].
Qed.

Lemma dict_update_get_outro k k' f d :
  k' <> k -> dict_get k' (dict_update k f d) = dict_get k' d.
Proof.
  intros Hk. unfold dict_get. induction d as [|[k0 v] d IH]; cbn; [reflexivity|].
  destruct (k0 =? k) eqn:E; cbn.
  - apply Z.eqb_eq in E. subst.
    assert (E' : (k =? k') = false) by (apply Z.eqb_neq; congruence).
    now rewrite E'.
  - destruct (k0 =? k'); [reflexivity | exact IH].
Qed.

Lemma dict_add_get k v d : dict_get k d = None -> dict_get k (dict_add k v d) = Some v.
Proof.
  unfold dict_get, dict_add. induction d as [|[k' v'] d IH]; cbn.
  - now rewrite Z.eqb_refl.
  - destruct (k' =? k); [discriminate | exact IH].
Qed.

Lemma dict_add_get_outro k k' v d : k' <> k -> dict_get k' (dict_add k v d) = dict_get k' d.
Proof.
  intros Hk. unfold dict_get, dict_add. induction d as [|[k0 v0] d IH]; cbn.
  - assert (E : (k =? k') = false) by (apply Z.eqb_neq; congruence). now rewrite E.
  - destruct (k0 =? k'); [reflexivity | exact IH].
Qed.

Variables (vid : Z) (vnome : string) (it : Item).

(** After [registrar] the winner's bucket ends with the new line and its
    total has grown by the line's subtotal. *)
Lemma registrar_get r :
  exists b,
    dict_get vid (registrar vid vnome it r) = Some b
    /\ bk_itens b = match dict_get vid r with Some b0 => bk_itens b0 | None => [] end ++ [it]
    /\ bk_total b = (match dict_get vid r with Some b0 => bk_total b0 | None => 0%float end
                     + it_subtotal it)%float
    /\ bk_nome b = match dict_get vid r with Some b0 => bk_nome b0 | None => vnome end.
Proof.
  unfold registrar. rewrite !dict_update_get.
  destruct (dict_contains vid r) eqn:C.
  - destruct (dict_get vid r) as [b0|] eqn:G.
    + eexists. cbn. repeat split.
    + apply dict_contains_get in G. congruence.
  - apply dict_contains_get in C. rewrite C, dict_add_get by exact C.
    eexists. cbn. repeat split.
Qed.

Lemma registrar_get_outro k r : k <> vid -> dict_get k (registrar vid vnome it r) = dict_get k r.
Proof.
  intros Hk. unfold registrar. rewrite !dict_update_get_outro by exact Hk.
  destruct (dict_contains vid r); [reflexivity|].
  now apply dict_add_get_outro.
Qed.

Lemma registrar_keys r :
  map fst (registrar vid vnome it r) =
  if dict_contains vid r then map fst r else map fst r ++ [vid].
Proof.
  unfold registrar. rewrite !dict_update_keys.
  destruct (dict_contains vid r); [reflexivity|].
  unfold dict_add. now rewrite map_app.
Qed.

(** One bucket per supplier. *)
Lemma registrar_NoDup r : NoDup (map fst r) -> NoDup (map fst (registrar vid vnome it r)).
Proof.
  intros H. rewrite registrar_keys. destruct (dict_contains vid r) eqn:C; [exact H|].
  apply NoDup_app_remove_l with (l := []). cbn.
  apply Permutation_NoDup with (l := vid :: map fst r).
  - apply Permutation_cons_append.
  - constructor; [|exact H].
    intros Hin. apply in_map_iff in Hin as ([k b] & Hk & Hin). cbn in Hk. subst.
    unfold dict_contains in C.
    assert (T : existsb (fun kv : Z * Bucket => fst kv =? vid) r = true).
    { apply existsb_exists. exists (vid, b). split; [exact Hin | apply Z.eqb_refl]. }
    congruence.
Qed.

(** A line once in a bucket stays in it. *)
Lemma registrar_mantem k b it0 r :
  dict_get k r = Some b -> In it0 (bk_itens b) ->
  exists b', dict_get k (registrar vid vnome it r) = Some b' /\ In it0 (bk_itens b').
Proof.
  intros G Hin. destruct (Z.eq_dec k vid) as [->|Hk].
  - destruct (registrar_get r) as (b' & G' & Hit & _). rewrite G in Hit.
    exists b'. split; [exact G'|]. rewrite Hit. apply in_or_app. now left.
  - exists b. split; [|exact Hin]. now rewrite registrar_get_outro.
Qed.

Lemma sum_snoc xs x : Py.sum (xs ++ [x]) = (Py.sum xs + x)%float.
Proof. unfold Py.sum. now rewrite fold_left_app. Qed.

Lemma registrar_totais r :
  NoDup (map fst r) -> totais_ok r -> totais_ok (registrar vid vnome it r).
Proof.
  intros Hn Ht k b Hin.
  pose proof (registrar_NoDup r Hn) as Hn'.
  apply dict_In_get in Hin; [|exact Hn'].
  destruct (Z.eq_dec k vid) as [->|Hk].
  - destruct (registrar_get r) as (b' & G' & Hit & Htot & _).
    rewrite G' in Hin. inversion Hin; subst b'. rewrite Hit, Htot, map_app. cbn [map]. rewrite sum_snoc.
    destruct (dict_get vid r) as [b0|] eqn:G; [|reflexivity].
    now rewrite (Ht vid b0 (dict_get_In _ _ _ G)).
  - rewrite registrar_get_outro in Hin by exact Hk.
    apply (Ht k). now apply dict_get_In.
Qed.

End Dict.

(* ================================================================== *)
(** * The loop over the pending requests *)
(* ================================================================== *)

Section Lote.
Local Open Scope Z_scope.

Variables (db : DB) (form : Form).

(** The inner loop reads a request through its id only. *)
Lemma lance_mesmo_id r1 r2 g :
  Requisicao.id r1 = Requisicao.id r2 -> lance form r1 g = lance form r2 g.
Proof. intros H. unfold lance, input_name. now rewrite H. Qed.

Lemma escolher_mesmo_id r1 r2 :
  Requisicao.id r1 = Requisicao.id r2 ->
  escolher form r1 (fornecedores_para_cotar db r1) =
  escolher form r2 (fornecedores_para_cotar db r2).
Proof.
  intros H.
  assert (C : fornecedores_para_cotar db r1 = fornecedores_para_cotar db r2).
  { unfold fornecedores_para_cotar, fornecedores_selecionados. now rewrite H. }
  rewrite C. unfold escolher.
  generalize escolha_inicial. clear C.
  induction (fornecedores_para_cotar db r2) as [|g l IH]; intros e; cbn; [reflexivity|].
  rewrite IH. f_equal. unfold cotar. now rewrite (lance_mesmo_id r1 r2 g H).
Qed.

Lemma cotacao_do_lote_vazia_mesmo_id r1 r2 :
  Requisicao.id r1 = Requisicao.id r2 ->
  cotacao_do_lote db form r1 = [] -> cotacao_do_lote db form r2 = [].
Proof.
  unfold cotacao_do_lote. intros H. rewrite (escolher_mesmo_id r1 r2 H).
  destruct (vencedor _) as [[vid vnome]|]; [|reflexivity].
  destruct (vid =? 0); [reflexivity | discriminate].
Qed.

Lemma cotacao_do_lote_origem r q :
  In q (cotacao_do_lote db form r) ->
  Cotacao.requisicao_origem_id q = Some (Requisicao.id r).
Proof.
  unfold cotacao_do_lote.
  destruct (vencedor _) as [[vid vnome]|]; [|intros []].
  destruct (vid =? 0); [intros [] | intros [<-|[]]; reflexivity].
Qed.

(** ** One turn *)

Lemma processar_sem_cotacao st req :
  cotacao_do_lote db form req = [] -> processar db form st req = Some st.
Proof.
  unfold cotacao_do_lote, processar.
  destruct (vencedor _) as [[vid vnome]|]; [|reflexivity].
  destruct (vid =? 0); [reflexivity | discriminate].
Qed.

Lemma processar_com_vencedor st req vid vnome produto :
  vencedor (escolher form req (fornecedores_para_cotar db req)) = Some (vid, vnome) ->
  vid <> 0 ->
  get_produto db (Requisicao.produto_id req) = Some produto ->
  let preco := menor_preco (escolher form req (fornecedores_para_cotar db req)) in
  processar db form st req =
  Some {| resultados := registrar vid vnome (item_do_lote produto req preco) (resultados st);
          novas := novas st ++ [nova_cotacao req vid preco] |}
  /\ cotacao_do_lote db form req = [nova_cotacao req vid preco].
Proof.
  intros Hv Hz Hp preco. unfold processar, cotacao_do_lote. rewrite Hv.
  apply Z.eqb_neq in Hz. rewrite Hz, Hp. split; reflexivity.
Qed.

Lemma processar_novas st st' req :
  processar db form st req = Some st' ->
  novas st' = novas st ++ cotacao_do_lote db form req.
Proof.
  unfold processar, cotacao_do_lote.
  destruct (vencedor _) as [[vid vnome]|].
  - destruct (vid =? 0).
    + intros H. inversion H; subst. now rewrite app_nil_r.
    + destruct (get_produto _ _); [|discriminate].
      intros H. inversion H; subst. reflexivity.
  - intros H. inversion H; subst. now rewrite app_nil_r.
Qed.

Lemma processar_sucesso st req :
  get_produto db (Requisicao.produto_id req) <> None ->
  exists st', processar db form st req = Some st'.
Proof.
  intros Hp. unfold processar.
  destruct (vencedor _) as [[vid vnome]|]; [|eauto].
  destruct (vid =? 0); [eauto|].
  destruct (get_produto _ _); [eauto | congruence].
Qed.

(** What a turn keeps: one bucket per supplier, totals equal to the sum of
    the lines, and the lines already in a bucket. *)
Lemma processar_inv st st' req :
  processar db form st req = Some st' ->
  (NoDup (map fst (resultados st)) -> NoDup (map fst (resultados st')))
  /\ (NoDup (map fst (resultados st)) -> totais_ok (resultados st) -> totais_ok (resultados st'))
  /\ (forall k b it, dict_get k (resultados st) = Some b -> In it (bk_itens b) ->
                     exists b', dict_get k (resultados st') = Some b' /\ In it (bk_itens b')).
Proof.
  unfold processar.
  destruct (vencedor _) as [[vid vnome]|].
  - destruct (vid =? 0).
    + intros H. inversion H; subst. repeat split; eauto.
    + destruct (get_produto _ _); [|discriminate].
      intros H. inversion H; subst. cbn [resultados]. repeat split.
      * apply registrar_NoDup.
      * apply registrar_totais.
      * intros. now apply registrar_mantem with (b := b).
  - intros H. inversion H; subst. repeat split; eauto.
Qed.

(** ** The whole loop *)

Lemma processar_lote_app st l1 l2 :
  processar_lote db form st (l1 ++ l2) =
  match processar_lote db form st l1 with
  | Some st1 => processar_lote db form st1 l2
  | None => None
  end.
Proof.
  revert st. induction l1 as [|r l1 IH]; intros st; cbn; [reflexivity|].
  destruct (processar db form st r); [apply IH | reflexivity].
Qed.

Lemma processar_lote_sucesso l :
  (forall r, In r l -> get_produto db (Requisicao.produto_id r) <> None) ->
  forall st, exists st', processar_lote db form st l = Some st'.
Proof.
  induction l as [|r l IH]; intros H st; cbn; [eauto|].
  destruct (processar_sucesso st r) as [st1 E]; [apply H; now left|].
  rewrite E. apply IH. intros r' Hr'. apply H. now right.
Qed.

Lemma processar_lote_novas l :
  forall st st', processar_lote db form st l = Some st' ->
                 novas st' = novas st ++ flat_map (cotacao_do_lote db form) l.
Proof.
  induction l as [|r l IH]; intros st st'; cbn.
  - intros H. inversion H; subst. now rewrite app_nil_r.
  - destruct (processar db form st r) as [st1|] eqn:E; [|discriminate].
    intros H. rewrite (IH _ _ H), (processar_novas _ _ _ E). now rewrite app_assoc.
Qed.

Lemma processar_lote_inv l :
  forall st st', processar_lote db form st l = Some st' ->
  (NoDup (map fst (resultados st)) -> totais_ok (resultados st) ->
   NoDup (map fst (resultados st')) /\ totais_ok (resultados st'))
  /\ (forall k b it, dict_get k (resultados st) = Some b -> In it (bk_itens b) ->
                     exists b', dict_get k (resultados st') = Some b' /\ In it (bk_itens b')).
Proof.
  induction l as [|r l IH]; intros st st'; cbn.
  - intros H. inversion H; subst. split; eauto.
  - destruct (processar db form st r) as [st1|] eqn:E; [|discriminate].
    intros H. destruct (processar_inv _ _ _ E) as (I1 & I2 & I3).
    destruct (IH _ _ H) as (J1 & J2). split.
    + intros Hn Ht. apply J1; auto.
    + intros k b it G Hin. destruct (I3 _ _ _ G Hin) as (b1 & G1 & Hin1). eauto.
Qed.

(** A request without a quotation could be left out of the batch. *)
Lemma processar_lote_sem_cotacao st antes req depois :
  cotacao_do_lote db form req = [] ->
  processar_lote db form st (antes ++ req :: depois) =
  processar_lote db form st (antes ++ depois).
Proof.
  intros H. rewrite !processar_lote_app.
  destruct (processar_lote db form st antes) as [st1|]; [|reflexivity].
  cbn. now rewrite (processar_sem_cotacao st1 _ H).
Qed.

(** With distinct ids, the session's quotations of one request are those
    made in its own turn. *)
Lemma novas_da_requisicao l req :
  NoDup (map Requisicao.id l) -> In req l ->
  filter (origem_eqb (Requisicao.id req)) (flat_map (cotacao_do_lote db form) l) =
  cotacao_do_lote db form req.
Proof.
  assert (Hsame : forall r, filter (origem_eqb (Requisicao.id r)) (cotacao_do_lote db form r)
                            = cotacao_do_lote db form r).
  { intros r. apply forallb_filter_id. apply forallb_forall. intros q Hq.
    unfold origem_eqb. rewrite (cotacao_do_lote_origem _ _ Hq). apply Z.eqb_refl. }
  assert (Hother : forall r r', Requisicao.id r' <> Requisicao.id r ->
             filter (origem_eqb (Requisicao.id r)) (cotacao_do_lote db form r') = []).
  { intros r r' Hne.
    destruct (filter _ _) as [|q qs] eqn:F; [reflexivity|]. exfalso.
    assert (Hq : In q (filter (origem_eqb (Requisicao.id r)) (cotacao_do_lote db form r')))
      by (rewrite F; now left).
    apply filter_In in Hq as [Hq1 Hq2]. unfold origem_eqb in Hq2.
    rewrite (cotacao_do_lote_origem _ _ Hq1) in Hq2. apply Z.eqb_eq in Hq2. auto. }
  induction l as [|r l IH]; intros Hn Hin; [destruct Hin|].
  cbn [flat_map]. rewrite filter_app. inversion Hn as [|? ? Hnotin Hn']; subst.
  destruct Hin as [->|Hin].
  - rewrite Hsame.
    assert (E : filter (origem_eqb (Requisicao.id req)) (flat_map (cotacao_do_lote db form) l) = []).
    { clear IH Hn Hn'. induction l as [|r' l IH]; [reflexivity|].
      cbn [flat_map]. rewrite filter_app, Hother, IH; [reflexivity| |].
      - intros H. apply Hnotin. now right.
      - intros H. apply Hnotin. left. exact H. }
    rewrite E. apply app_nil_r.
  - rewrite Hother, IH; auto.
    intros H. apply Hnotin. rewrite H. now apply in_map.
Qed.

(** A request without a quotation is the origin of none, whatever ids the
    batch holds. *)
Lemma novas_sem_cotacao l req :
  cotacao_do_lote db form req = [] ->
  filter (origem_eqb (Requisicao.id req)) (flat_map (cotacao_do_lote db form) l) = [].
Proof.
  intros Hvazia. induction l as [|r l IH]; [reflexivity|].
  cbn [flat_map]. rewrite filter_app, IH, app_nil_r. clear IH.
  destruct (filter (origem_eqb (Requisicao.id req)) (cotacao_do_lote db form r))
    as [|c cs] eqn:Fc; [reflexivity|]. exfalso.
  assert (Hc : In c (filter (origem_eqb (Requisicao.id req)) (cotacao_do_lote db form r)))
    by (rewrite Fc; now left).
  apply filter_In in Hc as [Hc1 Hc2]. unfold origem_eqb in Hc2.
  rewrite (cotacao_do_lote_origem _ _ Hc1) in Hc2. apply Z.eqb_eq in Hc2.
  rewrite (cotacao_do_lote_vazia_mesmo_id req r (eq_sym Hc2) Hvazia) in Hc1.
  destruct Hc1.
Qed.

End Lote.

(* ================================================================== *)
(** * Commit of the batch *)
(* ================================================================== *)

Section Commit.
Local Open Scope Z_scope.

Lemma fold_max_ge l : forall a, a <= fold_left Z.max l a /\ forall x, In x l -> x <= fold_left Z.max l a.
Proof.
  induction l as [|y l IH]; intros a; cbn; [split; [lia | tauto]|].
  destruct (IH (Z.max a y)) as [H1 H2]. split; [lia|].
  intros x [->|Hx]; [lia | auto].
Qed.

(** The next key is above every key of the table. *)
Lemma proximo_id_maior ids x : In x ids -> x < proximo_id ids.
Proof.
  destruct ids as [|i ids]; [intros []|]. cbn [proximo_id].
  destruct (fold_max_ge ids i) as [H1 H2].
  intros [->|Hx]; [lia|]. specialize (H2 _ Hx). lia.
Qed.

Lemma find_app_l {A} (p : A -> bool) l1 l2 :
  find p (l1 ++ l2) = match find p l1 with Some x => Some x | None => find p l2 end.
Proof. induction l1 as [|a l1 IH]; cbn; [reflexivity|]. now destruct (p a). Qed.

Lemma find_none_all {A} (p : A -> bool) l : (forall x, In x l -> p x = false) -> find p l = None.
Proof.
  induction l as [|a l IH]; intros H; cbn; [reflexivity|].
  rewrite (H a (or_introl eq_refl)). apply IH. intros x Hx. apply H. now right.
Qed.

(** The committed table is the old one followed by the session's
    quotations under fresh, increasing keys. *)
Lemma inserir_cotacoes_criadas novas :
  forall tabela, exists criadas,
    inserir_cotacoes tabela novas = tabela ++ criadas
    /\ Forall2 mesma_cotacao criadas novas
    /\ (forall x q, In x tabela -> In q criadas -> Cotacao.id x < Cotacao.id q)
    /\ (forall q, In q criadas ->
                  find (fun c => Cotacao.id c =? Cotacao.id q) criadas = Some q).
Proof.
  induction novas as [|c novas IH]; intros tabela; cbn [inserir_cotacoes].
  - exists []. rewrite app_nil_r. repeat split; [constructor | intros ? ? _ [] | intros ? []].
  - match goal with |- context [tabela ++ [?x]] => set (c' := x) end.
    destruct (IH (tabela ++ [c'])) as (criadas & E & F & Hlt & Hfind).
    exists (c' :: criadas). rewrite E, <- app_assoc. cbn [app].
    split; [reflexivity|]. split; [|split].
    + constructor; [|exact F]. unfold mesma_cotacao. cbn. auto.
    + intros x q Hx [<-|Hq].
      * cbn [Cotacao.id c']. apply proximo_id_maior. now apply in_map.
      * apply Hlt; [|exact Hq]. apply in_or_app. now left.
    + intros q [<-|Hq]; cbn [find].
      * now rewrite Z.eqb_refl.
      * assert (L : Cotacao.id c' < Cotacao.id q).
        { apply Hlt; [|exact Hq]. apply in_or_app. right. now left. }
        assert (N : (Cotacao.id c' =? Cotacao.id q) = false) by (apply Z.eqb_neq; lia).
        rewrite N. auto.
Qed.

Lemma mesma_cotacao_filter rid criadas novas :
  Forall2 mesma_cotacao criadas novas ->
  Forall2 mesma_cotacao (filter (origem_eqb rid) criadas) (filter (origem_eqb rid) novas).
Proof.
  induction 1 as [|q c qs cs Hqc _ IH]; cbn; [constructor|].
  assert (E : origem_eqb rid q = origem_eqb rid c).
  { unfold origem_eqb. destruct Hqc as (_ & _ & _ & ->). reflexivity. }
  rewrite E. destruct (origem_eqb rid c); [constructor|]; auto.
Qed.

Lemma marcar_processadas_In db r :
  In r (requisicoes_pendentes db) ->
  In (Requisicao.set_status Processado r) (marcar_processadas (requisicoes db)).
Proof.
  unfold requisicoes_pendentes, marcar_processadas. intros H.
  apply filter_In in H as [Hin Hs]. apply in_map_iff. exists r. now rewrite Hs.
Qed.

Lemma marcar_processadas_sem_pendentes l :
  filter (fun r => Status_eqb (Requisicao.status r) Pendente) (marcar_processadas l) = [].
Proof.
  induction l as [|r l IH]; [reflexivity|]. cbn.
  destruct (Status_eqb (Requisicao.status r) Pendente) eqn:E; cbn; [exact IH|].
  now rewrite E.
Qed.

(** ** The route *)

Lemma mapa_cotacao_post_relatorio db form db' rel :
  mapa_cotacao db POST form = (db', RelatorioVencedores rel) ->
  exists st,
    processar_lote db form lote_inicial (requisicoes_pendentes db) = Some st
    /\ db' = commit_lote db st
    /\ rel = montar_relatorio (resultados st).
Proof.
  unfold mapa_cotacao. destruct (requisicoes_pendentes db) as [|r l]; [discriminate|].
  destruct (processar_lote db form lote_inicial (r :: l)) as [st|]; [|discriminate].
  intros H. inversion H; subst. eauto.
Qed.

Lemma mapa_cotacao_post_sucesso db form st :
  requisicoes_pendentes db <> [] ->
  processar_lote db form lote_inicial (requisicoes_pendentes db) = Some st ->
  mapa_cotacao db POST form =
  (commit_lote db st, RelatorioVencedores (montar_relatorio (resultados st))).
Proof.
  unfold mapa_cotacao. destruct (requisicoes_pendentes db) as [|r l]; [congruence|].
  intros _ ->. reflexivity.
Qed.

(** The candidates of a request are rows of the supplier table. *)
Lemma candidatos_da_tabela db req g :
  In g (fornecedores_para_cotar db req) -> In g (fornecedores db).
Proof.
  unfold fornecedores_para_cotar.
  assert (S : forall g, In g (fornecedores_selecionados db req) -> In g (fornecedores db)).
  { unfold fornecedores_selecionados. intros f Hf. apply in_flat_map in Hf as (row & _ & Hf).
    destruct (fst row =? Requisicao.id req); [|destruct Hf].
    destruct (get_fornecedor db (snd row)) as [f'|] eqn:G; [|destruct Hf].
    destruct Hf as [<-|[]]. now apply get_fornecedor_id in G. }
  destruct (fornecedores_selecionados db req) as [|f l] eqn:E.
  - intros H. apply (Permutation_in _ (order_by_nome_perm _)) in H.
    unfold fornecedores_ativos in H. apply filter_In in H. tauto.
  - apply S.
Qed.

End Commit.

(* ================================================================== *)
(** * Batch allocation *)
(* ================================================================== *)

Section Alocacao.
Local Open Scope Z_scope.

(** C3. A pending request whose candidates made no valid bid (the field is
    absent, does not parse, or is not above 0) is passed over: its turn
    raises nothing, adds no quotation to the session and leaves every bucket
    as it was, so the batch runs as if the request were not in it; once the
    batch is committed the request is Processado, nothing is pending, and no
    created quotation names it as its origin. *)
Theorem requisicao_sem_lance_valido (db : DB) (form : Form) (req : Requisicao.t) :
  In req (requisicoes_pendentes db) ->
  (forall g p, In g (fornecedores_para_cotar db req) ->
               lance form req g = Some p -> (0 <? p)%float = false) ->
  (forall st, processar db form st req = Some st)
  /\ (forall st antes depois,
         processar_lote db form st (antes ++ req :: depois) =
         processar_lote db form st (antes ++ depois))
  /\ (forall db' rel,
         mapa_cotacao db POST form = (db', RelatorioVencedores rel) ->
         In (Requisicao.set_status Processado req) (requisicoes db')
         /\ requisicoes_pendentes db' = []
         /\ exists criadas,
             cotacoes db' = cotacoes db ++ criadas
             /\ forall q, In q criadas ->
                          Cotacao.requisicao_origem_id q <> Some (Requisicao.id req))
  /\ ((forall r, In r (requisicoes_pendentes db) ->
                 get_produto db (Requisicao.produto_id r) <> None) ->
      exists db' rel, mapa_cotacao db POST form = (db', RelatorioVencedores rel)).
Proof.
  intros Hin Hno.
  assert (Hvazia : cotacao_do_lote db form req = []).
  { unfold cotacao_do_lote.
    destruct (vencedor (escolher form req (fornecedores_para_cotar db req))) as [[vid vnome]|] eqn:V;
      [|reflexivity].
    exfalso.
    assert (N : vencedor (escolher form req (fornecedores_para_cotar db req)) <> None) by congruence.
    apply escolher_tem_vencedor in N as (g & p & Hg & [Hl Hp] & _).
    rewrite (Hno g p Hg Hl) in Hp. discriminate. }
  split; [intros st; now apply processar_sem_cotacao|].
  split; [intros; now apply processar_lote_sem_cotacao|].
  split.
  - intros db' rel H.
    apply mapa_cotacao_post_relatorio in H as (st & Hst & -> & ->).
    split; [now apply marcar_processadas_In|].
    split; [apply marcar_processadas_sem_pendentes|].
    cbn [cotacoes commit_lote].
    destruct (inserir_cotacoes_criadas (novas st) (cotacoes db)) as (criadas & E & F & _).
    exists criadas. split; [exact E|].
    intros q Hq Ho.
    apply processar_lote_novas in Hst. cbn in Hst. rewrite Hst in F.
    apply (mesma_cotacao_filter (Requisicao.id req)) in F.
    assert (Hq' : In q (filter (origem_eqb (Requisicao.id req)) criadas)).
    { apply filter_In. split; [exact Hq|]. unfold origem_eqb. rewrite Ho. apply Z.eqb_refl. }
    rewrite (novas_sem_cotacao db form _ req Hvazia) in F.
 inversion F as [E0|]. rewrite <- E0 in Hq'. destruct Hq'.
  - intros Hp.
    destruct (processar_lote_sucesso db form _ Hp lote_inicial) as [st Hst].
    do 2 eexists. apply mapa_cotacao_post_sucesso; [|exact Hst].
    intros E. rewrite E in Hin. destruct Hin.
Qed.

(** C1 (amended). In a batch whose pending requests have distinct ids and
    existing products, over suppliers whose ids are not 0, a request for
    which a candidate made a valid bid below infinity gets exactly one new
    quotation: it carries the request's product, the winner, the lowest bid
    as price and the request as origin.  A line with subtotal price x
    quantity is in the winner's bucket, there is one bucket per supplier
    and each total is the sum of its lines; the report holds the buckets
    ordered by total, largest first (when no total is NaN), and the request
    ends Processado. *)
Theorem lote_cria_cotacao_do_vencedor (db : DB) (form : Form) (req : Requisicao.t) :
  In req (requisicoes_pendentes db) ->
  NoDup (map Requisicao.id (requisicoes_pendentes db)) ->
  (forall r, In r (requisicoes_pendentes db) ->
             get_produto db (Requisicao.produto_id r) <> None) ->
  (forall f, In f (fornecedores db) -> Fornecedor.id f <> 0) ->
  (exists g p, In g (fornecedores_para_cotar db req)
               /\ lance_valido form req g p /\ (p <? infinity)%float = true) ->
  let e := escolher form req (fornecedores_para_cotar db req) in
  exists st vid vnome produto criadas q b,
    mapa_cotacao db POST form =
      (commit_lote db st, RelatorioVencedores (montar_relatorio (resultados st)))
    /\ vencedor e = Some (vid, vnome)
    /\ get_produto db (Requisicao.produto_id req) = Some produto
    /\ cotacoes (commit_lote db st) = cotacoes db ++ criadas
    /\ filter (origem_eqb (Requisicao.id req)) criadas = [q]
    /\ Cotacao.produto_id q = Requisicao.produto_id req
    /\ Cotacao.fornecedor_id q = vid
    /\ Cotacao.preco q = menor_preco e
    /\ Cotacao.requisicao_origem_id q = Some (Requisicao.id req)
    /\ dict_get vid (resultados st) = Some b
    /\ In (item_do_lote produto req (menor_preco e)) (bk_itens b)
    /\ it_subtotal (item_do_lote produto req (menor_preco e)) =
         (menor_preco e * Py.of_int (Requisicao.quantidade req))%float
    /\ NoDup (map fst (resultados st))
    /\ In (grupo_do_bucket b) (montar_relatorio (resultados st))
    /\ Permutation (montar_relatorio (resultados st))
                   (map (fun kv => grupo_do_bucket (snd kv)) (resultados st))
    /\ (forall g, In g (montar_relatorio (resultados st)) ->
                  gr_total g = Py.sum (map it_subtotal (gr_itens g)))
    /\ (Forall (fun g => is_nan (gr_total g) = false) (montar_relatorio (resultados st)) ->
        StronglySorted (decrescente gr_total) (montar_relatorio (resultados st)))
    /\ In (Requisicao.set_status Processado req) (requisicoes (commit_lote db st)).
Proof.
  intros Hin Hnd Hprod Hids Hbid e.
  (* the winner of the request *)
  assert (N : vencedor e <> None) by (apply escolher_tem_vencedor; exact Hbid).
  destruct (vencedor e) as [[vid vnome]|] eqn:V; [clear N | congruence].
  assert (Hvid : vid <> 0).
  { pose proof (escolher_ok form req (fornecedores_para_cotar db req)) as K.
    unfold escolha_ok in K. fold e in K. rewrite V in K.
    destruct K as (antes & w & depois & E & Hw & _).
    rewrite <- Hw. apply Hids. apply (candidatos_da_tabela db req). rewrite E. apply in_elt. }
  destruct (get_produto db (Requisicao.produto_id req)) as [produto|] eqn:P;
    [|exfalso; now apply (Hprod req Hin)].
  (* the batch, split at the request *)
  destruct (in_split _ _ Hin) as (antes & depois & Hsplit).
  destruct (processar_lote_sucesso db form _ Hprod lote_inicial) as [st Hst].
  pose proof Hst as Hst0.
  rewrite Hsplit, processar_lote_app in Hst.
  destruct (processar_lote db form lote_inicial antes) as [st1|] eqn:H1; [|discriminate].
  cbn [processar_lote] in Hst.
  destruct (processar_com_vencedor db form st1 req vid vnome produto V Hvid P) as [Hproc Hcot].
  rewrite Hproc in Hst.
  match type of Hst with processar_lote _ _ ?s _ = _ => set (st2 := s) in * end.
  (* the report under construction *)
  destruct (processar_lote_inv db form _ _ _ H1) as [I1 _].
  destruct (I1 (NoDup_nil _)) as [Hn1 Ht1]; [intros k b []|].
  destruct (processar_lote_inv db form _ _ _ Hst) as [I2 K2].
  assert (Hn2 : NoDup (map fst (resultados st2))) by (now apply registrar_NoDup).
  assert (Ht2 : totais_ok (resultados st2)) by (now apply registrar_totais).
  destruct (I2 Hn2 Ht2) as [Hn Ht].
  destruct (registrar_get vid vnome (item_do_lote produto req (menor_preco e)) (resultados st1))
    as (b2 & G2 & Hit2 & _).
  destruct (K2 vid b2 (item_do_lote produto req (menor_preco e)) G2) as (b & G & Hitem).
  { rewrite Hit2. apply in_or_app. right. now left. }
  (* the committed quotations *)
  destruct (inserir_cotacoes_criadas (novas st) (cotacoes db)) as (criadas & E & F & _).
  pose proof (processar_lote_novas db form _ _ _ Hst0) as Hnovas. cbn in Hnovas.
  rewrite Hnovas in F.
  apply (mesma_cotacao_filter (Requisicao.id req)) in F.
  rewrite (novas_da_requisicao db form _ req Hnd Hin), Hcot in F.
  inversion F as [|q c qs cs (Q1 & Q2 & Q3 & Q4) F' Eq]. inversion F'; subst qs cs c.
  pose proof (sort_reverse_perm gr_total (map (fun kv => grupo_do_bucket (snd kv)) (resultados st)))
    as Hperm.
  exists st, vid, vnome, produto, criadas, q, b.
  split; [apply mapa_cotacao_post_sucesso; [rewrite Hsplit; now destruct antes | exact Hst0]|].
  split; [reflexivity|]. split; [reflexivity|].
  split; [exact E|]. split; [now symmetry|].
  split; [exact Q2|]. split; [exact Q3|]. split; [exact Q1|]. split; [exact Q4|].
  split; [exact G|]. split; [exact Hitem|]. split; [reflexivity|].
  split; [exact Hn|].
  split.
  { apply (Permutation_in _ (Permutation_sym Hperm)).
    apply in_map_iff. exists (vid, b). split; [reflexivity | now apply dict_get_In]. }
  split; [exact Hperm|].
  split.
  { intros g Hg. apply (Permutation_in _ Hperm) in Hg.
    apply in_map_iff in Hg as ([k b'] & <- & Hkb). cbn. now apply (Ht k). }
  split.
  { intros Hnan. apply sort_reverse_sorted.
    apply Forall_forall. intros g Hg. rewrite Forall_forall in Hnan. apply Hnan.
    apply (Permutation_in _ (Permutation_sym Hperm)). exact Hg. }
  now apply marcar_processadas_In.
Qed.

End Alocacao.

Section AlocacaoExemplos.
Local Open Scope Z_scope.

(** The batch of the sample data, run: request 7 goes to B at 8.50 with
    subtotal 25.50, the tie of request 8 goes to A, evaluated first, and
    request 9 is passed over; the report lists B (25.50) before A (10.00). *)
Example lote_exemplo :
  mapa_cotacao db_lote POST form_lote = (db_lote_depois, RelatorioVencedores relatorio_lote).
Proof. vm_compute. reflexivity. Qed.

(** Entered with a decimal dot, the same bids are read as 1000, 850 and
    900: B still wins, at 850. *)
Example lote_exemplo_ponto :
  let form := [("preco_7_1", "10.00"); ("preco_7_2", "8.50"); ("preco_7_3", "9.00")]%string in
  escolher form req_7 (fornecedores_para_cotar db_lote req_7) =
  {| menor_preco := 850; vencedor := Some (2, "B"%string) |}.
Proof. vm_compute. reflexivity. Qed.

Lemma parse_moeda_formato_brasileiro_witness :
  parse_moeda "abc" = None
  /\ cotar form_lote req_9 escolha_inicial forn_C = escolha_inicial.
Proof.
  destruct parse_moeda_formato_brasileiro as (_ & _ & _ & _ & _ & _ & H7 & _ & H9).
  split; [apply H7 | apply H9]; vm_compute; reflexivity.
Defined.

(** Request 8 of the sample batch: A and B both bid 5,00, a valid bid below
    infinity, so a winner is chosen, and it is A, evaluated first. *)
Lemma escolher_menor_lance_witness :
  let e := escolher form_lote req_8 (fornecedores_para_cotar db_lote req_8) in
  (exists vid vnome, vencedor e = Some (vid, vnome))
  /\ vencedor e = Some (1, "A"%string)
  /\ menor_preco e = 5%float
  /\ exists antes w depois,
      fornecedores_para_cotar db_lote req_8 = antes ++ w :: depois
      /\ Fornecedor.id w = 1 /\ Fornecedor.nome w = "A"%string
      /\ lance_valido form_lote req_8 w (menor_preco e)
      /\ (menor_preco e <? infinity)%float = true
      /\ (forall g p, In g (fornecedores_para_cotar db_lote req_8) ->
                      lance_valido form_lote req_8 g p -> (p <? menor_preco e)%float = false)
      /\ (forall g p, In g antes -> lance_valido form_lote req_8 g p ->
                      (menor_preco e <? p)%float = true).
Proof.
  pose proof (escolher_menor_lance db_lote form_lote req_8) as T. cbv zeta in T.
  destruct T as (_ & _ & Ex & W & _).
  assert (B : exists g p, In g (fornecedores_para_cotar db_lote req_8)
                          /\ lance_valido form_lote req_8 g p
                          /\ (p <? infinity)%float = true).
  { exists forn_B, 5%float. split; [right; left; reflexivity|].
    split; [split|]; vm_compute; reflexivity. }
  assert (V : vencedor (escolher form_lote req_8 (fornecedores_para_cotar db_lote req_8))
              = Some (1, "A"%string)) by (vm_compute; reflexivity).
  split; [exact (proj1 Ex B)|]. split; [exact V|]. split; [vm_compute; reflexivity|].
  exact (W 1 "A"%string V).
Defined.

Lemma requisicao_sem_lance_valido_witness :
  processar db_lote form_lote lote_inicial req_9 = Some lote_inicial
  /\ In (Requisicao.set_status Processado req_9)
        (requisicoes (fst (mapa_cotacao db_lote POST form_lote))).
Proof.
  assert (Hin : In req_9 (requisicoes_pendentes db_lote))
    by (vm_compute; right; right; left; reflexivity).
  assert (Hno : forall g p, In g (fornecedores_para_cotar db_lote req_9) ->
                            lance form_lote req_9 g = Some p -> (0 <? p)%float = false).
  { intros g p Hg. vm_compute in Hg.
    destruct Hg as [<-|[<-|[<-|[]]]]; vm_compute; intros H; inversion H; reflexivity. }
  destruct (requisicao_sem_lance_valido db_lote form_lote req_9 Hin Hno) as (T & _ & C & _).
  split; [apply T|].
  destruct (mapa_cotacao db_lote POST form_lote) as [db' resp] eqn:M.
  assert (R : exists rel, resp = RelatorioVencedores rel).
  { rewrite lote_exemplo in M. inversion M. eauto. }
  destruct R as [rel ->]. exact (proj1 (C db' rel eq_refl)).
Defined.

Lemma lote_cria_cotacao_do_vencedor_witness :
  exists st q,
    mapa_cotacao db_lote POST form_lote =
      (commit_lote db_lote st, RelatorioVencedores (montar_relatorio (resultados st)))
    /\ In q (cotacoes (commit_lote db_lote st))
    /\ Cotacao.requisicao_origem_id q = Some 7
    /\ Cotacao.fornecedor_id q = 2
    /\ Cotacao.preco q = 8.5%float
    /\ montar_relatorio (resultados st) = relatorio_lote
    /\ StronglySorted (decrescente gr_total) (montar_relatorio (resultados st)).
Proof.
  assert (H1 : In req_7 (requisicoes_pendentes db_lote)) by (left; reflexivity).
  assert (H2 : NoDup (map Requisicao.id (requisicoes_pendentes db_lote))).
  { vm_compute. repeat constructor; cbn; intuition discriminate. }
  assert (H3 : forall r, In r (requisicoes_pendentes db_lote) ->
                         get_produto db_lote (Requisicao.produto_id r) <> None).
  { intros r Hr. vm_compute in Hr. destruct Hr as [<-|[<-|[<-|[]]]]; discriminate. }
  assert (H4 : forall f, In f (fornecedores db_lote) -> Fornecedor.id f <> 0).
  { intros f Hf. cbn in Hf. destruct Hf as [<-|[<-|[<-|[]]]]; discriminate. }
  assert (H5 : exists g p, In g (fornecedores_para_cotar db_lote req_7)
                           /\ lance_valido form_lote req_7 g p /\ (p <? infinity)%float = true).
  { exists forn_B, 8.5%float. split; [right; left; reflexivity|].
    split; [split|]; vm_compute; reflexivity. }
  pose proof (lote_cria_cotacao_do_vencedor db_lote form_lote req_7 H1 H2 H3 H4 H5) as T.
  cbv zeta in T.
  destruct T as (st & vid & vnome & produto & criadas & q & b
                 & M & V & _ & E & F & _ & Q3 & Q1 & Q4
                 & _ & _ & _ & _ & _ & _ & _ & S & _).
  assert (Hrel : montar_relatorio (resultados st) = relatorio_lote).
  { pose proof lote_exemplo as X. rewrite M in X. congruence. }
  exists st, q.
  assert (Hq : In q criadas).
  { assert (Hq : In q (filter (origem_eqb (Requisicao.id req_7)) criadas)) by (rewrite F; now left).
    apply filter_In in Hq. tauto. }
  assert (V' : vencedor (escolher form_lote req_7 (fornecedores_para_cotar db_lote req_7))
               = Some (2, "B"%string)) by (vm_compute; reflexivity).
  assert (Hv : vid = 2) by congruence.
  split; [exact M|]. split; [rewrite E; apply in_or_app; now right|].
  split; [exact Q4|]. split; [now rewrite Q3|].
  split; [rewrite Q1; vm_compute; reflexivity|].
  split; [exact Hrel|].
  apply S. rewrite Hrel. repeat constructor.
Defined.

(** C1 (as stated) fails on the bid "inf": it parses, it is strictly above
    0, and yet it never gets below the initial minimum; the request is marked
    Processado with no quotation and an empty report. *)
Lemma lote_lance_infinito :
  In req_7 (requisicoes_pendentes db_inf)
  /\ In forn_A (fornecedores_para_cotar db_inf req_7)
  /\ parse_moeda "inf" = Some infinity
  /\ lance form_inf req_7 forn_A = Some infinity
  /\ (0 <? infinity)%float = true
  /\ mapa_cotacao db_inf POST form_inf =
     ({| produtos := [prod_2289];
         fornecedores := [forn_A];
         requisicoes := [Requisicao.set_status Processado req_7];
         cotacoes := [];
         requisicao_fornecedores := [(7, 1)] |},
      RelatorioVencedores []).
Proof. vm_compute. repeat split; auto. Qed.

(** C2 (as stated) fails on the same bid: supplier A is the only
    candidate of the request and its bid "inf" is valid, hence the lowest
    valid bid, and yet the loop ends without a winner. *)
Lemma escolher_lance_infinito :
  fornecedores_para_cotar db_inf req_7 = [forn_A]
  /\ lance form_inf req_7 forn_A = Some infinity
  /\ (0 <? infinity)%float = true
  /\ vencedor (escolher form_inf req_7 (fornecedores_para_cotar db_inf req_7)) = None
  /\ menor_preco (escolher form_inf req_7 (fornecedores_para_cotar db_inf req_7)) = infinity.
Proof. vm_compute. repeat split. Qed.

End AlocacaoExemplos.

(* ================================================================== *)
(** * Deleting a quotation *)
(* ================================================================== *)

Section DeletarCotacao.
Local Open Scope Z_scope.

Lemma set_status_pendente_processado r :
  Requisicao.status r = Pendente ->
  Requisicao.set_status Pendente (Requisicao.set_status Processado r) = r.
Proof. destruct r as [i p q s]. cbn. now intros ->. Qed.

Lemma skipn_length_app {A} (l l' : list A) : skipn (List.length l) (l ++ l') = l'.
Proof. induction l as [|a l IH]; [reflexivity | exact IH]. Qed.

(** What the route does to a quotation that names a request. *)
Lemma deletar_cotacao_final_efeito db id c rid :
  get_cotacao db id = Some c ->
  Cotacao.requisicao_origem_id c = Some rid ->
  rid <> 0 ->
  snd (deletar_cotacao_final db id) = Sucesso
  /\ get_cotacao (fst (deletar_cotacao_final db id)) id = None
  /\ (forall q, In q (cotacoes (fst (deletar_cotacao_final db id))) <->
                In q (cotacoes db) /\ Cotacao.id q <> id)
  /\ (forall r, In r (requisicoes db) -> Requisicao.id r = rid ->
                In (Requisicao.set_status Pendente r)
                   (requisicoes (fst (deletar_cotacao_final db id))))
  /\ (forall r, In r (requisicoes (fst (deletar_cotacao_final db id))) ->
                Requisicao.id r = rid -> Requisicao.status r = Pendente)
  /\ (forall r, Requisicao.id r <> rid ->
                (In r (requisicoes (fst (deletar_cotacao_final db id))) <->
                 In r (requisicoes db))).
Proof.
  intros G O Hz. unfold deletar_cotacao_final. rewrite G, O.
  apply Z.eqb_neq in Hz. rewrite Hz. cbn [fst snd cotacoes requisicoes].
  apply get_cotacao_id in G as [Hid _]. rewrite Hid.
  split; [reflexivity|]. split; [|split].
  - unfold get_cotacao. cbn [cotacoes]. apply find_none_all.
    intros q Hq. apply filter_In in Hq as [_ Hq].
    now apply negb_true_iff in Hq.
  - intros q. rewrite filter_In, negb_true_iff, Z.eqb_neq. tauto.
  - destruct (get_requisicao db rid) as [req|] eqn:R.
    + assert (Hreq : Requisicao.id req = rid).
      { unfold get_requisicao in R. apply find_some in R as [_ R]. now apply Z.eqb_eq in R. }
      rewrite Hreq. split; [|split].
      * intros r Hr Hrid. apply in_map_iff. exists r.
        apply Z.eqb_eq in Hrid. now rewrite Hrid.
      * intros r Hr Hrid. apply in_map_iff in Hr as (r0 & E & _).
        destruct (Requisicao.id r0 =? rid) eqn:Er; subst r; [reflexivity|].
        apply Z.eqb_neq in Er. contradiction.
      * intros r Hr. rewrite in_map_iff. split.
        -- intros (r0 & E & Hin).
           destruct (Requisicao.id r0 =? rid) eqn:Er; subst r; [|exact Hin].
           apply Z.eqb_eq in Er. cbn in Hr. contradiction.
        -- intros Hin. exists r. apply Z.eqb_neq in Hr. now rewrite Hr.
    + assert (Hnone : forall r, In r (requisicoes db) -> Requisicao.id r <> rid).
      { intros r Hr E. unfold get_requisicao in R.
        apply (find_none _ _ R) in Hr. apply Z.eqb_neq in Hr. contradiction. }
      split; [|split].
      * intros r Hr Hrid. exfalso. now apply (Hnone r).
      * intros r Hr Hrid. exfalso. now apply (Hnone r).
      * tauto.
Qed.

(** C10. Deleting a quotation that names a request (under a key that is
    not 0) succeeds, removes that quotation and no other, and sets the named
    request to Pendente, leaving the other requests alone.  In particular a
    quotation created by the batch for a pending request, once deleted,
    leaves that request exactly as it was before the batch: Pendente. *)
Theorem deletar_cotacao_reabre_requisicao :
  (forall db id c rid,
      get_cotacao db id = Some c ->
      Cotacao.requisicao_origem_id c = Some rid ->
      rid <> 0 ->
      let db' := fst (deletar_cotacao_final db id) in
      snd (deletar_cotacao_final db id) = Sucesso
      /\ get_cotacao db' id = None
      /\ (forall q, In q (cotacoes db') <-> In q (cotacoes db) /\ Cotacao.id q <> id)
      /\ (forall r, In r (requisicoes db) -> Requisicao.id r = rid ->
                    In (Requisicao.set_status Pendente r) (requisicoes db'))
      /\ (forall r, In r (requisicoes db') -> Requisicao.id r = rid ->
                    Requisicao.status r = Pendente)
      /\ (forall r, Requisicao.id r <> rid ->
                    (In r (requisicoes db') <-> In r (requisicoes db))))
  /\ (forall db form db1 rel req q,
         mapa_cotacao db POST form = (db1, RelatorioVencedores rel) ->
         In req (requisicoes_pendentes db) ->
         Requisicao.id req <> 0 ->
         In q (skipn (List.length (cotacoes db)) (cotacoes db1)) ->
         Cotacao.requisicao_origem_id q = Some (Requisicao.id req) ->
         let db2 := fst (deletar_cotacao_final db1 (Cotacao.id q)) in
         In (Requisicao.set_status Processado req) (requisicoes db1)
         /\ snd (deletar_cotacao_final db1 (Cotacao.id q)) = Sucesso
         /\ ~ In q (cotacoes db2)
         /\ In req (requisicoes db2)
         /\ (forall r, In r (requisicoes db2) -> Requisicao.id r = Requisicao.id req ->
                       Requisicao.status r = Pendente)).
Proof.
  split.
  - intros db id c rid G O Hz. exact (deletar_cotacao_final_efeito db id c rid G O Hz).
  - intros db form db1 rel req q M Hreq Hz Hq Ho db2.
    apply mapa_cotacao_post_relatorio in M as (st & _ & -> & _).
    cbn [cotacoes commit_lote] in Hq.
    destruct (inserir_cotacoes_criadas (novas st) (cotacoes db))
      as (criadas & E & _ & Hlt & Hfind).
    rewrite E, skipn_length_app in Hq.
    assert (G : get_cotacao (commit_lote db st) (Cotacao.id q) = Some q).
    { unfold get_cotacao. cbn [cotacoes commit_lote]. rewrite E, find_app_l.
      rewrite find_none_all; [now apply Hfind|].
      intros x Hx. apply Z.eqb_neq. specialize (Hlt x q Hx Hq). lia. }
    pose proof (marcar_processadas_In db req Hreq) as Hproc.
    destruct (deletar_cotacao_final_efeito (commit_lote db st) (Cotacao.id q) q _ G Ho Hz)
      as (S & _ & Hc & Hr & Hp & _).
    split; [exact Hproc|]. split; [exact S|]. split; [|split].
    + intros Hin. apply Hc in Hin. now destruct Hin.
    + unfold requisicoes_pendentes in Hreq. apply filter_In in Hreq as [_ Hs].
      assert (Hs' : Requisicao.status req = Pendente)
        by (destruct (Requisicao.status req); [reflexivity | discriminate | discriminate]).
      rewrite <- (set_status_pendente_processado req Hs') at 1.
      apply Hr; [exact Hproc | reflexivity].
    + exact Hp.
Qed.

Lemma deletar_cotacao_reabre_requisicao_witness :
  In req_7 (requisicoes (fst (deletar_cotacao_final (fst (mapa_cotacao db_lote POST form_lote)) 2)))
  /\ get_cotacao (fst (deletar_cotacao_final (fst (mapa_cotacao db_lote POST form_lote)) 2)) 2 = None.
Proof.
  destruct deletar_cotacao_reabre_requisicao as [T1 T2].
  set (q := {| Cotacao.id := 2; Cotacao.preco := 8.5; Cotacao.produto_id := 2289;
               Cotacao.fornecedor_id := 2; Cotacao.requisicao_origem_id := Some 7 |}).
  split.
  - refine (proj1 (proj2 (proj2 (proj2
      (T2 db_lote form_lote _ _ req_7 q lote_exemplo _ _ _ _))))).
    + left; reflexivity.
    + discriminate.
    + left; reflexivity.
    + reflexivity.
  - refine (proj1 (proj2 (T1 (fst (mapa_cotacao db_lote POST form_lote)) 2 q 7 _ _ _))).
    + vm_compute; reflexivity.
    + reflexivity.
    + discriminate.
Defined.

End DeletarCotacao.

(* ================================================================== *)
(** * Supplier ranking *)
(* ================================================================== *)

Section Ranking.
Local Open Scope Z_scope.

Lemma filter_perm {A} (p : A -> bool) l l' :
  Permutation l l' -> Permutation (filter p l) (filter p l').
Proof.
  induction 1 as [|x l l' _ IH|x y l|l l' l'' _ IH1 _ IH2]; cbn.
  - constructor.
  - destruct (p x); [now constructor | exact IH].
  - destruct (p x), (p y); try reflexivity. apply perm_swap.
  - now transitivity (filter p l').
Qed.

(** ** One supplier *)

(** The supplier's own quotations are among all of them. *)
Lemma max_1_total db fid p ps :
  map Cotacao.preco (cotacoes_do_fornecedor db fid) = p :: ps ->
  Z.max 1 (Z.of_nat (List.length (cotacoes db))) = Z.of_nat (List.length (cotacoes db)).
Proof.
  intros H. unfold cotacoes_do_fornecedor in H.
  destruct (cotacoes db) as [|c l]; [discriminate|]. cbn [List.length]. lia.
Qed.

(** [pontuar] skips exactly the suppliers without a quotation, and raises
    exactly on a mean of zero over several quotations. *)
Lemma pontuar_casos db f :
  match map Cotacao.preco (cotacoes_do_fornecedor db (Fornecedor.id f)) with
  | [] => pontuar db f = Some None
  | p :: ps =>
      if (1 <? n_cotacoes p ps) && (calc_preco_medio p ps =? 0)%float
      then pontuar db f = None
      else exists s, pontuar db f = Some (Some s)
  end.
Proof.
  unfold pontuar.
  destruct (map Cotacao.preco (cotacoes_do_fornecedor db (Fornecedor.id f))) as [|p ps];
    [reflexivity|].
  unfold calc_score_consistencia, Py.div.
  destruct (1 <? n_cotacoes p ps); cbn [andb]; [|eauto].
  destruct (calc_preco_medio p ps =? 0)%float; eauto.
Qed.



(** The fields of a record, as the loop body computes them. *)
Lemma pontuar_campos db f s :
  pontuar db f = Some (Some s) ->
  exists p ps,
    map Cotacao.preco (cotacoes_do_fornecedor db (Fornecedor.id f)) = p :: ps
    /\ sc_fornecedor_id s = Fornecedor.id f
    /\ sc_fornecedor_nome s = Fornecedor.nome f
    /\ medalha s = None
    /\ qtd_cotacoes s = Z.of_nat (List.length (p :: ps))
    /\ (let n := Py.of_int (Z.of_nat (List.length (p :: ps))) in
        let T := Py.of_int (Z.of_nat (List.length (cotacoes db))) in
        let A := or_zero (sql_avg (map Cotacao.preco (cotacoes db))) in
        let P := Py.sum (p :: ps) / n in
        let s_preco := if 0 <? A then Py.max 0 (10 - (P - A) / A * 10) else 5 in
        let s_conf := Py.min 10 (n / T * 100 / 100 * 10 + 3) in
        let s_cons := if (1 <? Z.of_nat (List.length (p :: ps)))%Z
                      then Py.max 1 (10 - (Py.max_list p ps - Py.min_list p ps) / P * 5)
                      else 8 in
        preco_medio s = P
        /\ score_preco s = Py.round1 s_preco
        /\ score_confiabilidade s = Py.round1 s_conf
        /\ score_consistencia s = Py.round1 s_cons
        /\ score_total s = Py.round1 (s_preco * 0.4 + s_conf * 0.35 + s_cons * 0.25))%float.
Proof.
  unfold pontuar.
  destruct (map Cotacao.preco (cotacoes_do_fornecedor db (Fornecedor.id f))) as [|p ps] eqn:E;
    [discriminate|].
  pose proof (max_1_total db (Fornecedor.id f) p ps E) as M.
  destruct (calc_score_consistencia p ps) as [s_cons|] eqn:C; [|discriminate].
  intros H. inversion H; subst s; clear H. exists p, ps.
  cbn [sc_fornecedor_id sc_fornecedor_nome medalha qtd_cotacoes preco_medio score_preco
       score_confiabilidade score_consistencia score_total].
  repeat (split; [reflexivity|]).
  unfold calc_score_confiabilidade, vitoria_rate. rewrite M.
  repeat (split; [reflexivity|]).
  assert (Hc : s_cons =
               if 1 <? Z.of_nat (List.length (p :: ps))
               then Py.max 1 (10 - (Py.max_list p ps - Py.min_list p ps)
                                   / (Py.sum (p :: ps) / Py.of_int (Z.of_nat (List.length (p :: ps)))) * 5)
               else 8%float).
  { unfold calc_score_consistencia, Py.div in C. fold (n_cotacoes p ps).
    destruct (1 <? n_cotacoes p ps).
    - destruct (calc_preco_medio p ps =? 0)%float; [discriminate|].
      inversion C. reflexivity.
    - inversion C. reflexivity. }
  rewrite <- Hc. split; reflexivity.
Qed.

(** ** The loop *)

Lemma pontuar_todos_some db l out :
  pontuar_todos db l = Some out ->
  out = flat_map (score_de db) l /\ forall f, In f l -> pontuar db f <> None.
Proof.
  revert out. induction l as [|f l IH]; cbn; intros out H.
  - inversion H. split; [reflexivity | intros f []].
  - unfold score_de at 1. destruct (pontuar db f) as [o|] eqn:P; [|discriminate].
    destruct (pontuar_todos db l) as [rest|]; [|discriminate].
    destruct (IH rest eq_refl) as [-> Hl]. inversion H; subst out. split.
    + now destruct o.
    + intros g [<-|Hg]; [congruence | now apply Hl].
Qed.


Lemma pontuar_todos_none db l :
  pontuar_todos db l = None <-> exists f, In f l /\ pontuar db f = None.
Proof.
  split.
  - intros H. induction l as [|f l IH]; cbn in H; [discriminate|].
    destruct (pontuar db f) as [o|] eqn:P; [|exists f; split; [now left | exact P]].
    destruct (pontuar_todos db l); [discriminate|].
    destruct (IH eq_refl) as (g & Hg & Pg). exists g. split; [now right | exact Pg].
  - intros (f & Hf & Pf). destruct (pontuar_todos db l) as [out|] eqn:E; [|reflexivity].
    apply pontuar_todos_some in E as [_ E]. now apply E in Hf.
Qed.


Lemma scores_sem_medalha db l s : In s (flat_map (score_de db) l) -> sem_medalha s = s.
Proof.
  intros H. apply in_flat_map in H as (f & _ & Hs). unfold score_de in Hs.
  destruct (pontuar db f) as [[s'|]|] eqn:P; cbn in Hs; try contradiction.
  destruct Hs as [<-|[]].
  apply pontuar_campos in P as (p & ps & _ & _ & _ & Hm & _).
  destruct s'. cbn in *. now subst.
Qed.

(** ** Badges *)

Lemma premiar_sem_medalha ms l : map sem_medalha (premiar ms l) = map sem_medalha l.
Proof.
  revert l. induction ms as [|m ms IH]; intros [|s l]; cbn; try reflexivity.
  now rewrite IH.
Qed.


Lemma map_sem_medalha_id l :
  (forall s, In s l -> sem_medalha s = s) -> map sem_medalha l = l.
Proof.
  induction l as [|s l IH]; intros H; cbn; [reflexivity|].
  rewrite (H s (or_introl eq_refl)), IH; [reflexivity|]. intros; apply H; now right.
Qed.


(** ** The route *)

Lemma ranking_some db out :
  ranking db = Some out ->
  let ranking_data := flat_map (score_de db) (fornecedores_ativos db) in
  (forall f, In f (fornecedores_ativos db) -> pontuar db f <> None)
  /\ out = premiar medalhas (Py.sort_reverse score_total ranking_data)
  /\ map sem_medalha out = Py.sort_reverse score_total ranking_data.
Proof.
  unfold ranking. destruct (pontuar_todos db (fornecedores_ativos db)) as [rd|] eqn:E;
    [|discriminate].
  intros H.
  assert (Ho : out = premiar medalhas (Py.sort_reverse score_total rd)) by congruence.
  clear H. subst out. apply pontuar_todos_some in E as [-> Hok].
  cbv zeta. split; [exact Hok|]. split; [reflexivity|].
  rewrite premiar_sem_medalha. apply map_sem_medalha_id.
  intros s Hs. apply (Permutation_in _ (sort_reverse_perm _ _)) in Hs.
  now apply scores_sem_medalha in Hs.
Qed.

End Ranking.

Section RankingTeoremas.
Local Open Scope Z_scope.



(** C5 (amended). Every record of the ranking belongs to an active supplier
    with at least one quotation and stores, each rounded to one decimal:
    the price score max(0, 10 - (P - A)/A x 10) when the global mean A is
    above 0, else 5, with no upper clamp; the reliability score
    min(10, n/T x 100/100 x 10 + 3), the win rate being carried as a
    percentage; the consistency score max(1, 10 - (max - min)/P x 5) for
    more than one quotation, else 8; and the total, the weighted sum
    0.4, 0.35, 0.25 of the three scores before their rounding, rounded to
    one decimal.  The route raises exactly when an active supplier with
    several quotations has a mean price of zero. *)
Theorem ranking_score_record (db : DB) :
  (forall out s,
      ranking db = Some out -> In s out ->
      exists f p ps,
        In f (fornecedores_ativos db)
        /\ sc_fornecedor_id s = Fornecedor.id f
        /\ map Cotacao.preco (cotacoes_do_fornecedor db (Fornecedor.id f)) = p :: ps
        /\ qtd_cotacoes s = Z.of_nat (List.length (p :: ps))
        /\ (let n := Py.of_int (Z.of_nat (List.length (p :: ps))) in
            let T := Py.of_int (Z.of_nat (List.length (cotacoes db))) in
            let A := or_zero (sql_avg (map Cotacao.preco (cotacoes db))) in
            let P := Py.sum (p :: ps) / n in
            let s_preco := if 0 <? A then Py.max 0 (10 - (P - A) / A * 10) else 5 in
            let s_conf := Py.min 10 (n / T * 100 / 100 * 10 + 3) in
            let s_cons := if (1 <? Z.of_nat (List.length (p :: ps)))%Z
                          then Py.max 1 (10 - (Py.max_list p ps - Py.min_list p ps) / P * 5)
                          else 8 in
            preco_medio s = P
            /\ score_preco s = Py.round1 s_preco
            /\ score_confiabilidade s = Py.round1 s_conf
            /\ score_consistencia s = Py.round1 s_cons
            /\ score_total s = Py.round1 (s_preco * 0.4 + s_conf * 0.35 + s_cons * 0.25))%float)
  /\ (ranking db = None <->
      exists f p ps,
        In f (fornecedores_ativos db)
        /\ map Cotacao.preco (cotacoes_do_fornecedor db (Fornecedor.id f)) = p :: ps
        /\ ps <> []
        /\ (Py.sum (p :: ps) / Py.of_int (Z.of_nat (List.length (p :: ps))) =? 0)%float = true).
Proof.
  split.
  - intros out s R Hs. apply ranking_some in R as (_ & _ & E).
    apply (in_map sem_medalha) in Hs. rewrite E in Hs.
    apply (Permutation_in _ (sort_reverse_perm _ _)) in Hs.
    apply in_flat_map in Hs as (f & Hf & Hs). unfold score_de in Hs.
    destruct (pontuar db f) as [[s'|]|] eqn:P; cbn in Hs; try contradiction.
    destruct Hs as [->|[]].
    apply pontuar_campos in P as (p & ps & Ep & Hid & _ & _ & Hq & Hcampos).
    exists f, p, ps. repeat (split; [assumption|]). exact Hcampos.
  - unfold ranking.
    destruct (pontuar_todos db (fornecedores_ativos db)) as [rd|] eqn:E.
    + split; [discriminate|]. intros (f & p & ps & Hf & Ep & Hps & Hz). exfalso.
      apply pontuar_todos_some in E as [_ E]. apply (E f Hf).
      pose proof (pontuar_casos db f) as C. rewrite Ep in C.
      assert (N : (1 <? n_cotacoes p ps) = true).
      { apply Z.ltb_lt. unfold n_cotacoes. destruct ps; [congruence | cbn [List.length]; lia]. }
      unfold calc_preco_medio, n_cotacoes in *. now rewrite N, Hz in C.
    + split; [intros _ | reflexivity].
      apply pontuar_todos_none in E as (f & Hf & P). exists f.
      pose proof (pontuar_casos db f) as C.
      destruct (map Cotacao.preco (cotacoes_do_fornecedor db (Fornecedor.id f))) as [|p ps];
        [congruence|].
      exists p, ps.
      destruct (1 <? n_cotacoes p ps) eqn:N; cbn [andb] in C;
        [|destruct C as [s C]; congruence].
      destruct (calc_preco_medio p ps =? 0)%float eqn:Z0; [|destruct C as [s C]; congruence].
      repeat split; auto.
      intros ->. cbn in N. discriminate.
Qed.



(** C8. The record of a supplier is computed from the quotations alone:
    with the same quotations and the suppliers in another order, every
    supplier gets the same record, the ranking raises in one order exactly
    when it does in the other, and the two rankings hold the same records up
    to the badges; with the same suppliers in the same order the output
    is identical, whatever the other tables hold. *)
Theorem ranking_independe_da_ordem (db db' : DB) :
  cotacoes db' = cotacoes db ->
  Permutation (fornecedores db') (fornecedores db) ->
  (forall f, pontuar db' f = pontuar db f)
  /\ (ranking db' = None <-> ranking db = None)
  /\ (forall out out',
         ranking db = Some out -> ranking db' = Some out' ->
         Permutation (map sem_medalha out') (map sem_medalha out)
         /\ forall s, In s out ->
                      exists s', In s' out'
                                 /\ sc_fornecedor_id s' = sc_fornecedor_id s
                                 /\ score_total s' = score_total s
                                 /\ sem_medalha s' = sem_medalha s)
  /\ (fornecedores db' = fornecedores db -> ranking db' = ranking db).
Proof.
  intros Hc Hp.
  assert (Hpont : forall f, pontuar db' f = pontuar db f).
  { intros f. unfold pontuar, cotacoes_do_fornecedor. now rewrite Hc. }
  assert (Hscore : forall l, flat_map (score_de db') l = flat_map (score_de db) l).
  { intros l. apply flat_map_ext. intros f. unfold score_de. now rewrite Hpont. }
  assert (Hat : Permutation (fornecedores_ativos db') (fornecedores_ativos db))
    by (now apply filter_perm).
  assert (Hnone : ranking db' = None <-> ranking db = None).
  { unfold ranking.
    destruct (pontuar_todos db' (fornecedores_ativos db')) as [rd'|] eqn:E';
      destruct (pontuar_todos db (fornecedores_ativos db)) as [rd|] eqn:E;
      try (split; congruence); exfalso.
    - apply pontuar_todos_none in E as (f & Hf & P).
      apply pontuar_todos_some in E' as [_ E'].
      apply (E' f); [|now rewrite Hpont].
      now apply (Permutation_in _ (Permutation_sym Hat)).
    - apply pontuar_todos_none in E' as (f & Hf & P).
      apply pontuar_todos_some in E as [_ E].
      apply (E f); [|now rewrite <- Hpont].
      now apply (Permutation_in _ Hat). }
  split; [exact Hpont|]. split; [exact Hnone|]. split.
  - intros out out' R R'.
    apply ranking_some in R as (_ & _ & E). apply ranking_some in R' as (_ & _ & E').
    assert (P : Permutation (map sem_medalha out') (map sem_medalha out)).
    { rewrite E, E', !sort_reverse_perm, Hscore. now apply Permutation_flat_map. }
    split; [exact P|]. intros s Hs.
    apply (in_map sem_medalha) in Hs.
    apply (Permutation_in _ (Permutation_sym P)) in Hs.
    apply in_map_iff in Hs as (s' & Es & Hs'). exists s'.
    split; [exact Hs'|].
    split; [change (sc_fornecedor_id (sem_medalha s') = sc_fornecedor_id (sem_medalha s));
            now rewrite Es|].
    split; [change (score_total (sem_medalha s') = score_total (sem_medalha s));
            now rewrite Es | exact Es].
  - intros Hf. unfold ranking, fornecedores_ativos. rewrite Hf.
    assert (T : forall l, pontuar_todos db' l = pontuar_todos db l).
    { induction l as [|f l IH]; cbn; [reflexivity|]. now rewrite Hpont, IH. }
    now rewrite T.
Qed.

End RankingTeoremas.

Section RankingExemplos.
Local Open Scope Z_scope.

(** The ranking of the sample data: A, the cheapest, scores 13.3 on price,
    above 10; D, without a quotation, and E, inactive, are absent. *)
Example ranking_exemplo : ranking db_ranking = Some [score_A; score_C; score_B].
Proof. vm_compute. reflexivity. Qed.

(** C5 (as stated) fails on the stored subscores: A's price score is
    13.33..., the record holds 13.3. *)
Lemma score_preco_arredondado :
  ranking db_ranking = Some [score_A; score_C; score_B]
  /\ or_zero (sql_avg (map Cotacao.preco (cotacoes db_ranking))) = 15%float
  /\ Py.max 0 (10 - (10 - 15) / 15 * 10)%float = 13.333333333333332%float
  /\ score_preco score_A = 13.3%float
  /\ (score_preco score_A =? Py.max 0 (10 - (10 - 15) / 15 * 10))%float = false.
Proof. vm_compute. repeat split; reflexivity. Qed.

Lemma ranking_score_record_witness :
  exists f p ps,
    In f (fornecedores_ativos db_ranking)
    /\ sc_fornecedor_id score_A = Fornecedor.id f
    /\ map Cotacao.preco (cotacoes_do_fornecedor db_ranking (Fornecedor.id f)) = p :: ps
    /\ (10 <? score_preco score_A)%float = true.
Proof.
  destruct (proj1 (ranking_score_record db_ranking) _ score_A ranking_exemplo
                  (or_introl eq_refl))
    as (f & p & ps & Hf & Hid & Hp & _).
  exists f, p, ps. repeat (split; [assumption|]). reflexivity.
Defined.


Lemma ranking_independe_da_ordem_witness :
  ranking db_ranking_permutado = Some [score_A; score_C; score_B]
  /\ forall s, In s [score_A; score_C; score_B] ->
               exists s', In s' [score_A; score_C; score_B]
                          /\ sc_fornecedor_id s' = sc_fornecedor_id s
                          /\ score_total s' = score_total s
                          /\ sem_medalha s' = sem_medalha s.
Proof.
  assert (R' : ranking db_ranking_permutado = Some [score_A; score_C; score_B])
    by (vm_compute; reflexivity).
  assert (P : Permutation (fornecedores db_ranking_permutado) (fornecedores db_ranking)).
  { cbn. apply Permutation_sym.
    apply Permutation_cons_app with (l1 := [forn_E; forn_C; forn_B; forn_D]) (l2 := []).
    apply (Permutation_cons_app [forn_E; forn_C] [forn_D]).
    apply (Permutation_cons_app [forn_E] [forn_D]).
    apply (Permutation_cons_app [forn_E] []).
    apply Permutation_refl. }
  destruct (ranking_independe_da_ordem db_ranking db_ranking_permutado eq_refl P)
    as (_ & _ & T & _).
  split; [exact R'|]. exact (proj2 (T _ _ ranking_exemplo R')).
Defined.

End RankingExemplos.

(* ================================================================== *)
(** * The routes keep the constraints of the schema *)
(* ================================================================== *)

Section Integridade.
Local Open Scope Z_scope.

(** ** The boolean checks and the propositions *)

Lemma sem_repeticao_NoDup {A} (eqb : A -> A -> bool) (l : list A) :
  (forall x y, eqb x y = true <-> x = y) ->
  sem_repeticao eqb l = true <-> NoDup l.
Proof.
  intros Heq. induction l as [|x l IH]; cbn.
  - split; [constructor | reflexivity].
  - rewrite andb_true_iff, negb_true_iff, IH. split.
    + intros [Hx Hl]. constructor; [|exact Hl]. intros Hin.
      assert (E : existsb (eqb x) l = true).
      { apply existsb_exists. exists x. split; [exact Hin | now apply Heq]. }
      congruence.
    + intros H. inversion H as [|? ? Hx Hl]; subst. split; [|exact Hl].
      destruct (existsb (eqb x) l) eqn:E; [|reflexivity].
      apply existsb_exists in E as (y & Hy & Exy). apply Heq in Exy. subst y.
      contradiction.
Qed.

Lemma contem_In id ids : contem id ids = true <-> In id ids.
Proof.
  unfold contem. rewrite existsb_exists. split.
  - intros (x & Hx & E). apply Z.eqb_eq in E. now subst.
  - intros H. exists id. split; [exact H | apply Z.eqb_refl].
Qed.

Lemma linha_eqb_eq a b : linha_eqb a b = true <-> a = b.
Proof.
  unfold linha_eqb. destruct a as [a1 a2], b as [b1 b2]. cbn.
  rewrite andb_true_iff, !Z.eqb_eq. split; [intros [-> ->]; reflexivity|].
  intros H. inversion H. auto.
Qed.

Lemma integro_spec db : integro db = true <-> Integro db.
Proof.
  unfold integro, chaves_ok, referencias_ok.
  rewrite !andb_true_iff, !forallb_forall.
  rewrite !(sem_repeticao_NoDup Z.eqb) by (intros; apply Z.eqb_eq).
  rewrite (sem_repeticao_NoDup String.eqb) by (intros; apply String.eqb_eq).
  rewrite (sem_repeticao_NoDup linha_eqb) by apply linha_eqb_eq.
  split.
  - intros [[[[[[H1 H2] H3] H4] H5] H6] [[H7 H8] H9]]. constructor; auto.
    + intros r Hr. apply contem_In. auto.
    + intros c Hc. specialize (H8 c Hc).
      rewrite andb_true_iff, !contem_In in H8. exact H8.
    + intros row Hr. specialize (H9 row Hr).
      rewrite andb_true_iff, !contem_In in H9. exact H9.
  - intros [H1 H2 H3 H4 H5 H6 H7 H8 H9]. repeat split; auto.
    + intros r Hr. apply contem_In. auto.
    + intros c Hc. rewrite andb_true_iff, !contem_In. auto.
    + intros row Hr. rewrite andb_true_iff, !contem_In. auto.
Qed.

(** ** Lists *)

Lemma NoDup_snoc {A} (l : list A) x : NoDup l -> ~ In x l -> NoDup (l ++ [x]).
Proof.
  intros Hl Hx. apply NoDup_app; [exact Hl | repeat constructor; intros [] |].
  intros y Hy [<-|[]]. contradiction.
Qed.

Lemma NoDup_map_filter {A B} (f : A -> B) (p : A -> bool) l :
  NoDup (map f l) -> NoDup (map f (filter p l)).
Proof.
  induction l as [|a l IH]; cbn; [auto|]. intros H.
  inversion H as [|? ? Hn Hl]; subst.
  destruct (p a); cbn; [|auto]. constructor; [|auto].
  intros Hin. apply Hn. apply in_map_iff in Hin as (y & E & Hy).
  apply filter_In in Hy as [Hy _]. apply in_map_iff. eauto.
Qed.

Lemma In_map_filter {A} (f : A -> Z) (p : A -> bool) l x :
  In x l -> p x = true -> In (f x) (map f (filter p l)).
Proof. intros Hx Hp. apply in_map. apply filter_In. auto. Qed.

Lemma find_none_ids {A} (f : A -> Z) l id :
  find (fun x => f x =? id) l = None -> ~ In id (map f l).
Proof.
  intros H Hin. apply in_map_iff in Hin as (x & E & Hx).
  pose proof (find_none _ _ H x Hx) as N. cbn in N. rewrite E, Z.eqb_refl in N.
  discriminate.
Qed.

Lemma find_some_ids {A} (f : A -> Z) l id x :
  find (fun x => f x =? id) l = Some x -> In x l /\ f x = id.
Proof.
  intros H. apply find_some in H as [Hin E]. apply Z.eqb_eq in E. auto.
Qed.

Lemma filter_vazio_todos {A} (p : A -> bool) l :
  filter p l = [] -> forall x, In x l -> p x = false.
Proof.
  intros H x Hx. destruct (p x) eqn:E; [|reflexivity].
  assert (I : In x (filter p l)) by (apply filter_In; auto).
  rewrite H in I. destruct I.
Qed.

Lemma Forall2_In_esq {A B} (R : A -> B -> Prop) l1 l2 x :
  Forall2 R l1 l2 -> In x l1 -> exists y, In y l2 /\ R x y.
Proof.
  induction 1 as [|a b l1 l2 Hab _ IH]; [intros []|].
  intros [<-|Hx]; [exists b; split; [now left | exact Hab]|].
  destruct (IH Hx) as (y & Hy & Rxy). exists y. split; [now right | exact Rxy].
Qed.

Lemma filter_snoc_novo {A} (f : A -> Z) l x :
  ~ In (f x) (map f l) ->
  filter (fun y => negb (f y =? f x)) (l ++ [x]) = l.
Proof.
  intros Hn. rewrite filter_app. cbn. rewrite Z.eqb_refl. cbn. rewrite app_nil_r.
  apply forallb_filter_id. apply forallb_forall. intros y Hy.
  apply negb_true_iff, Z.eqb_neq. intros E. apply Hn. rewrite <- E. now apply in_map.
Qed.

(** ** Products *)

Lemma renomear_produto_ids id nome l :
  map Produto.id (map (renomear_produto id nome) l) = map Produto.id l.
Proof.
  rewrite map_map. apply map_ext. intros p. unfold renomear_produto.
  now destruct (Produto.id p =? id).
Qed.

(** The database with one more product. *)
Lemma produtos_post_casos db form :
  fst (produtos_post db form) = db
  \/ exists campo id_prod,
       form_get_none form "id" = Some campo
       /\ PyInt.int_of_str campo = Some id_prod
       /\ 0 < id_prod <= PyInt.sqlite_max
       /\ (3 <= String.length (Py.strip (form_get form "nome" "")))%nat
       /\ get_produto db id_prod = None
       /\ produtos_post db form =
          ({| produtos := produtos db ++ [novo_produto id_prod (Py.strip (form_get form "nome" ""))];
              fornecedores := fornecedores db;
              requisicoes := requisicoes db;
              cotacoes := cotacoes db;
              requisicao_fornecedores := requisicao_fornecedores db |},
           ItemCadastrado id_prod).
Proof.
  unfold produtos_post, validar_codigo_produto.
  destruct (form_get_none form "id") as [campo|]; [|now left].
  set (nome := Py.strip (form_get form "nome" "")).
  destruct campo as [|c campo]; [now left|].
  destruct nome as [|n nome'] eqn:En; [now left|]. rewrite <- En.
  destruct (String.length nome <? 3)%nat eqn:L; [now left|].
  destruct (PyInt.int_of_str (String c campo)) as [id_prod|] eqn:I; [|now left].
  destruct (id_prod <=? 0) eqn:P; [now left|].
  destruct (PyInt.sqlite_max <? id_prod) eqn:M; [now left|].
  destruct (get_produto db id_prod) eqn:G; [now left|].
  right. exists (String c campo), id_prod.
  apply Z.leb_gt in P. apply Z.ltb_ge in M. apply Nat.ltb_ge in L.
  repeat split; auto.
Qed.

Lemma produtos_post_integro db form : Integro db -> Integro (fst (produtos_post db form)).
Proof.
  intros H.
  destruct (produtos_post_casos db form)
    as [->|(campo & id_prod & _ & _ & _ & _ & G & ->)]; [exact H|].
  destruct H as [H1 H2 H3 H4 H5 H6 H7 H8 H9].
  constructor; cbn [fst produtos fornecedores requisicoes cotacoes requisicao_fornecedores]; auto.
  - rewrite map_app. cbn. apply NoDup_snoc; [exact H1|]. now apply find_none_ids in G.
  - intros r Hr. rewrite map_app. apply in_or_app. left. auto.
  - intros c Hc. rewrite map_app. split; [apply in_or_app; left|]; now apply H8.
Qed.

Lemma editar_produto_post_integro db id form :
  Integro db -> Integro (fst (editar_produto_post db id form)).
Proof.
  intros H. unfold editar_produto_post.
  destruct (get_produto db id) as [prod|]; [|exact H].
  destruct (Py.strip _) as [|c s]; [exact H|].
  destruct H as [H1 H2 H3 H4 H5 H6 H7 H8 H9].
  constructor; cbn [fst produtos fornecedores requisicoes cotacoes requisicao_fornecedores];
    rewrite ?renomear_produto_ids; auto.
Qed.

Lemma deletar_produto_integro db id : Integro db -> Integro (fst (deletar_produto db id)).
Proof.
  intros H. unfold deletar_produto.
  destruct (get_produto db id) as [prod|]; [|exact H].
  destruct (cotacoes_do_produto db (Produto.id prod)) eqn:C; [|exact H].
  destruct (requisicoes_do_produto db (Produto.id prod)) eqn:R; [|exact H].
  pose proof (filter_vazio_todos _ _ C) as NC.
  pose proof (filter_vazio_todos _ _ R) as NR.
  destruct H as [H1 H2 H3 H4 H5 H6 H7 H8 H9].
  assert (K : forall pid, pid <> Produto.id prod ->
                          In pid (map Produto.id (produtos db)) ->
                          In pid (map Produto.id
                                      (filter (fun p => negb (Produto.id p =? Produto.id prod))
                                              (produtos db)))).
  { intros pid Hne Hin. apply in_map_iff in Hin as (p & <- & Hp).
    apply In_map_filter; [exact Hp|]. now apply negb_true_iff, Z.eqb_neq. }
  constructor; cbn [fst produtos fornecedores requisicoes cotacoes requisicao_fornecedores]; auto.
  - now apply NoDup_map_filter.
  - intros r Hr. apply K; [|auto]. specialize (NR r Hr). cbn in NR. now apply Z.eqb_neq.
  - intros c Hc. split; [|now apply H8]. apply K; [|now apply H8].
    specialize (NC c Hc). cbn in NC. now apply Z.eqb_neq.
Qed.

(** ** Suppliers *)

Lemma renomear_fornecedor_ids id nome l :
  map Fornecedor.id (map (renomear_fornecedor id nome) l) = map Fornecedor.id l.
Proof.
  rewrite map_map. apply map_ext. intros f. unfold renomear_fornecedor.
  now destruct (Fornecedor.id f =? id).
Qed.

Lemma fornecedor_por_nome_none db nome :
  fornecedor_por_nome db nome = None -> ~ In nome (map Fornecedor.nome (fornecedores db)).
Proof.
  unfold fornecedor_por_nome. intros H Hin. apply in_map_iff in Hin as (f & E & Hf).
  pose proof (find_none _ _ H f Hf) as N. cbn in N. rewrite E, String.eqb_refl in N.
  discriminate.
Qed.

Lemma proximo_id_novo ids : ~ In (proximo_id ids) ids.
Proof. intros H. apply proximo_id_maior in H. lia. Qed.

Lemma fornecedores_post_casos db form :
  fst (fornecedores_post db form) = db
  \/ fornecedor_por_nome db (Py.strip (form_get form "nome" "")) = None
     /\ Py.strip (form_get form "nome" "") <> ""%string
     /\ fornecedores_post db form =
        ({| produtos := produtos db;
            fornecedores := fornecedores db ++ [novo_fornecedor db (Py.strip (form_get form "nome" ""))];
            requisicoes := requisicoes db;
            cotacoes := cotacoes db;
            requisicao_fornecedores := requisicao_fornecedores db |},
         FornecedorCadastrado).
Proof.
  unfold fornecedores_post.
  destruct (Py.strip (form_get form "nome" "")) as [|c s] eqn:E; [now left|].
  destruct (fornecedor_por_nome db (String c s)) eqn:F; [now left|].
  right. repeat split; auto. discriminate.
Qed.

Lemma fornecedores_post_integro db form :
  Integro db -> Integro (fst (fornecedores_post db form)).
Proof.
  intros H.
  destruct (fornecedores_post_casos db form) as [->|(F & _ & ->)]; [exact H|].
  destruct H as [H1 H2 H3 H4 H5 H6 H7 H8 H9].
  constructor; cbn [fst produtos fornecedores requisicoes cotacoes requisicao_fornecedores]; auto.
  - rewrite map_app. cbn. apply NoDup_snoc; [exact H2 | apply proximo_id_novo].
  - rewrite map_app. cbn. apply NoDup_snoc; [exact H3 | now apply fornecedor_por_nome_none].
  - intros c Hc. rewrite map_app. split; [|apply in_or_app; left]; now apply H8.
  - intros row Hr. rewrite map_app. split; [|apply in_or_app; left]; now apply H9.
Qed.

(** Renaming the row of key [id] to a name no other row bears keeps the
    names distinct. *)
Lemma renomear_fornecedor_nomes id nome l :
  NoDup (map Fornecedor.id l) -> NoDup (map Fornecedor.nome l) ->
  (forall f, In f l -> Fornecedor.id f <> id -> Fornecedor.nome f <> nome) ->
  NoDup (map Fornecedor.nome (map (renomear_fornecedor id nome) l)).
Proof.
  induction l as [|f l IH]; cbn [map]; [constructor|].
  intros Hid Hnome Houtros.
  inversion Hid as [|? ? Hid1 Hid2]; subst. inversion Hnome as [|? ? Hn1 Hn2]; subst.
  assert (IH' : NoDup (map Fornecedor.nome (map (renomear_fornecedor id nome) l))).
  { apply IH; auto. intros g Hg. apply Houtros. now right. }
  constructor; [|exact IH'].
  intros Hin. apply in_map_iff in Hin as (g' & E & Hg').
  apply in_map_iff in Hg' as (g & <- & Hg).
  unfold renomear_fornecedor in E at 1 2.
  destruct (Fornecedor.id g =? id) eqn:Eg; destruct (Fornecedor.id f =? id) eqn:Ef;
    cbn [Fornecedor.nome] in E.
  - apply Z.eqb_eq in Eg, Ef. apply Hid1. rewrite Ef, <- Eg. now apply in_map.
  - apply Z.eqb_neq in Ef. apply (Houtros f (or_introl eq_refl) Ef). now symmetry.
  - apply Z.eqb_neq in Eg. apply (Houtros g (or_intror Hg) Eg). exact E.
  - apply Hn1. rewrite <- E. now apply in_map.
Qed.

Lemma editar_fornecedor_post_integro db id form :
  Integro db -> Integro (fst (editar_fornecedor_post db id form)).
Proof.
  intros H. unfold editar_fornecedor_post.
  destruct (get_fornecedor db id) as [forn|] eqn:G; [|exact H].
  destruct (Py.strip _) as [|c s]; [exact H|].
  destruct (find _ (fornecedores db)) eqn:F; [exact H|].
  apply find_some_ids in G as [_ Gid].
  destruct H as [H1 H2 H3 H4 H5 H6 H7 H8 H9].
  constructor; cbn [fst produtos fornecedores requisicoes cotacoes requisicao_fornecedores];
    rewrite ?renomear_fornecedor_ids; auto.
  apply renomear_fornecedor_nomes; auto.
  intros f Hf Hne Hnome. pose proof (find_none _ _ F f Hf) as N. cbn in N.
  rewrite Hnome, String.eqb_refl in N. rewrite Gid in Hne.
  apply Z.eqb_neq in Hne. rewrite Hne in N. discriminate.
Qed.

Lemma deletar_fornecedor_integro db id :
  Integro db -> Integro (fst (deletar_fornecedor db id)).
Proof.
  intros H. unfold deletar_fornecedor.
  destruct (get_fornecedor db id) as [forn|]; [|exact H].
  destruct (cotacoes_do_fornecedor db (Fornecedor.id forn)) eqn:C; [|exact H].
  pose proof (filter_vazio_todos _ _ C) as NC.
  destruct H as [H1 H2 H3 H4 H5 H6 H7 H8 H9].
  assert (K : forall fid, fid <> Fornecedor.id forn ->
                          In fid (map Fornecedor.id (fornecedores db)) ->
                          In fid (map Fornecedor.id
                                      (filter (fun f => negb (Fornecedor.id f =? Fornecedor.id forn))
                                              (fornecedores db)))).
  { intros fid Hne Hin. apply in_map_iff in Hin as (f & <- & Hf).
    apply In_map_filter; [exact Hf|]. now apply negb_true_iff, Z.eqb_neq. }
  constructor; cbn [fst produtos fornecedores requisicoes cotacoes requisicao_fornecedores]; auto.
  - now apply NoDup_map_filter.
  - now apply NoDup_map_filter.
  - now apply NoDup_filter.
  - intros c Hc. split; [now apply H8|]. apply K; [|now apply H8].
    specialize (NC c Hc). cbn in NC. now apply Z.eqb_neq.
  - intros row Hr. apply filter_In in Hr as [Hr Hs]. split; [now apply H9|].
    apply K; [|now apply H9]. now apply negb_true_iff, Z.eqb_neq in Hs.
Qed.

(** ** Requests and quotations *)

Lemma remover_requisicao_integro db id :
  Integro db -> Integro (fst (remover_requisicao db id)).
Proof.
  intros H. unfold remover_requisicao.
  destruct (get_requisicao db id) as [req|]; [|exact H].
  destruct H as [H1 H2 H3 H4 H5 H6 H7 H8 H9].
  constructor; cbn [fst produtos fornecedores requisicoes cotacoes requisicao_fornecedores]; auto.
  - now apply NoDup_map_filter.
  - now apply NoDup_filter.
  - intros r Hr. apply filter_In in Hr as [Hr _]. auto.
  - intros row Hr. apply filter_In in Hr as [Hr Hs]. split; [|now apply H9].
    destruct (H9 row Hr) as [Hreq _]. apply in_map_iff in Hreq as (r & E & Hin).
    rewrite <- E. apply In_map_filter; [exact Hin|]. now rewrite E.
Qed.

Lemma marcar_processadas_ids l :
  map Requisicao.id (marcar_processadas l) = map Requisicao.id l.
Proof.
  unfold marcar_processadas. rewrite map_map. apply map_ext. intros r.
  now destruct (Status_eqb _ _).
Qed.

Lemma marcar_processadas_produto l r :
  In r (marcar_processadas l) ->
  exists r0, In r0 l /\ Requisicao.produto_id r = Requisicao.produto_id r0.
Proof.
  unfold marcar_processadas. intros H. apply in_map_iff in H as (r0 & <- & H0).
  exists r0. split; [exact H0|]. now destruct (Status_eqb _ _).
Qed.

Lemma inserir_cotacoes_ids novas :
  forall tabela, NoDup (map Cotacao.id tabela) ->
                 NoDup (map Cotacao.id (inserir_cotacoes tabela novas)).
Proof.
  induction novas as [|c novas IH]; intros tabela H; cbn [inserir_cotacoes]; [exact H|].
  apply IH. rewrite map_app. cbn. apply NoDup_snoc; [exact H | apply proximo_id_novo].
Qed.

(** A quotation of the batch names the product of its request, which
    exists, and a supplier of the table. *)
Lemma processar_referencias db form st st' req q :
  processar db form st req = Some st' ->
  In q (novas st') ->
  In q (novas st)
  \/ (In (Cotacao.produto_id q) (map Produto.id (produtos db))
      /\ In (Cotacao.fornecedor_id q) (map Fornecedor.id (fornecedores db))).
Proof.
  unfold processar.
  pose proof (escolher_ok form req (fornecedores_para_cotar db req)) as Hok.
  unfold escolha_ok in Hok.
  destruct (vencedor _) as [[vid vnome]|]; [|intros E; inversion E; subst; auto].
  destruct (vid =? 0); [intros E; inversion E; subst; auto|].
  destruct (get_produto db (Requisicao.produto_id req)) as [produto|] eqn:G; [|discriminate].
  intros E Hq. inversion E; subst. cbn [novas] in Hq.
  apply in_app_or in Hq as [Hq|[<-|[]]]; [now left|]. right. cbn.
  apply find_some_ids in G as [Gin Gid]. split.
  - rewrite <- Gid. now apply in_map.
  - destruct Hok as (antes & w & depois & Ec & <- & _).
    apply in_map. apply (candidatos_da_tabela db req). rewrite Ec. apply in_elt.
Qed.

Lemma processar_lote_referencias db form l :
  forall st st' q,
    processar_lote db form st l = Some st' ->
    In q (novas st') ->
    In q (novas st)
    \/ (In (Cotacao.produto_id q) (map Produto.id (produtos db))
        /\ In (Cotacao.fornecedor_id q) (map Fornecedor.id (fornecedores db))).
Proof.
  induction l as [|r l IH]; intros st st' q; cbn.
  - intros E. inversion E; subst. auto.
  - destruct (processar db form st r) as [st1|] eqn:E1; [|discriminate].
    intros E Hq. destruct (IH _ _ _ E Hq) as [Hq1|]; [|auto].
    apply (processar_referencias _ _ _ _ _ _ E1 Hq1).
Qed.

Lemma mapa_cotacao_casos db method form :
  fst (mapa_cotacao db method form) = db
  \/ exists st, processar_lote db form lote_inicial (requisicoes_pendentes db) = Some st
                /\ fst (mapa_cotacao db method form) = commit_lote db st.
Proof.
  unfold mapa_cotacao. destruct (requisicoes_pendentes db) as [|r l]; [now left|].
  destruct method; [now left|].
  destruct (processar_lote db form lote_inicial (r :: l)) as [st|]; [|now left].
  right. eauto.
Qed.

Lemma mapa_cotacao_integro db method form :
  Integro db -> Integro (fst (mapa_cotacao db method form)).
Proof.
  intros H. destruct (mapa_cotacao_casos db method form) as [->|(st & P & ->)]; [exact H|].
  destruct H as [H1 H2 H3 H4 H5 H6 H7 H8 H9].
  destruct (inserir_cotacoes_criadas (novas st) (cotacoes db)) as (criadas & Ec & F & _ & _).
  constructor; unfold commit_lote;
    cbn [fst produtos fornecedores requisicoes cotacoes requisicao_fornecedores];
    rewrite ?marcar_processadas_ids; auto.
  - now apply inserir_cotacoes_ids.
  - intros r Hr. apply marcar_processadas_produto in Hr as (r0 & Hr0 & ->). auto.
  - intros c Hc. rewrite Ec in Hc. apply in_app_or in Hc as [Hc|Hc]; [auto|].
    destruct (Forall2_In_esq _ _ _ _ F Hc) as (n & Hn & (_ & Ep & Ef & _)).
    rewrite Ep, Ef.
    destruct (processar_lote_referencias _ _ _ _ _ _ P Hn) as [[]|]; auto.
Qed.

Lemma deletar_cotacao_final_integro db id :
  Integro db -> Integro (fst (deletar_cotacao_final db id)).
Proof.
  intros H. unfold deletar_cotacao_final.
  destruct (get_cotacao db id) as [cotacao|]; [|exact H].
  destruct H as [H1 H2 H3 H4 H5 H6 H7 H8 H9].
  set (reqs := match Cotacao.requisicao_origem_id cotacao with Some _ => _ | None => _ end).
  assert (R : map Requisicao.id reqs = map Requisicao.id (requisicoes db)
              /\ forall r, In r reqs ->
                           exists r0, In r0 (requisicoes db)
                                      /\ Requisicao.produto_id r = Requisicao.produto_id r0).
  { subst reqs. destruct (Cotacao.requisicao_origem_id cotacao) as [rid|]; [|eauto].
    destruct (rid =? 0); [eauto|].
    destruct (get_requisicao db rid) as [req|]; [|eauto]. split.
    - rewrite map_map. apply map_ext. intros r. now destruct (_ =? _).
    - intros r Hr. apply in_map_iff in Hr as (r0 & <- & Hr0). exists r0.
      split; [exact Hr0|]. now destruct (_ =? _). }
  destruct R as [R1 R2].
  constructor; cbn [fst produtos fornecedores requisicoes cotacoes requisicao_fornecedores];
    rewrite ?R1; auto.
  - now apply NoDup_map_filter.
  - intros r Hr. destruct (R2 r Hr) as (r0 & Hr0 & ->). auto.
  - intros c Hc. apply filter_In in Hc as [Hc _]. auto.
Qed.

End Integridade.

(* ================================================================== *)
(** * Maintenance of products, suppliers and requests *)
(* ================================================================== *)

Section Cadastros.
Local Open Scope Z_scope.

Lemma filter_todos_falsos {A} (p : A -> bool) l :
  (forall x, In x l -> p x = false) -> filter p l = [].
Proof.
  induction l as [|a l IH]; intros H; cbn; [reflexivity|].
  rewrite (H a (or_introl eq_refl)). apply IH. intros x Hx. apply H. now right.
Qed.

Lemma filter_todos_verdadeiros {A} (p : A -> bool) l :
  (forall x, In x l -> p x = true) -> filter p l = l.
Proof. intros H. apply forallb_filter_id. now apply forallb_forall. Qed.

Lemma flat_map_ext_In {A B} (f g : A -> list B) l :
  (forall x, In x l -> f x = g x) -> flat_map f l = flat_map g l.
Proof.
  induction l as [|a l IH]; intros H; cbn; [reflexivity|].
  rewrite (H a (or_introl eq_refl)), IH; [reflexivity|]. intros x Hx. apply H. now right.
Qed.

Lemma DB_eta db :
  {| produtos := produtos db; fornecedores := fornecedores db; requisicoes := requisicoes db;
     cotacoes := cotacoes db; requisicao_fornecedores := requisicao_fornecedores db |} = db.
Proof. now destruct db. Qed.

(** X1. The three product routes keep the constraints of the schema: on
    a database whose keys are unique and whose foreign keys all resolve,
    creating, renaming or deleting a product leaves a database with the
    same properties. *)
Theorem rotas_de_produto_integras (db : DB) (id : Z) (form form_edicao : Form) :
  integro db = true ->
  integro (fst (produtos_post db form)) = true
  /\ integro (fst (editar_produto_post db id form_edicao)) = true
  /\ integro (fst (deletar_produto db id)) = true.
Proof.
  intros H. apply integro_spec in H. repeat split; apply integro_spec.
  - now apply produtos_post_integro.
  - now apply editar_produto_post_integro.
  - now apply deletar_produto_integro.
Qed.

Lemma rotas_de_produto_integras_witness :
  integro (fst (produtos_post db_lote form_produto)) = true
  /\ integro (fst (editar_produto_post db_lote 8 form_renomear)) = true
  /\ integro (fst (deletar_produto db_lote 8)) = true.
Proof. apply (rotas_de_produto_integras db_lote 8 form_produto form_renomear). reflexivity. Defined.

(** X2. The three supplier routes keep the constraints of the schema,
    among them the unique supplier name: creating, renaming or deleting a
    supplier leaves the keys and names unique and every foreign key
    resolved. *)
Theorem rotas_de_fornecedor_integras (db : DB) (id : Z) (form form_edicao : Form) :
  integro db = true ->
  integro (fst (fornecedores_post db form)) = true
  /\ integro (fst (editar_fornecedor_post db id form_edicao)) = true
  /\ integro (fst (deletar_fornecedor db id)) = true.
Proof.
  intros H. apply integro_spec in H. repeat split; apply integro_spec.
  - now apply fornecedores_post_integro.
  - now apply editar_fornecedor_post_integro.
  - now apply deletar_fornecedor_integro.
Qed.

Lemma rotas_de_fornecedor_integras_witness :
  integro (fst (fornecedores_post db_lote form_fornecedor)) = true
  /\ integro (fst (editar_fornecedor_post db_lote 2 form_renomear)) = true
  /\ integro (fst (deletar_fornecedor db_lote 2)) = true.
Proof. apply (rotas_de_fornecedor_integras db_lote 2 form_fornecedor form_renomear). reflexivity. Defined.

(** X3. Removing a request, running the batch and deleting a quotation
    keep the constraints of the schema: the quotations a batch creates get
    fresh keys and name an existing product and an existing supplier. *)
Theorem rotas_de_cotacao_integras (db : DB) (id : Z) (method : Method) (form : Form) :
  integro db = true ->
  integro (fst (remover_requisicao db id)) = true
  /\ integro (fst (mapa_cotacao db method form)) = true
  /\ integro (fst (deletar_cotacao_final db id)) = true.
Proof.
  intros H. apply integro_spec in H. repeat split; apply integro_spec.
  - now apply remover_requisicao_integro.
  - now apply mapa_cotacao_integro.
  - now apply deletar_cotacao_final_integro.
Qed.

Lemma rotas_de_cotacao_integras_witness :
  integro (fst (remover_requisicao db_lote 8)) = true
  /\ integro (fst (mapa_cotacao db_lote POST form_lote)) = true
  /\ integro (fst (deletar_cotacao_final db_lote 1)) = true.
Proof. apply (rotas_de_cotacao_integras db_lote 8 POST form_lote). reflexivity. Defined.

(** ** Creating a product *)

Lemma int_of_str_vazio : PyInt.int_of_str "" = None.
Proof. reflexivity. Qed.

Lemma produtos_post_sucesso db form db' id_prod :
  produtos_post db form = (db', ItemCadastrado id_prod) ->
  exists campo,
    form_get_none form "id" = Some campo
    /\ PyInt.int_of_str campo = Some id_prod
    /\ 0 < id_prod <= PyInt.sqlite_max
    /\ (3 <= String.length (Py.strip (form_get form "nome" "")))%nat
    /\ get_produto db id_prod = None
    /\ db' = {| produtos := produtos db ++ [novo_produto id_prod (Py.strip (form_get form "nome" ""))];
                fornecedores := fornecedores db;
                requisicoes := requisicoes db;
                cotacoes := cotacoes db;
                requisicao_fornecedores := requisicao_fornecedores db |}.
Proof.
  unfold produtos_post, validar_codigo_produto.
  destruct (form_get_none form "id") as [campo|]; [|discriminate].
  set (nome := Py.strip (form_get form "nome" "")).
  destruct campo as [|c campo]; [discriminate|].
  destruct nome as [|n nome'] eqn:En; [discriminate|]. rewrite <- En.
  destruct (String.length nome <? 3)%nat eqn:L; [discriminate|].
  destruct (PyInt.int_of_str (String c campo)) as [i|] eqn:I; [|discriminate].
  destruct (i <=? 0) eqn:P; [discriminate|].
  destruct (PyInt.sqlite_max <? i) eqn:M; [discriminate|].
  destruct (get_produto db i) eqn:G; [discriminate|].
  intros E. inversion E; subst. exists (String c campo).
  apply Z.leb_gt in P. apply Z.ltb_ge in M. apply Nat.ltb_ge in L.
  repeat split; auto.
Qed.

(** X4. [produtos] creates a product exactly when the submitted code is
    read by [int] as an integer above 0 that SQLite can store and no
    product has, and the stripped description has at least 3 characters;
    the new row then carries that code and description and is active.  In
    every other case the database is unchanged. *)
Theorem produtos_post_cadastra (db db' : DB) (form : Form) (id_prod : Z) :
  let nome := Py.strip (form_get form "nome" "") in
  (produtos_post db form = (db', ItemCadastrado id_prod) <->
   (exists campo, form_get_none form "id" = Some campo
                  /\ PyInt.int_of_str campo = Some id_prod)
   /\ 0 < id_prod <= PyInt.sqlite_max
   /\ (3 <= String.length nome)%nat
   /\ get_produto db id_prod = None
   /\ db' = {| produtos := produtos db ++ [novo_produto id_prod nome];
               fornecedores := fornecedores db;
               requisicoes := requisicoes db;
               cotacoes := cotacoes db;
               requisicao_fornecedores := requisicao_fornecedores db |})
  /\ ((forall i, snd (produtos_post db form) <> ItemCadastrado i) ->
      fst (produtos_post db form) = db).
Proof.
  intros nome. split; [split|].
  - intros E. apply produtos_post_sucesso in E as (campo & F & I & R & L & G & ->).
    repeat split; eauto; lia.
  - intros ((campo & F & I) & R & L & G & ->).
    unfold produtos_post, validar_codigo_produto. rewrite F. fold nome.
    destruct campo as [|c campo]; [rewrite int_of_str_vazio in I; discriminate|].
    destruct nome as [|n nome']; [cbn in L; lia|].
    apply Nat.ltb_ge in L. rewrite L, I.
    assert (P : (id_prod <=? 0) = false) by (apply Z.leb_gt; lia).
    assert (M : (PyInt.sqlite_max <? id_prod) = false) by (apply Z.ltb_ge; lia).
    now rewrite P, M, G.
  - intros N.
    destruct (produtos_post_casos db form)
      as [U|(campo & i & _ & _ & _ & _ & _ & E')]; [exact U|].
    exfalso. apply (N i). now rewrite E'.
Qed.

(** X5. A product that was just created can be deleted again, and the
    database is then what it was before: on a database whose foreign keys
    resolve no quotation and no request can name a code that was free. *)
Theorem produto_cadastrado_e_excluido (db db' : DB) (form : Form) (id_prod : Z) :
  integro db = true ->
  produtos_post db form = (db', ItemCadastrado id_prod) ->
  get_produto db' id_prod = Some (novo_produto id_prod (Py.strip (form_get form "nome" "")))
  /\ deletar_produto db' id_prod = (db, Sucesso).
Proof.
  intros H E. apply integro_spec in H.
  apply produtos_post_sucesso in E as (campo & _ & _ & _ & _ & G & ->).
  set (novo := novo_produto id_prod _).
  assert (Gn : ~ In (Produto.id novo) (map Produto.id (produtos db)))
    by now apply find_none_ids in G.
  assert (Gd : get_produto {| produtos := produtos db ++ [novo];
                              fornecedores := fornecedores db;
                              requisicoes := requisicoes db;
                              cotacoes := cotacoes db;
                              requisicao_fornecedores := requisicao_fornecedores db |} id_prod
               = Some novo).
  { unfold get_produto in *. cbn [produtos]. rewrite find_app_l, G. cbn.
    now rewrite Z.eqb_refl. }
  split; [exact Gd|].
  unfold deletar_produto. rewrite Gd.
  unfold cotacoes_do_produto, requisicoes_do_produto.
  cbn [produtos cotacoes requisicoes fornecedores requisicao_fornecedores].
  rewrite (filter_todos_falsos _ (cotacoes db)), (filter_todos_falsos _ (requisicoes db)).
  - rewrite (filter_snoc_novo Produto.id (produtos db) novo Gn).
    now rewrite DB_eta.
  - intros r Hr. apply Z.eqb_neq. intros Er. apply Gn. rewrite <- Er.
    now apply (fk_requisicao db H).
  - intros c Hc. apply Z.eqb_neq. intros Ec. apply Gn. rewrite <- Ec.
    now apply (fk_cotacao db H).
Qed.

Lemma produto_cadastrado_e_excluido_witness :
  get_produto db_lote_com_produto 15 = Some prod_15
  /\ deletar_produto db_lote_com_produto 15 = (db_lote, Sucesso).
Proof.
  apply (produto_cadastrado_e_excluido db_lote db_lote_com_produto form_produto 15);
    reflexivity.
Defined.

(** ** Deleting a product *)

(** X6. [deletar_produto] refuses a product that a quotation or a request
    names and leaves the database as it was; a product named by none is
    deleted, and then only its row goes: no lookup of another code changes
    and the other tables are untouched.  An unknown code is an error with
    the database unchanged. *)
Theorem deletar_produto_com_historico (db : DB) (id : Z) :
  (get_produto db id = None -> deletar_produto db id = (db, ErroExcecao))
  /\ (forall prod, get_produto db id = Some prod ->
        ((exists c, In c (cotacoes db) /\ Cotacao.produto_id c = id)
         \/ (exists r, In r (requisicoes db) /\ Requisicao.produto_id r = id) ->
         deletar_produto db id = (db, ErroHistorico))
        /\ ((forall c, In c (cotacoes db) -> Cotacao.produto_id c <> id) ->
            (forall r, In r (requisicoes db) -> Requisicao.produto_id r <> id) ->
            snd (deletar_produto db id) = Sucesso
            /\ get_produto (fst (deletar_produto db id)) id = None
            /\ (forall id', id' <> id ->
                  get_produto (fst (deletar_produto db id)) id' = get_produto db id')
            /\ fornecedores (fst (deletar_produto db id)) = fornecedores db
            /\ requisicoes (fst (deletar_produto db id)) = requisicoes db
            /\ cotacoes (fst (deletar_produto db id)) = cotacoes db
            /\ requisicao_fornecedores (fst (deletar_produto db id))
               = requisicao_fornecedores db)).
Proof.
  unfold deletar_produto. split; [intros ->; reflexivity|].
  intros prod G. rewrite G. apply find_some_ids in G as [_ Gid]. rewrite Gid.
  unfold cotacoes_do_produto, requisicoes_do_produto. split.
  - intros [(c & Hc & Ec)|(r & Hr & Er)].
    + assert (I : In c (filter (fun c => Cotacao.produto_id c =? id) (cotacoes db)))
        by (apply filter_In; split; [exact Hc | now apply Z.eqb_eq]).
      destruct (filter _ (cotacoes db)); [destruct I | reflexivity].
    + assert (I : In r (filter (fun r => Requisicao.produto_id r =? id) (requisicoes db)))
        by (apply filter_In; split; [exact Hr | now apply Z.eqb_eq]).
      destruct (filter _ (cotacoes db)); [|reflexivity].
      destruct (filter _ (requisicoes db)); [destruct I | reflexivity].
  - intros Nc Nr.
    rewrite (filter_todos_falsos _ (cotacoes db)), (filter_todos_falsos _ (requisicoes db)).
    + cbn [fst snd produtos fornecedores requisicoes cotacoes requisicao_fornecedores].
      repeat split.
      * unfold get_produto. cbn [produtos]. apply find_none_all.
        intros p Hp. apply filter_In in Hp as [_ Hp]. now apply negb_true_iff in Hp.
      * intros id' Hne. unfold get_produto. cbn [produtos].
        induction (produtos db) as [|p l IH]; [reflexivity|]. cbn.
        destruct (Produto.id p =? id) eqn:Ep; cbn.
        -- apply Z.eqb_eq in Ep. rewrite Ep.
           assert (N : (id =? id') = false) by (apply Z.eqb_neq; congruence).
           now rewrite N.
        -- now rewrite IH.
    + intros r Hr. apply Z.eqb_neq. auto.
    + intros c Hc. apply Z.eqb_neq. auto.
Qed.

Lemma deletar_produto_com_historico_witness :
  deletar_produto db_lote 8 = (db_lote, ErroHistorico)
  /\ snd (deletar_produto db_lote_com_produto 15) = Sucesso.
Proof.
  pose proof (deletar_produto_com_historico db_lote 8) as (_ & H).
  pose proof (deletar_produto_com_historico db_lote_com_produto 15) as (_ & H').
  split.
  - apply (H prod_8); [reflexivity|]. left.
    eexists. split; [left; reflexivity | reflexivity].
  - apply (H' prod_15); [reflexivity| |].
    + intros c [<-|[]]. cbn. discriminate.
    + intros r [<-|[<-|[<-|[]]]]; cbn; discriminate.
Defined.

(** ** Creating a supplier *)

Lemma get_fornecedor_app db f id :
  In id (map Fornecedor.id (fornecedores db)) ->
  find (fun g => Fornecedor.id g =? id) (fornecedores db ++ [f]) = get_fornecedor db id.
Proof.
  intros Hin. unfold get_fornecedor. rewrite find_app_l.
  destruct (find _ (fornecedores db)) eqn:F; [reflexivity|].
  now apply find_none_ids in F.
Qed.

Lemma fornecedores_post_sucesso db form db' :
  fornecedores_post db form = (db', FornecedorCadastrado) ->
  fornecedor_por_nome db (Py.strip (form_get form "nome" "")) = None
  /\ Py.strip (form_get form "nome" "") <> ""%string
  /\ db' = {| produtos := produtos db;
              fornecedores := fornecedores db ++ [novo_fornecedor db (Py.strip (form_get form "nome" ""))];
              requisicoes := requisicoes db;
              cotacoes := cotacoes db;
              requisicao_fornecedores := requisicao_fornecedores db |}.
Proof.
  unfold fornecedores_post.
  destruct (Py.strip (form_get form "nome" "")) as [|c s] eqn:E; [discriminate|].
  destruct (fornecedor_por_nome db (String c s)) eqn:F; [discriminate|].
  intros H. inversion H; subst. repeat split; auto. discriminate.
Qed.

(** X7. A supplier that was just created is found under its stripped name
    and under the next key, and deleting it again gives back the database
    as it was before: on a database whose foreign keys resolve nothing can
    name the new key. *)
Theorem fornecedor_cadastrado_e_excluido (db db' : DB) (form : Form) :
  integro db = true ->
  fornecedores_post db form = (db', FornecedorCadastrado) ->
  let forn := novo_fornecedor db (Py.strip (form_get form "nome" "")) in
  fornecedor_por_nome db' (Fornecedor.nome forn) = Some forn
  /\ get_fornecedor db' (Fornecedor.id forn) = Some forn
  /\ deletar_fornecedor db' (Fornecedor.id forn) = (db, Sucesso).
Proof.
  intros H E forn. apply integro_spec in H.
  apply fornecedores_post_sucesso in E as (F & Hn & ->). fold forn.
  assert (Nid : ~ In (Fornecedor.id forn) (map Fornecedor.id (fornecedores db)))
      by apply proximo_id_novo.
    assert (G : get_fornecedor {| produtos := produtos db;
                                  fornecedores := fornecedores db ++ [forn];
                                  requisicoes := requisicoes db;
                                  cotacoes := cotacoes db;
                                  requisicao_fornecedores := requisicao_fornecedores db |}
                               (Fornecedor.id forn) = Some forn).
    { unfold get_fornecedor. cbn [fornecedores]. rewrite find_app_l.
      rewrite find_none_all.
      - cbn [find]. now rewrite Z.eqb_refl.
      - intros g Hg. apply Z.eqb_neq. intros Eg. apply Nid. rewrite <- Eg.
        now apply in_map. }
    split; [|split; [exact G|]].
    + unfold fornecedor_por_nome in *. cbn [fornecedores]. rewrite find_app_l.
      change (Fornecedor.nome forn) with (Py.strip (form_get form "nome" "")) at 1.
      rewrite F. cbn [find]. now rewrite String.eqb_refl.
    + unfold deletar_fornecedor. rewrite G. unfold cotacoes_do_fornecedor.
      cbn [cotacoes fornecedores requisicao_fornecedores produtos requisicoes].
      rewrite (filter_todos_falsos _ (cotacoes db)).
      * rewrite (filter_snoc_novo Fornecedor.id (fornecedores db) forn Nid).
        rewrite (filter_todos_verdadeiros _ (requisicao_fornecedores db)).
        -- now rewrite DB_eta.
        -- intros row Hr. apply negb_true_iff, Z.eqb_neq. intros Er. apply Nid.
           rewrite <- Er. now apply (fk_linha db H).
      * intros c Hc. apply Z.eqb_neq. intros Ec. apply Nid. rewrite <- Ec.
        now apply (fk_cotacao db H).
Qed.

Lemma fornecedor_cadastrado_e_excluido_witness :
  fornecedor_por_nome db_lote_com_fornecedor "RANDON" = Some forn_RANDON
  /\ get_fornecedor db_lote_com_fornecedor 4 = Some forn_RANDON
  /\ deletar_fornecedor db_lote_com_fornecedor 4 = (db_lote, Sucesso).
Proof.
  apply (fornecedor_cadastrado_e_excluido db_lote db_lote_com_fornecedor form_fornecedor);
    reflexivity.
Defined.

(** X8. A new supplier joins the bidding of exactly the requests that
    selected no supplier: their candidates are the former ones and the new
    supplier, while a request that selected suppliers keeps its
    candidates. *)
Theorem fornecedor_novo_concorre (db db' : DB) (form : Form) (req : Requisicao.t) :
  integro db = true ->
  fornecedores_post db form = (db', FornecedorCadastrado) ->
  let forn := novo_fornecedor db (Py.strip (form_get form "nome" "")) in
  fornecedores_selecionados db' req = fornecedores_selecionados db req
  /\ (fornecedores_selecionados db req = [] ->
      Permutation (fornecedores_para_cotar db' req) (forn :: fornecedores_para_cotar db req))
  /\ (fornecedores_selecionados db req <> [] ->
      fornecedores_para_cotar db' req = fornecedores_para_cotar db req).
Proof.
  intros H E forn. apply integro_spec in H.
  apply fornecedores_post_sucesso in E as (F & Hn & ->). fold forn.
    assert (S : fornecedores_selecionados
                  {| produtos := produtos db; fornecedores := fornecedores db ++ [forn];
                     requisicoes := requisicoes db; cotacoes := cotacoes db;
                     requisicao_fornecedores := requisicao_fornecedores db |} req
                = fornecedores_selecionados db req).
    { unfold fornecedores_selecionados. cbn [requisicao_fornecedores].
      apply flat_map_ext_In. intros row Hr.
      destruct (fst row =? Requisicao.id req); [|reflexivity].
      unfold get_fornecedor at 1. cbn [fornecedores].
      rewrite get_fornecedor_app; [reflexivity|]. now apply (fk_linha db H). }
    split; [exact S|]. unfold fornecedores_para_cotar. rewrite S. split.
    + intros ->. unfold fornecedores_ativos. cbn [fornecedores].
      rewrite filter_app. cbn [filter forn novo_fornecedor Fornecedor.ativo].
      rewrite !order_by_nome_perm. fold forn.
      rewrite Permutation_app_comm. reflexivity.
    + intros Hs. now destruct (fornecedores_selecionados db req).
Qed.

Lemma fornecedor_novo_concorre_witness :
  fornecedores_selecionados db_lote_com_fornecedor req_9 = fornecedores_selecionados db_lote req_9
  /\ (fornecedores_selecionados db_lote req_9 = [] ->
      Permutation (fornecedores_para_cotar db_lote_com_fornecedor req_9)
                  (forn_RANDON :: fornecedores_para_cotar db_lote req_9))
  /\ (fornecedores_selecionados db_lote req_9 <> [] ->
      fornecedores_para_cotar db_lote_com_fornecedor req_9 = fornecedores_para_cotar db_lote req_9).
Proof.
  apply (fornecedor_novo_concorre db_lote db_lote_com_fornecedor form_fornecedor req_9);
    reflexivity.
Defined.

(** ** Removing a request *)

(** X9. [remover_requisicao] deletes an existing request whatever its
    status, together with its rows of the association table, and touches
    neither the quotations nor the other requests.  A quotation whose
    origin was the removed request can still be deleted afterwards, and
    then no request changes. *)
Theorem remover_requisicao_qualquer_status (db : DB) (id : Z) (req : Requisicao.t) :
  get_requisicao db id = Some req ->
  let db' := fst (remover_requisicao db id) in
  snd (remover_requisicao db id) = Sucesso
  /\ get_requisicao db' id = None
  /\ (forall r, Requisicao.id r <> id -> (In r (requisicoes db') <-> In r (requisicoes db)))
  /\ (forall row, In row (requisicao_fornecedores db') <->
                  In row (requisicao_fornecedores db) /\ fst row <> id)
  /\ cotacoes db' = cotacoes db
  /\ produtos db' = produtos db
  /\ fornecedores db' = fornecedores db
  /\ (forall cid c, get_cotacao db' cid = Some c ->
                    Cotacao.requisicao_origem_id c = Some id ->
                    snd (deletar_cotacao_final db' cid) = Sucesso
                    /\ requisicoes (fst (deletar_cotacao_final db' cid)) = requisicoes db').
Proof.
  intros G db'. subst db'. unfold remover_requisicao. rewrite G.
  apply find_some_ids in G as [_ Gid]. rewrite Gid.
  cbn [fst snd produtos fornecedores requisicoes cotacoes requisicao_fornecedores].
  assert (N : find (fun r => Requisicao.id r =? id)
                   (filter (fun r => negb (Requisicao.id r =? id)) (requisicoes db)) = None).
  { apply find_none_all. intros r Hr. apply filter_In in Hr as [_ Hr].
    now apply negb_true_iff in Hr. }
  split; [reflexivity|]. split; [exact N|]. split; [|split].
  - intros r Hne. split; intros Hr.
    + apply filter_In in Hr. tauto.
    + apply filter_In. split; [exact Hr|]. now apply negb_true_iff, Z.eqb_neq.
  - intros row. split.
    + intros Hr. apply filter_In in Hr as [Hr Hs].
      split; [exact Hr|]. now apply negb_true_iff, Z.eqb_neq in Hs.
    + intros [Hr Hne]. apply filter_In. split; [exact Hr|].
      now apply negb_true_iff, Z.eqb_neq.
  - split; [reflexivity|]. split; [reflexivity|]. split; [reflexivity|].
    intros cid c Gc Ho. unfold deletar_cotacao_final. rewrite Gc.
    cbn [fst snd requisicoes]. split; [reflexivity|]. rewrite Ho.
    destruct (id =? 0); [reflexivity|].
    unfold get_requisicao. cbn [requisicoes]. now rewrite N.
Qed.

Lemma remover_requisicao_qualquer_status_witness :
  fst (remover_requisicao db_lote_depois 8) = db_lote_sem_req_8
  /\ snd (deletar_cotacao_final db_lote_sem_req_8 3) = Sucesso
  /\ requisicoes (fst (deletar_cotacao_final db_lote_sem_req_8 3)) = requisicoes db_lote_sem_req_8.
Proof.
  pose proof (remover_requisicao_qualquer_status db_lote_depois 8
                (Requisicao.set_status Processado req_8) eq_refl) as H.
  cbv zeta in H. destruct H as (_ & _ & _ & _ & _ & _ & _ & H).
  split; [reflexivity|].
  apply (H 3 {| Cotacao.id := 3; Cotacao.preco := 5; Cotacao.produto_id := 8;
                Cotacao.fornecedor_id := 1; Cotacao.requisicao_origem_id := Some 8 |});
    reflexivity.
Defined.

End Cadastros.

(* ================================================================== *)
(** * More on the batch *)
(* ================================================================== *)

Section LoteExtra.
Local Open Scope Z_scope.

(** ** The order of the candidates *)

(** Two prices above 0 of which neither is below the other are the same
    float. *)
Lemma SF_positivos_iguais x y :
  SFltb (S754_zero false) x = true -> SFltb (S754_zero false) y = true ->
  SFltb x y = false -> SFltb y x = false -> x = y.
Proof.
  unfold SFltb, SFcompare. FloatOrder.sf_destruct x; FloatOrder.sf_destruct y;
    simpl; try congruence; intros; FloatOrder.sf_cases.
Qed.

Lemma precos_iguais (x y : float) :
  (0 <? x)%float = true -> (0 <? y)%float = true ->
  (x <? y)%float = false -> (y <? x)%float = false -> x = y.
Proof.
  rewrite !ltb_spec. intros Hx Hy Hxy Hyx. apply Prim2SF_inj.
  now apply SF_positivos_iguais.
Qed.

(** The choice as a minimum over the candidates, whatever their order. *)
Lemma escolher_minimo form req l :
  match vencedor (escolher form req l) with
  | None =>
      menor_preco (escolher form req l) = infinity
      /\ forall g p, In g l -> lance_valido form req g p -> (p <? infinity)%float = false
  | Some _ =>
      (exists w, In w l /\ lance_valido form req w (menor_preco (escolher form req l)))
      /\ (menor_preco (escolher form req l) <? infinity)%float = true
      /\ forall g p, In g l -> lance_valido form req g p ->
                     (p <? menor_preco (escolher form req l))%float = false
  end.
Proof.
  pose proof (escolher_ok form req l) as H. unfold escolha_ok in H.
  destruct (vencedor (escolher form req l)) as [[vid vnome]|]; [|exact H].
  destruct H as (antes & w & depois & E & _ & _ & Hw & Hinf & Ha & Hd).
  split; [exists w; split; [rewrite E; apply in_elt | exact Hw]|].
  split; [exact Hinf|].
  intros g p Hin Hp. rewrite E in Hin. apply in_app_or in Hin.
  destruct Hin as [Hin|[<-|Hin]].
  - apply FloatOrder.ltb_asym. eauto.
  - destruct Hw as [Hw _], Hp as [Hp _]. rewrite Hw in Hp. inversion Hp; subst.
    apply FloatOrder.ltb_irrefl.
  - eauto.
Qed.

(** X10. The price at which a request is awarded does not depend on the
    order in which its candidates are evaluated, and neither does whether
    it is awarded at all: the order only decides who wins among equal
    lowest bids. *)
Theorem escolher_preco_independe_da_ordem
        (form : Form) (req : Requisicao.t) (l1 l2 : list Fornecedor.t) :
  Permutation l1 l2 ->
  menor_preco (escolher form req l1) = menor_preco (escolher form req l2)
  /\ (vencedor (escolher form req l1) = None <-> vencedor (escolher form req l2) = None).
Proof.
  intros P.
  pose proof (escolher_minimo form req l1) as H1.
  pose proof (escolher_minimo form req l2) as H2.
  destruct (vencedor (escolher form req l1)) as [v1|];
    destruct (vencedor (escolher form req l2)) as [v2|].
  - destruct H1 as ((w1 & I1 & V1) & _ & M1), H2 as ((w2 & I2 & V2) & _ & M2).
    split; [|split; discriminate].
    apply precos_iguais; try apply V1; try apply V2.
    + apply (M2 w1); [|exact V1]. now apply (Permutation_in _ P).
    + apply (M1 w2); [|exact V2]. now apply (Permutation_in _ (Permutation_sym P)).
  - exfalso. destruct H1 as ((w1 & I1 & V1) & L1 & _), H2 as (_ & N2).
    rewrite (N2 w1 _ (Permutation_in _ P I1) V1) in L1. discriminate.
  - exfalso. destruct H2 as ((w2 & I2 & V2) & L2 & _), H1 as (_ & N1).
    rewrite (N1 w2 _ (Permutation_in _ (Permutation_sym P) I2) V2) in L2. discriminate.
  - destruct H1 as (-> & _), H2 as (-> & _). split; [reflexivity | tauto].
Qed.

Lemma escolher_preco_independe_da_ordem_witness :
  menor_preco (escolher form_lote req_8 [forn_A; forn_B])
  = menor_preco (escolher form_lote req_8 [forn_B; forn_A])
  /\ (vencedor (escolher form_lote req_8 [forn_A; forn_B]) = None
      <-> vencedor (escolher form_lote req_8 [forn_B; forn_A]) = None).
Proof.
  apply (escolher_preco_independe_da_ordem form_lote req_8 [forn_A; forn_B] [forn_B; forn_A]).
  apply perm_swap.
Defined.

(** ** What a batch leaves behind *)

Lemma requisicoes_pendentes_commit db st : requisicoes_pendentes (commit_lote db st) = [].
Proof.
  unfold requisicoes_pendentes, commit_lote. cbn [requisicoes].
  apply marcar_processadas_sem_pendentes.
Qed.

(** X11. A batch cannot be run twice: once [mapa_cotacao] has committed
    and shown its report no request is pending, so that the route, asked
    again with whatever method and form, only redirects and changes
    nothing. *)
Theorem mapa_cotacao_nao_repete (db db' : DB) (form : Form) (relatorio : list Grupo) :
  mapa_cotacao db POST form = (db', RelatorioVencedores relatorio) ->
  requisicoes_pendentes db' = []
  /\ forall method form', mapa_cotacao db' method form' = (db', RedirectRequisicoes).
Proof.
  intros E. apply mapa_cotacao_post_relatorio in E as (st & _ & -> & _).
  pose proof (requisicoes_pendentes_commit db st) as N.
  split; [exact N|]. intros method form'. unfold mapa_cotacao. now rewrite N.
Qed.

Lemma mapa_cotacao_nao_repete_witness :
  requisicoes_pendentes db_lote_depois = []
  /\ forall method form', mapa_cotacao db_lote_depois method form'
                          = (db_lote_depois, RedirectRequisicoes).
Proof.
  apply (mapa_cotacao_nao_repete db_lote db_lote_depois form_lote relatorio_lote).
  vm_compute. reflexivity.
Defined.





End LoteExtra.

(* ================================================================== *)
(** * Displaying and reading money *)
(* ================================================================== *)

Section Formato.
Local Open Scope char_scope.
Local Open Scope Z_scope.

(** ** Replacing one character by another *)

Lemma replace_char a b s :
  Py.replace (String a "") (String b "") s
  = string_of_list_ascii (map (trocar a b) (list_ascii_of_string s)).
Proof.
  unfold Py.replace, trocar.
  induction s as [|c s IH]; [reflexivity|].
  cbn [Py.replace_from String.prefix String.length Nat.sub list_ascii_of_string map
       string_of_list_ascii].
  destruct (ascii_dec a c) as [<-|Hc].
  - rewrite prefix_vazio, Ascii.eqb_refl. cbn. now rewrite IH.
  - assert (E : Ascii.eqb c a = false) by (apply Ascii.eqb_neq; congruence).
    rewrite E. now rewrite IH.
Qed.

Lemma formatar_moeda_float x :
  formatar_moeda (VFloat x)
  = string_of_list_ascii
      (map pontuar_br ("R" :: "$" :: " " :: list_ascii_of_string (PyFmt.format_2f x))).
Proof.
  unfold formatar_moeda, float_de_valor.
  rewrite !replace_char, !list_ascii_of_string_of_list_ascii, !map_map.
  reflexivity.
Qed.

Lemma replace_RS_sem_R l :
  ~ In "R" l -> Py.replace_from "R$" "" 0 (string_of_list_ascii l) = string_of_list_ascii l.
Proof.
  induction l as [|c l IH]; intros H; [reflexivity|].
  cbn [string_of_list_ascii Py.replace_from String.prefix].
  destruct (ascii_dec "R" c) as [<-|Hc]; [exfalso; apply H; now left|].
  rewrite IH; [reflexivity|]. intros Hin. apply H. now right.
Qed.

(** ** Decimal digits *)

Lemma digit_char_ok d :
  0 <= d < 10 ->
  Py.isdigit (PyFmt.digit_char d) = true /\ Py.digit_value (PyFmt.digit_char d) = d.
Proof.
  intros H.
  assert (C : d = 0 \/ d = 1 \/ d = 2 \/ d = 3 \/ d = 4 \/ d = 5 \/ d = 6 \/ d = 7
              \/ d = 8 \/ d = 9) by lia.
  repeat (destruct C as [->|C]; [split; reflexivity|]). subst. split; reflexivity.
Qed.

Lemma digits_value_snoc l c :
  Py.digits_value (l ++ [c]) = 10 * Py.digits_value l + Py.digit_value c.
Proof. unfold Py.digits_value. now rewrite fold_left_app. Qed.

Lemma digits_of_ok fuel :
  forall n, 0 <= n < 10 ^ Z.of_nat fuel ->
            so_digitos (PyFmt.digits_of fuel n)
            /\ Py.digits_value (PyFmt.digits_of fuel n) = n
            /\ (fuel <> O -> PyFmt.digits_of fuel n <> []).
Proof.
  induction fuel as [|fuel IH]; intros n Hn.
  - cbn in Hn. assert (n = 0) by lia. subst. cbn.
    split; [intros c []|]. split; [reflexivity | congruence].
  - cbn [PyFmt.digits_of]. destruct (n <? 10) eqn:L.
    + apply Z.ltb_lt in L. destruct (digit_char_ok n) as [D V]; [lia|].
      split; [intros c [<-|[]]; exact D|]. split; [|discriminate].
      unfold Py.digits_value. cbn. rewrite V. lia.
    + apply Z.ltb_ge in L.
      rewrite Nat2Z.inj_succ, Z.pow_succ_r in Hn by lia.
      destruct (IH (n / 10)) as (D & V & _).
      { split; [apply Z.div_pos; lia|]. apply Z.div_lt_upper_bound; lia. }
      destruct (digit_char_ok (n mod 10)) as [D' V']; [apply Z.mod_pos_bound; lia|].
      split; [|split].
      * intros c Hc. apply in_app_or in Hc as [Hc|[<-|[]]]; auto.
      * rewrite digits_value_snoc, V, V'. symmetry. apply Z.div_mod. lia.
      * intros _ E. apply app_eq_nil in E as [_ E]. discriminate.
Qed.

Lemma decimal_ok n :
  0 <= n ->
  so_digitos (PyFmt.decimal n) /\ Py.digits_value (PyFmt.decimal n) = n
  /\ PyFmt.decimal n <> [].
Proof.
  intros Hn. unfold PyFmt.decimal.
  destruct (digits_of_ok (S (Z.to_nat (Z.log2 n))) n) as (D & V & N);
    [|split; [exact D | split; [exact V | now apply N]]].
  split; [exact Hn|].
  rewrite Nat2Z.inj_succ, Z2Nat.id by apply Z.log2_nonneg.
  destruct (Z.eq_dec n 0) as [->|Hz]; [cbn; lia|].
  destruct (Z.log2_spec n) as [_ H]; [lia|].
  eapply Z.lt_le_trans; [exact H|].
  apply Z.pow_le_mono_l. split; [lia|lia].
Qed.

(** What the code points of a digit never are. *)
Lemma digito_neutro c :
  Py.isdigit c = true ->
  pontuar_br c = c
  /\ Ascii.eqb c "." = false /\ Ascii.eqb c "," = false
  /\ Ascii.eqb c "_" = false /\ c <> "R"
  /\ Py.isspace c = false /\ Py.float_space c = false
  /\ Py.lower c = c
  /\ (forall r, Py.parse_sign (c :: r) = (false, c :: r))
  /\ (forall w, String.eqb (String c w) "inf" = false
                /\ String.eqb (String c w) "infinity" = false
                /\ String.eqb (String c w) "nan" = false).
Proof.
  destruct c as [[] [] [] [] [] [] [] []]; try discriminate; intros _;
    repeat split; try reflexivity; try discriminate.
Qed.

Lemma centesimos_nonneg m e : 0 <= PyFmt.centesimos m e.
Proof.
  unfold PyFmt.centesimos. destruct (0 <=? e) eqn:E.
  - apply Z.leb_le in E. assert (0 < 2 ^ e) by (apply Z.pow_pos_nonneg; lia). nia.
  - apply Z.leb_gt in E. unfold Py.round_half_even.
    assert (P : 0 < 2 ^ (- e)) by (apply Z.pow_pos_nonneg; lia).
    assert (Q : 0 <= Z.pos m * 100 / 2 ^ (- e)) by (apply Z.div_pos; lia).
    destruct (_ ?= _); [destruct (Z.even _)| |]; lia.
Qed.


(** ** The thousands separator *)

Lemma milhares_In c l : forall k, In c (PyFmt.milhares k l) -> c = "," \/ In c l.
Proof.
  induction l as [|a l IH]; intros k; cbn [PyFmt.milhares]; [tauto|].
  destruct (Nat.eqb k 3); cbn [In]; intros H.
  - destruct H as [<-|[<-|H]]; auto. apply IH in H. tauto.
  - destruct H as [<-|H]; auto. apply IH in H. tauto.
Qed.

Lemma milhares_sem_pontos l :
  so_digitos l ->
  forall k, filter (fun c => negb (Ascii.eqb c ".")) (map pontuar_br (PyFmt.milhares k l)) = l.
Proof.
  induction l as [|a l IH]; intros D k; [reflexivity|].
  assert (Da : Py.isdigit a = true) by (apply D; now left).
  assert (Dl : so_digitos l) by (intros c Hc; apply D; now right).
  destruct (digito_neutro a Da) as (Ta & Pa & _).
  cbn [PyFmt.milhares]. destruct (Nat.eqb k 3); cbn [map filter].
  - change (pontuar_br ",") with ".". cbn [Ascii.eqb Bool.eqb negb andb].
    rewrite Ta, Pa. cbn [negb]. now rewrite IH.
  - rewrite Ta, Pa. cbn [negb]. now rewrite IH.
Qed.

(** ** The string that reaches [float] *)

Lemma sinal_pontuar s : map pontuar_br (PyFmt.sinal s) = PyFmt.sinal s.
Proof. now destruct s. Qed.

Lemma replace_RS_prefixo l :
  ~ In "R" l ->
  Py.replace "R$" "" (string_of_list_ascii ("R" :: "$" :: " " :: l))
  = string_of_list_ascii (" " :: l).
Proof.
  intros H. unfold Py.replace.
  cbn [string_of_list_ascii Py.replace_from String.prefix String.length Nat.sub].
  destruct (ascii_dec "R" "R") as [_|N]; [|congruence].
  destruct (ascii_dec "$" "$") as [_|N]; [|congruence].
  destruct (ascii_dec "R" " ") as [N|_]; [discriminate|].
  cbn [append]. now rewrite replace_RS_sem_R.
Qed.

Lemma lstrip_chars_id c l : Py.isspace c = false -> Py.lstrip_chars (c :: l) = c :: l.
Proof. intros H. cbn. now rewrite H. Qed.

Lemma lstrip_float_id c l : Py.float_space c = false -> Py.lstrip_float (c :: l) = c :: l.
Proof. intros H. cbn. now rewrite H. Qed.

Lemma underscores_ok_sem l :
  forall prev, Ascii.eqb prev "_" = false ->
               (forall c, In c l -> Ascii.eqb c "_" = false) ->
               Py.underscores_ok prev l = true.
Proof.
  induction l as [|a l IH]; intros prev Hp H; cbn [Py.underscores_ok].
  - now rewrite Hp.
  - rewrite (H a (or_introl eq_refl)), Hp. cbn [andb].
    apply IH; [apply H; now left|]. intros c Hc. apply H. now right.
Qed.

Lemma span_digits_app ds c r :
  so_digitos ds -> Py.isdigit c = false ->
  Py.span_digits (ds ++ c :: r) = (ds, c :: r).
Proof.
  induction ds as [|a ds IH]; intros D Hc; cbn [app Py.span_digits].
  - now rewrite Hc.
  - rewrite (D a (or_introl eq_refl)), IH; [reflexivity| |exact Hc].
    intros x Hx. apply D. now right.
Qed.

Lemma span_digits_todos ds : so_digitos ds -> Py.span_digits ds = (ds, []).
Proof.
  induction ds as [|a ds IH]; intros D; cbn [Py.span_digits]; [reflexivity|].
  rewrite (D a (or_introl eq_refl)), IH; [reflexivity|].
  intros x Hx. apply D. now right.
Qed.

(** The number [float] reads from a sign, digits, a point and two
    digits. *)
Lemma float_of_str_fixo s a ds d1 d2 :
  so_digitos (a :: ds) -> Py.isdigit d1 = true -> Py.isdigit d2 = true ->
  Py.float_of_str (string_of_list_ascii (PyFmt.sinal s ++ (a :: ds) ++ ["."; d1; d2]))
  = Some (Py.of_decimal s (Py.digits_value ((a :: ds) ++ [d1; d2])) (-2)).
Proof.
  intros D D1 D2.
  assert (Da : Py.isdigit a = true) by (apply D; now left).
  destruct (digito_neutro a Da) as (_ & _ & _ & Ua & _ & _ & Fa & La & Sa & Wa).
  destruct (digito_neutro d2 D2) as (_ & _ & _ & _ & _ & _ & F2 & _).
  set (N := PyFmt.sinal s ++ (a :: ds) ++ ["."; d1; d2]).
  assert (U : forall c, In c N -> Ascii.eqb c "_" = false).
  { intros c Hc. subst N. apply in_app_or in Hc as [Hc|Hc].
    - destruct s; [destruct Hc as [<-|[]]; reflexivity | destruct Hc].
    - apply in_app_or in Hc as [Hc|[<-|[<-|[<-|[]]]]].
      + now apply (digito_neutro c (D c Hc)).
      + reflexivity.
      + now apply (digito_neutro _ D1).
      + now apply (digito_neutro _ D2). }
  unfold Py.float_of_str. rewrite list_ascii_of_string_of_list_ascii. fold N.
  rewrite (underscores_ok_sem N Ascii.zero eq_refl U).
  rewrite (forallb_filter_id _ N)
    by (apply forallb_forall; intros c Hc; now rewrite (U c Hc)).
  assert (L1 : Py.lstrip_float N = N).
  { subst N. destruct s; cbn [PyFmt.sinal app]; now apply lstrip_float_id. }
  assert (L2 : Py.lstrip_float (rev N) = rev N).
  { subst N. rewrite !rev_app_distr. cbn [rev app]. now apply lstrip_float_id. }
  rewrite L1, L2, rev_involutive.
  assert (P : Py.parse_sign N = (s, (a :: ds) ++ ["."; d1; d2])).
  { subst N. destruct s; cbn [PyFmt.sinal app]; [reflexivity | apply Sa]. }
  rewrite P. cbn [app map string_of_list_ascii]. rewrite La.
  destruct (Wa (string_of_list_ascii (map Py.lower (ds ++ ["."; d1; d2])))) as (W1 & W2 & W3).
  rewrite W1, W2, W3. cbn [orb].
  change (a :: ds ++ ["."; d1; d2]) with ((a :: ds) ++ "." :: [d1; d2]).
  rewrite (span_digits_app (a :: ds) "." [d1; d2] D eq_refl).
  rewrite (span_digits_todos [d1; d2])
    by (intros c [<-|[<-|[]]]; assumption).
  cbn [app Py.parse_exponent List.length Z.of_nat]. reflexivity.
Qed.

Lemma parse_fixo_2 s c :
  0 <= c ->
  parse_moeda
    (String "R" (String "$" (String " "
       (string_of_list_ascii (map pontuar_br (PyFmt.fixo_2 s c))))))
  = Some (Py.of_decimal s c (-2)).
Proof.
  intros Hc. cbn [parse_moeda]. unfold normalizar_moeda.
  destruct (decimal_ok (c / 100)) as (D & V & N); [apply Z.div_pos; lia|].
  destruct (digit_char_ok (c mod 100 / 10)) as [D1 V1].
  { split; [apply Z.div_pos; [apply Z.mod_pos_bound|]; lia|].
    apply Z.div_lt_upper_bound; [lia|]. pose proof (Z.mod_pos_bound c 100). lia. }
  destruct (digit_char_ok (c mod 10)) as [D2 V2]; [apply Z.mod_pos_bound; lia|].
  set (ds := PyFmt.decimal (c / 100)) in *.
  set (d1 := PyFmt.digit_char (c mod 100 / 10)) in *.
  set (d2 := PyFmt.digit_char (c mod 10)) in *.
  destruct (digito_neutro d1 D1) as (T1 & P1 & C1 & _).
  destruct (digito_neutro d2 D2) as (T2 & P2 & C2 & _ & _ & S2 & _).
  set (G := map pontuar_br (PyFmt.milhares 0 (rev ds))).
  assert (Dr : so_digitos (rev ds)) by (intros x Hx; apply D; now apply in_rev).
  assert (E : map pontuar_br (PyFmt.fixo_2 s c) = PyFmt.sinal s ++ rev G ++ ["," ; d1; d2]).
  { unfold PyFmt.fixo_2, PyFmt.agrupar. fold ds d1 d2.
    rewrite !map_app, sinal_pontuar, map_rev. fold G. cbn [map].
    now rewrite T1, T2. }
  rewrite E.
  assert (R : ~ In "R" (PyFmt.sinal s ++ rev G ++ ["," ; d1; d2])).
  { intros H. apply in_app_or in H as [H|H].
    - destruct s; [destruct H as [H|[]]; discriminate | destruct H].
    - apply in_app_or in H as [H|[H|[H|[H|[]]]]].
      + apply in_rev in H. unfold G in H. apply in_map_iff in H as (x & Ex & Hx).
        apply milhares_In in Hx as [->|Hx]; [discriminate|].
        destruct (digito_neutro x (Dr x Hx)) as (Tx & _ & _ & _ & Rx & _).
        rewrite Tx in Ex. now apply Rx.
      + discriminate.
      + now apply (digito_neutro d1 D1).
      + now apply (digito_neutro d2 D2). }
  change (String "R" (String "$" (String " " (string_of_list_ascii ?l))))
    with (string_of_list_ascii ("R" :: "$" :: " " :: l)).
  rewrite (replace_RS_prefixo _ R), replace_ponto, replace_virgula.
  unfold sem_pontos, virgulas_em_pontos, Py.strip.
  rewrite !list_ascii_of_string_of_list_ascii.
  cbn [filter Ascii.eqb Bool.eqb negb andb].
  rewrite !filter_app, filter_rev. unfold G. rewrite (milhares_sem_pontos _ Dr 0), rev_involutive.
  cbn [filter Ascii.eqb Bool.eqb negb andb]. rewrite P1, P2. cbn [negb].
  assert (Fs : filter (fun c => negb (Ascii.eqb c ".")) (PyFmt.sinal s) = PyFmt.sinal s)
    by now destruct s.
  rewrite Fs. clear Fs.
  cbn [map Ascii.eqb Bool.eqb andb]. rewrite !map_app. cbn [map Ascii.eqb Bool.eqb andb].
  rewrite C1, C2.
  assert (Ms : map (fun c => if Ascii.eqb c "," then "." else c) (PyFmt.sinal s) = PyFmt.sinal s)
    by now destruct s.
  assert (Md : map (fun c => if Ascii.eqb c "," then "." else c) ds = ds).
  { rewrite <- (map_id ds) at 2. apply map_ext_in. intros x Hx.
    destruct (digito_neutro x (D x Hx)) as (_ & _ & -> & _). reflexivity. }
  rewrite Ms, Md. clear Ms Md.
  destruct ds as [|a ds'] eqn:Eds; [congruence|].
  assert (Da : Py.isdigit a = true) by (apply D; now left).
  destruct (digito_neutro a Da) as (_ & _ & _ & _ & _ & Sa & _).
  set (N0 := PyFmt.sinal s ++ (a :: ds') ++ ["."; d1; d2]).
  assert (St : Py.strip_chars (" " :: N0) = N0).
  { unfold Py.strip_chars. cbn [Py.lstrip_chars]. change (Py.isspace " ") with true. cbv iota.
    assert (L1 : Py.lstrip_chars N0 = N0).
    { subst N0. destruct s; cbn [PyFmt.sinal app]; now apply lstrip_chars_id. }
    rewrite L1. subst N0. rewrite !rev_app_distr. cbn [rev app].
    rewrite lstrip_chars_id by exact S2.
    change (d2 :: d1 :: "." :: (rev ds' ++ [a]) ++ rev (PyFmt.sinal s))
      with (rev ["."; d1; d2] ++ rev (a :: ds') ++ rev (PyFmt.sinal s)).
    now rewrite <- !rev_app_distr, rev_involutive, <- app_assoc. }
  fold N0. rewrite St. unfold N0.
  rewrite (float_of_str_fixo s a ds' d1 d2 D D1 D2). do 2 f_equal.
  change ((a :: ds') ++ [d1; d2]) with ((a :: ds') ++ [d1] ++ [d2]).
  rewrite app_assoc, !digits_value_snoc, V, V1, V2.
  clear -Hc. Z.div_mod_to_equations. lia.
Qed.

(** X13. What [formatar_moeda] displays, [parse_moeda] reads back: for
    a float, as that float rounded to two decimals, infinities and NaN
    included; for whatever [float] refuses, as 0. *)
Theorem formatar_parse_moeda (valor : Valor) :
  parse_moeda (formatar_moeda valor)
  = Some match float_de_valor valor with
         | Some x => PyFmt.round2 x
         | None => 0%float
         end.
Proof.
  assert (F : forall x, parse_moeda (formatar_moeda (VFloat x)) = Some (PyFmt.round2 x)).
  { intros x. rewrite formatar_moeda_float.
    cbn [map]. change (pontuar_br "R") with "R". change (pontuar_br "$") with "$".
    change (pontuar_br " ") with " ". cbn [string_of_list_ascii].
    unfold PyFmt.format_2f, PyFmt.round2.
    rewrite list_ascii_of_string_of_list_ascii.
    assert (X : x = SF2Prim (Prim2SF x)) by (symmetry; apply SF2Prim_Prim2SF).
    destruct (Prim2SF x) as [s|s| |s m e].
    - rewrite (parse_fixo_2 s 0) by lia. rewrite X. now destruct s.
    - rewrite X. destruct s; vm_compute; reflexivity.
    - rewrite X. vm_compute. reflexivity.
    - apply parse_fixo_2. apply centesimos_nonneg. }
  assert (N : parse_moeda "R$ 0,00" = Some 0%float) by (vm_compute; reflexivity).
  destruct (float_de_valor valor) as [x|] eqn:E.
  - rewrite <- (F x). unfold formatar_moeda. rewrite E. reflexivity.
  - unfold formatar_moeda. rewrite E. exact N.
Qed.

End Formato.

(* ================================================================== *)
(** * Users and default data *)
(* ================================================================== *)

(** ** Loops that add what is missing *)

Section Semeadura.
Local Open Scope Z_scope.

Context {A I : Type}.
Variables (chave : A -> I -> bool) (novo : list A -> I -> A).
Variable passo : list A * Z -> I -> list A * Z.

Hypothesis passo_def :
  forall st i, passo st i = match find (fun a => chave a i) (fst st) with
                            | Some _ => st
                            | None => (fst st ++ [novo (fst st) i], snd st + 1)
                            end.
Hypothesis chave_novo : forall l i, chave (novo l i) i = true.

Lemma find_cresce (p : A -> bool) l m : find p l <> None -> find p (l ++ m) <> None.
Proof. rewrite find_app_l. now destruct (find p l). Qed.

Lemma semear_estavel L :
  forall st, (forall i, In i L -> find (fun a => chave a i) (fst st) <> None) ->
             fold_left passo L st = st.
Proof.
  induction L as [|i L IH]; intros st H; cbn [fold_left]; [reflexivity|].
  assert (E : passo st i = st).
  { rewrite passo_def. specialize (H i (or_introl eq_refl)).
    now destruct (find _ (fst st)). }
  rewrite E. apply IH. intros j Hj. apply H. now right.
Qed.

Lemma semear_cresce L :
  forall st, exists novos,
    fst (fold_left passo L st) = fst st ++ novos
    /\ snd (fold_left passo L st) = snd st + Z.of_nat (List.length novos).
Proof.
  induction L as [|i L IH]; intros st; cbn [fold_left].
  - exists []. rewrite app_nil_r. cbn. split; [reflexivity | lia].
  - destruct (IH (passo st i)) as (novos & E1 & E2). rewrite passo_def in E1, E2.
    rewrite passo_def.
    destruct (find (fun a => chave a i) (fst st)); [eauto|].
    cbn [fst snd] in E1, E2. exists (novo (fst st) i :: novos).
    rewrite E1, E2, <- app_assoc. cbn [app List.length]. split; [reflexivity | lia].
Qed.

Lemma semear_presentes L :
  forall st i, In i L -> find (fun a => chave a i) (fst (fold_left passo L st)) <> None.
Proof.
  induction L as [|j L IH]; intros st i Hi; [destruct Hi|]. cbn [fold_left].
  destruct Hi as [->|Hi]; [|now apply IH].
  destruct (semear_cresce L (passo st i)) as (novos & -> & _).
  apply find_cresce. rewrite passo_def.
  destruct (find (fun a => chave a i) (fst st)) eqn:F; [congruence|].
  cbn [fst]. rewrite find_app_l, F. cbn [find]. now rewrite chave_novo.
Qed.

Lemma semear_invariante (Inv : list A -> Prop) :
  (forall l i, Inv l -> find (fun a => chave a i) l = None -> Inv (l ++ [novo l i])) ->
  forall L st, Inv (fst st) -> Inv (fst (fold_left passo L st)).
Proof.
  intros Hinv. induction L as [|i L IH]; intros st H; cbn [fold_left]; [exact H|].
  apply IH. rewrite passo_def.
  destruct (find (fun a => chave a i) (fst st)) eqn:F; [exact H|].
  cbn [fst]. now apply Hinv.
Qed.

End Semeadura.

Section Usuarios.
Local Open Scope Z_scope.

Variable generate_password_hash : string -> string.
Variable check_password_hash : string -> string -> bool.

(** What [werkzeug] promises: a password matches the hash made from it. *)
Hypothesis senha_confere :
  forall senha, check_password_hash (generate_password_hash senha) senha = true.

Lemma admin_criar_usuario_sucesso us method form us' :
  admin_criar_usuario generate_password_hash us method form = (us', UsuarioCriado) ->
  let username := Py.strip (form_get form "username" "") in
  let email := Py.strip (form_get form "email" "") in
  let senha := form_get form "senha" "" in
  let nome_completo := Py.strip (form_get form "nome_completo" "") in
  username <> ""%string /\ senha <> ""%string /\ (6 <= String.length senha)%nat
  /\ usuario_por_username us username = None
  /\ usuario_por_email us email = None
  /\ us' = us ++ [novo_usuario generate_password_hash us username email
                               (ou (Some nome_completo) username) senha].
Proof.
  unfold admin_criar_usuario. destruct method; [discriminate|].
  destruct (Py.strip (form_get form "username" "")) as [|c1 s1] eqn:E1; [discriminate|].
  destruct (Py.strip (form_get form "email" "")) as [|c2 s2] eqn:E2; [discriminate|].
  destruct (form_get form "senha" "") as [|c3 s3] eqn:E3; [discriminate|].
  destruct (String.length (String c3 s3) <? 6)%nat eqn:L; [discriminate|].
  destruct (usuario_por_username us (String c1 s1)) eqn:U; [discriminate|].
  destruct (usuario_por_email us (String c2 s2)) eqn:M; [discriminate|].
  intros H. inversion H; subst. apply Nat.ltb_ge in L.
  repeat split; auto; discriminate.
Qed.

Lemma admin_criar_usuario_casos us method form :
  fst (admin_criar_usuario generate_password_hash us method form) = us
  \/ (usuario_por_username us (Py.strip (form_get form "username" "")) = None
      /\ usuario_por_email us (Py.strip (form_get form "email" "")) = None
      /\ admin_criar_usuario generate_password_hash us method form
         = (us ++ [novo_usuario generate_password_hash us
                                (Py.strip (form_get form "username" ""))
                                (Py.strip (form_get form "email" ""))
                                (ou (Some (Py.strip (form_get form "nome_completo" "")))
                                    (Py.strip (form_get form "username" "")))
                                (form_get form "senha" "")],
            UsuarioCriado)).
Proof.
  unfold admin_criar_usuario. destruct method; [now left|].
  destruct (Py.strip (form_get form "username" "")) as [|c1 s1]; [now left|].
  destruct (Py.strip (form_get form "email" "")) as [|c2 s2]; [now left|].
  destruct (form_get form "senha" "") as [|c3 s3]; [now left|].
  destruct (String.length (String c3 s3) <? 6)%nat; [now left|].
  destruct (usuario_por_username us (String c1 s1)) eqn:U; [now left|].
  destruct (usuario_por_email us (String c2 s2)) eqn:M; [now left|].
  right. auto.
Qed.

(** X14. A user created by [admin_criar_usuario] can log in: with the
    same user name, blanks around it or not, and the same password, [login]
    opens a session under the new user's key and name.  The password has at
    least 6 characters. *)
Theorem usuario_criado_faz_login (us us' : list Usuario.t) (form form_login : Form) :
  admin_criar_usuario generate_password_hash us POST form = (us', UsuarioCriado) ->
  Py.strip (form_get form_login "username" "") = Py.strip (form_get form "username" "") ->
  form_get form_login "senha" "" = form_get form "senha" "" ->
  let username := Py.strip (form_get form "username" "") in
  login check_password_hash us' None POST form_login
  = (Some {| usuario_id := proximo_id (map Usuario.id us);
             sessao_username := username;
             sessao_nome := ou (Some (Py.strip (form_get form "nome_completo" ""))) username |},
     BemVindo)
  /\ (6 <= String.length (form_get form "senha" ""))%nat.
Proof.
  intros E Hu Hs username.
  apply admin_criar_usuario_sucesso in E as (Nu & Ns & L & U & _ & ->).
  cbv zeta in *. fold username in Nu, U |- *. split; [|exact L].
  unfold login. rewrite Hu, Hs. fold username.
  destruct username as [|c1 s1] eqn:E1; [congruence|].
  destruct (form_get form "senha" "") as [|c3 s3] eqn:E3; [congruence|].
  unfold usuario_por_username in *. rewrite find_app_l, U. cbn [find].
  unfold novo_usuario, verifica_senha.
  cbn [Usuario.senha_hash Usuario.ativo Usuario.id Usuario.nome_completo Usuario.username].
  rewrite String.eqb_refl.
  cbn [Usuario.senha_hash Usuario.ativo Usuario.id Usuario.nome_completo Usuario.username].
  rewrite senha_confere. cbn [andb].
  now destruct (Py.strip (form_get form "nome_completo" "")).
Qed.

(** ** The default data *)

Lemma find_none_strs {A} (f : A -> string) l n :
  find (fun x => String.eqb (f x) n) l = None -> ~ In n (map f l).
Proof.
  intros H Hin. apply in_map_iff in Hin as (x & E & Hx).
  pose proof (find_none _ _ H x Hx) as N. cbn in N. rewrite E, String.eqb_refl in N.
  discriminate.
Qed.

Lemma semear_produto_def st item :
  semear_produto st item
  = match find (fun p => Produto.id p =? fst item) (fst st) with
    | Some _ => st
    | None => (fst st ++ [novo_produto (fst item) (Py.strip (snd item))], snd st + 1)
    end.
Proof. reflexivity. Qed.

Lemma semear_fornecedor_def st nome :
  semear_fornecedor st nome
  = match find (fun f => String.eqb (Fornecedor.nome f) nome) (fst st) with
    | Some _ => st
    | None => (fst st ++ [{| Fornecedor.id := proximo_id (map Fornecedor.id (fst st));
                             Fornecedor.nome := nome;
                             Fornecedor.ativo := true |}], snd st + 1)
    end.
Proof. reflexivity. Qed.

(** The two outcomes of [inicializar_dados] without an exception: nothing
    was missing and nothing is committed, or the session is committed with
    the default user in it. *)
Lemma inicializar_dados_casos s s' prods forns :
  prods = fold_left semear_produto itens_padrao (produtos (dados s), 0) ->
  forns = fold_left semear_fornecedor fornecedores_padrao (fornecedores (dados s), 0) ->
  inicializar_dados generate_password_hash s = Some s' ->
  (s' = s /\ snd prods <= 0 /\ snd forns <= 0)
  \/ (exists us',
        s' = {| dados := {| produtos := fst prods;
                            fornecedores := fst forns;
                            requisicoes := requisicoes (dados s);
                            cotacoes := cotacoes (dados s);
                            requisicao_fornecedores := requisicao_fornecedores (dados s) |};
                usuarios := us' |}
        /\ usuario_por_username us' "admin" <> None
        /\ (us' = usuarios s
            \/ (us' = usuarios s ++ [admin_padrao generate_password_hash (usuarios s)]
                /\ usuario_por_username (usuarios s) "admin" = None
                /\ usuario_por_email (usuarios s) "admin@tindiana.com" = None))).
Proof.
  intros Ep Ef H. unfold inicializar_dados in H. rewrite <- Ep, <- Ef in H.
  clear Ep Ef.
  destruct (usuario_por_username (usuarios s) "admin") as [adm|] eqn:Ua;
    destruct (usuario_por_email (usuarios s) "admin@tindiana.com") as [em|] eqn:Ue;
    cbn [andb] in H; try discriminate H.
  - destruct ((0 <? snd prods) || (0 <? snd forns)) eqn:C.
    + right. exists (usuarios s). split; [congruence|]. split; [congruence | now left].
    + left. apply orb_false_iff in C as [C1 C2]. apply Z.ltb_ge in C1, C2.
      split; [congruence | auto].
  - destruct ((0 <? snd prods) || (0 <? snd forns)) eqn:C.
    + right. exists (usuarios s). split; [congruence|]. split; [congruence | now left].
    + left. apply orb_false_iff in C as [C1 C2]. apply Z.ltb_ge in C1, C2.
      split; [congruence | auto].
  - destruct ((0 <? snd prods) || (0 <? snd forns)) eqn:C.
    + right. exists (usuarios s ++ [admin_padrao generate_password_hash (usuarios s)]).
      split; [congruence|]. split; [|right; auto].
      unfold usuario_por_username in *. rewrite find_app_l, Ua.
      unfold admin_padrao, novo_usuario. cbn [find Usuario.username].
      rewrite String.eqb_refl. discriminate.
    + left. apply orb_false_iff in C as [C1 C2]. apply Z.ltb_ge in C1, C2.
      split; [congruence | auto].
Qed.

Lemma semear_sem_novos {A I} (passo : list A * Z -> I -> list A * Z) chave novo L st :
  (forall st i, passo st i = match find (fun a => chave a i) (fst st) with
                             | Some _ => st
                             | None => (fst st ++ [novo (fst st) i], snd st + 1)
                             end) ->
  snd (fold_left passo L st) <= snd st -> fst (fold_left passo L st) = fst st.
Proof.
  intros D H. destruct (semear_cresce chave novo passo D L st) as (novos & E1 & E2).
  rewrite E1. destruct novos; [apply app_nil_r|]. cbn [List.length] in E2. lia.
Qed.

(** X15. After [inicializar_dados] every default product code and every
    default supplier name is in the database, and running it again changes
    nothing. *)
Theorem inicializar_dados_idempotente (s s' : Sistema) :
  inicializar_dados generate_password_hash s = Some s' ->
  (forall item, In item itens_padrao -> get_produto (dados s') (fst item) <> None)
  /\ (forall nome, In nome fornecedores_padrao -> fornecedor_por_nome (dados s') nome <> None)
  /\ inicializar_dados generate_password_hash s' = Some s'.
Proof.
  intros H.
  remember (fold_left semear_produto itens_padrao (produtos (dados s), 0)) as prods eqn:Ep.
  remember (fold_left semear_fornecedor fornecedores_padrao (fornecedores (dados s), 0))
    as forns eqn:Ef.
  pose proof (inicializar_dados_casos s s' prods forns Ep Ef H) as C.
  assert (Pp : forall item, In item itens_padrao ->
                            find (fun p => Produto.id p =? fst item) (fst prods) <> None).
  { intros item Hi. rewrite Ep.
    apply (semear_presentes (fun p (item : Z * string) => Produto.id p =? fst item)
             (fun _ item => novo_produto (fst item) (Py.strip (snd item)))
             semear_produto semear_produto_def); [|exact Hi].
    intros l i. apply Z.eqb_refl. }
  assert (Pf : forall nome, In nome fornecedores_padrao ->
                            find (fun f => String.eqb (Fornecedor.nome f) nome) (fst forns) <> None).
  { intros nome Hi. rewrite Ef.
    apply (semear_presentes (fun f nome => String.eqb (Fornecedor.nome f) nome)
             (fun l nome => {| Fornecedor.id := proximo_id (map Fornecedor.id l);
                               Fornecedor.nome := nome; Fornecedor.ativo := true |})
             semear_fornecedor semear_fornecedor_def); [|exact Hi].
    intros l i. apply String.eqb_refl. }
  destruct C as [(-> & C1 & C2)|(us' & -> & Ua & _)].
  - assert (E1 : fst prods = produtos (dados s)).
    { rewrite Ep in C1 |- *.
      exact (semear_sem_novos semear_produto
               (fun p (item : Z * string) => Produto.id p =? fst item)
               (fun _ item => novo_produto (fst item) (Py.strip (snd item)))
               itens_padrao (produtos (dados s), 0) semear_produto_def C1). }
    assert (E2 : fst forns = fornecedores (dados s)).
    { rewrite Ef in C2 |- *.
      exact (semear_sem_novos semear_fornecedor
               (fun f nome => String.eqb (Fornecedor.nome f) nome)
               (fun l nome => {| Fornecedor.id := proximo_id (map Fornecedor.id l);
                                 Fornecedor.nome := nome; Fornecedor.ativo := true |})
               fornecedores_padrao (fornecedores (dados s), 0) semear_fornecedor_def C2). }
    rewrite E1 in Pp. rewrite E2 in Pf. repeat split; auto.
  - split; [exact Pp|]. split; [exact Pf|]. clear Ep Ef H.
    unfold inicializar_dados. cbn [dados usuarios produtos fornecedores].
    destruct (usuario_por_username us' "admin") as [adm|]; [|congruence]. cbn [andb].
    rewrite (semear_estavel (fun p (item : Z * string) => Produto.id p =? fst item)
               (fun _ item => novo_produto (fst item) (Py.strip (snd item)))
               semear_produto semear_produto_def itens_padrao (fst prods, 0) Pp).
    rewrite (semear_estavel (fun f nome => String.eqb (Fornecedor.nome f) nome)
               (fun l nome => {| Fornecedor.id := proximo_id (map Fornecedor.id l);
                                 Fornecedor.nome := nome; Fornecedor.ativo := true |})
               semear_fornecedor semear_fornecedor_def fornecedores_padrao
               (fst forns, 0) Pf).
    reflexivity.
Qed.

(** X16. On a database that already holds every default product and
    supplier [inicializar_dados] commits nothing: when the default user is
    missing it is not created either. *)
Theorem inicializar_dados_sem_faltas (s s' : Sistema) :
  (forall item, In item itens_padrao -> get_produto (dados s) (fst item) <> None) ->
  (forall nome, In nome fornecedores_padrao -> fornecedor_por_nome (dados s) nome <> None) ->
  inicializar_dados generate_password_hash s = Some s' ->
  s' = s.
Proof.
  intros Pp Pf. unfold inicializar_dados.
  rewrite (semear_estavel (fun p (item : Z * string) => Produto.id p =? fst item)
               (fun _ item => novo_produto (fst item) (Py.strip (snd item)))
               semear_produto semear_produto_def itens_padrao
             (produtos (dados s), 0) Pp).
  rewrite (semear_estavel (fun f nome => String.eqb (Fornecedor.nome f) nome)
               (fun l nome => {| Fornecedor.id := proximo_id (map Fornecedor.id l);
                                 Fornecedor.nome := nome; Fornecedor.ativo := true |})
               semear_fornecedor semear_fornecedor_def fornecedores_padrao
             (fornecedores (dados s), 0) Pf).
  cbn [snd Z.ltb Z.compare orb].
  destruct (_ && _); [discriminate|]. intros H. now inversion H.
Qed.

(** ** The keys of the users *)

Lemma usuarios_ok_spec us :
  usuarios_ok us = true <->
  NoDup (map Usuario.id us) /\ NoDup (map Usuario.username us) /\ NoDup (map Usuario.email us).
Proof.
  unfold usuarios_ok. rewrite !andb_true_iff.
  rewrite (sem_repeticao_NoDup Z.eqb) by (intros; apply Z.eqb_eq).
  rewrite !(sem_repeticao_NoDup String.eqb) by (intros; apply String.eqb_eq).
  tauto.
Qed.

Lemma usuarios_ok_novo us username email nome senha :
  usuarios_ok us = true ->
  usuario_por_username us username = None ->
  usuario_por_email us email = None ->
  usuarios_ok (us ++ [novo_usuario generate_password_hash us username email nome senha]) = true.
Proof.
  rewrite !usuarios_ok_spec. intros (H1 & H2 & H3) U M. rewrite !map_app. cbn [map].
  unfold novo_usuario. cbn [Usuario.id Usuario.username Usuario.email].
  repeat split; apply NoDup_snoc; auto.
  - apply proximo_id_novo.
  - now apply find_none_strs in U.
  - now apply find_none_strs in M.
Qed.

(** X17. The routes that create users and default data keep the keys:
    [admin_criar_usuario] leaves user keys, user names and e-mails unique,
    and so does [inicializar_dados], which also keeps the constraints of
    the five other tables. *)
Theorem usuarios_e_dados_integros (s s' : Sistema) (method : Method) (form : Form) :
  usuarios_ok (usuarios s) = true ->
  integro (dados s) = true ->
  usuarios_ok (fst (admin_criar_usuario generate_password_hash (usuarios s) method form)) = true
  /\ (inicializar_dados generate_password_hash s = Some s' ->
      usuarios_ok (usuarios s') = true /\ integro (dados s') = true).
Proof.
  intros Hu Hd. split.
  - destruct (admin_criar_usuario_casos (usuarios s) method form) as [->|(U & M & ->)];
      [exact Hu|].
    cbn [fst]. now apply usuarios_ok_novo.
  - intros H.
    remember (fold_left semear_produto itens_padrao (produtos (dados s), 0)) as prods eqn:Ep.
    remember (fold_left semear_fornecedor fornecedores_padrao (fornecedores (dados s), 0))
      as forns eqn:Ef.
    pose proof (inicializar_dados_casos s s' prods forns Ep Ef H) as C.
    destruct C as [(-> & _)|(us' & -> & _ & Us)]; [auto|]. cbn [usuarios dados]. split.
    + destruct Us as [->|(-> & U & M)]; [exact Hu|]. now apply usuarios_ok_novo.
    + apply integro_spec. apply integro_spec in Hd.
      destruct Hd as [H1 H2 H3 H4 H5 H6 H7 H8 H9].
      destruct (semear_cresce (fun p (item : Z * string) => Produto.id p =? fst item)
               (fun _ item => novo_produto (fst item) (Py.strip (snd item)))
               semear_produto semear_produto_def itens_padrao
                  (produtos (dados s), 0)) as (np & Gp & _).
      destruct (semear_cresce (fun f nome => String.eqb (Fornecedor.nome f) nome)
               (fun l nome => {| Fornecedor.id := proximo_id (map Fornecedor.id l);
                                 Fornecedor.nome := nome; Fornecedor.ativo := true |})
               semear_fornecedor semear_fornecedor_def fornecedores_padrao
                  (fornecedores (dados s), 0)) as (nf & Gf & _).
      rewrite <- Ep in Gp. rewrite <- Ef in Gf. cbn [fst] in Gp, Gf.
      constructor; cbn [produtos fornecedores requisicoes cotacoes requisicao_fornecedores]; auto.
      * rewrite Ep.
        apply (semear_invariante (fun p (item : Z * string) => Produto.id p =? fst item)
                 (fun _ item => novo_produto (fst item) (Py.strip (snd item)))
                 semear_produto semear_produto_def
                 (fun l => NoDup (map Produto.id l))); [|exact H1].
        intros l i Hl F. rewrite map_app. cbn. apply NoDup_snoc; [exact Hl|].
        now apply find_none_ids in F.
      * rewrite Ef.
        apply (semear_invariante (fun f nome => String.eqb (Fornecedor.nome f) nome)
                 (fun l nome => {| Fornecedor.id := proximo_id (map Fornecedor.id l);
                                   Fornecedor.nome := nome; Fornecedor.ativo := true |})
                 semear_fornecedor semear_fornecedor_def
                 (fun l => NoDup (map Fornecedor.id l))); [|exact H2].
        intros l i Hl F. rewrite map_app. cbn. apply NoDup_snoc; [exact Hl|].
        apply proximo_id_novo.
      * rewrite Ef.
        apply (semear_invariante (fun f nome => String.eqb (Fornecedor.nome f) nome)
                 (fun l nome => {| Fornecedor.id := proximo_id (map Fornecedor.id l);
                                   Fornecedor.nome := nome; Fornecedor.ativo := true |})
                 semear_fornecedor semear_fornecedor_def
                 (fun l => NoDup (map Fornecedor.nome l))); [|exact H3].
        intros l i Hl F. rewrite map_app. cbn. apply NoDup_snoc; [exact Hl|].
        now apply find_none_strs in F.
      * intros r Hr. rewrite Gp, map_app. apply in_or_app. left. auto.
      * intros c Hc. rewrite Gp, Gf, !map_app.
        split; apply in_or_app; left; now apply H8.
      * intros row Hr. rewrite Gf, map_app. split; [now apply H9|].
        apply in_or_app; left; now apply H9.
Qed.

End Usuarios.

Lemma check_exemplo_confere senha : check_exemplo (hash_exemplo senha) senha = true.
Proof. unfold check_exemplo. apply String.eqb_refl. Qed.

Lemma usuario_criado_faz_login_witness :
  login check_exemplo [usuario_maria] None POST form_login_maria
  = (Some {| usuario_id := 1; sessao_username := "maria"; sessao_nome := "maria" |}, BemVindo)
  /\ (6 <= String.length "segredo1")%nat.
Proof.
  exact (usuario_criado_faz_login hash_exemplo check_exemplo check_exemplo_confere
           [] [usuario_maria] form_usuario form_login_maria eq_refl eq_refl eq_refl).
Defined.

Lemma inicializar_dados_idempotente_witness :
  get_produto (dados sistema_padrao) 2289 <> None
  /\ inicializar_dados hash_exemplo sistema_padrao = Some sistema_padrao.
Proof.
  assert (E : inicializar_dados hash_exemplo sistema_vazio = Some sistema_padrao)
    by (vm_compute; reflexivity).
  destruct (inicializar_dados_idempotente hash_exemplo sistema_vazio sistema_padrao E)
    as (P & _ & I).
  split; [|exact I]. apply (P (2289%Z, "BORRACHA SUPORTE PARALAMA SCANIA"%string)).
  left. reflexivity.
Defined.

Lemma inicializar_dados_sem_faltas_witness :
  exists s', inicializar_dados hash_exemplo sistema_sem_admin = Some s'
             /\ s' = sistema_sem_admin
             /\ usuario_por_username (usuarios s') "admin" = None.
Proof.
  assert (E : inicializar_dados hash_exemplo sistema_sem_admin = Some sistema_sem_admin)
    by (vm_compute; reflexivity).
  exists sistema_sem_admin. split; [exact E|]. split; [|reflexivity].
  apply (inicializar_dados_sem_faltas hash_exemplo sistema_sem_admin sistema_sem_admin);
    [| |exact E].
  - intros item Hi.
    repeat (destruct Hi as [<-|Hi]; [vm_compute; discriminate|]). destruct Hi.
  - intros nome Hi.
    repeat (destruct Hi as [<-|Hi]; [vm_compute; discriminate|]). destruct Hi.
Defined.

Lemma usuarios_e_dados_integros_witness :
  usuarios_ok (fst (admin_criar_usuario hash_exemplo (usuarios sistema_vazio) POST form_usuario))
  = true
  /\ usuarios_ok (usuarios sistema_padrao) = true
  /\ integro (dados sistema_padrao) = true.
Proof.
  destruct (usuarios_e_dados_integros hash_exemplo sistema_vazio sistema_padrao POST form_usuario
              eq_refl eq_refl) as [A B].
  split; [exact A|]. apply B. vm_compute. reflexivity.
Defined.
